(** * ai-anomaly-detector: ingestion and rule-based scoring

    A shallow embedding of the connector layer
    ([src/data/connectors/*.py]) and of the rule-based scorer
    ([src/ml/simple_anomaly_detector.py]), with the properties the
    specification states about them.

    Conventions of the embedding:
    - a Python [dict] with string keys is a [gmap string pyval];
    - Python [int] is [Z]; a finite Python [float] is the rational it
      denotes ([Q]); every float that the scoring path computes
      ([0 * 0.4], [1 * 0.4], [2 * 0.4], ... and the literals [0.2],
      [0.4], [0.6], [1.0]) is compared exactly as its rational
      counterpart is, see [Float64] and [analyze_event_float];
    - Python [str] is [string], read as a sequence of one-byte characters;
    - code that can raise runs in the [result] monad, and [try]/[except]
      is an explicit handler;
    - [datetime.now()] is an explicit clock argument. *)

From stdpp Require Import gmap strings list fin_maps pretty.
From Stdlib Require Import Ascii QArith Qminmax Qround Lqa PrimFloat Uint63.

#[local] Set Warnings "-register-all".
#[local] Open Scope Z_scope.

(** ** Python values, exceptions and the few built-ins the code uses *)

Module Py.

Inductive pyval :=
  | VNone
  | VBool (b : bool)
  | VInt (z : Z)
  | VFloat (q : Q)
  | VNaN
  | VStr (s : string)
  | VDict (d : gmap string pyval).

Inductive exn_class :=
  | KeyError | AttributeError | TypeError | ValueError | IndexError | OSError
  | UnicodeDecodeError.

Record exn := mkExn { exn_cls : exn_class; exn_msg : string }.

Inductive result (A : Type) :=
  | Ok (a : A)
  | Raise (e : exn).
Arguments Ok {A} a.
Arguments Raise {A} e.

#[export] Instance result_ret : MRet result := fun _ a => Ok a.
#[export] Instance result_bind : MBind result := fun _ _ f m =>
  match m with Ok a => f a | Raise e => Raise e end.
#[export] Instance result_fmap : FMap result := fun _ _ f m =>
  match m with Ok a => Ok (f a) | Raise e => Raise e end.

Definition returns {A} (m : result A) : Prop := exists a, m = Ok a.

(** [d.get(k)] and [d.get(k, default)] *)
Definition dict_get (d : gmap string pyval) (k : string) : pyval :=
  default VNone (d !! k).
Definition dict_get_default (d : gmap string pyval) (k : string) (dflt : pyval) : pyval :=
  default dflt (d !! k).

(** [repr] of a string without quotes or escapes in it *)
Definition repr_str (s : string) : string := "'" +:+ s +:+ "'".

(** [d[k]] *)
Definition getitem (d : gmap string pyval) (k : string) : result pyval :=
  match d !! k with
  | Some v => Ok v
  | None => Raise (mkExn KeyError (repr_str k))
  end.

(** [v == s] for a string literal [s] *)
Definition eq_str (v : pyval) (s : string) : bool :=
  match v with VStr t => String.eqb t s | _ => false end.

(** [v in l] for a list [l] of strings *)
Definition in_strs (v : pyval) (l : list string) : bool :=
  match v with VStr t => bool_decide (t ∈ l) | _ => false end.

Definition type_name (v : pyval) : string :=
  match v with
  | VNone => "NoneType" | VBool _ => "bool" | VInt _ => "int"
  | VFloat _ | VNaN => "float" | VStr _ => "str" | VDict _ => "dict"
  end.

Definition no_attribute (v : pyval) (attr : string) : exn :=
  mkExn AttributeError
    (repr_str (type_name v) +:+ " object has no attribute " +:+ repr_str attr).

(** [v > n] for an integer literal [n]; ordering a number against [None],
    a string or a dict raises [TypeError] *)
Definition gt_int (v : pyval) (n : Z) : result bool :=
  match v with
  | VInt z => Ok (n <? z)
  | VBool b => Ok (n <? (if b then 1 else 0))
  | VFloat q => Ok (negb (Qle_bool q (inject_Z n)))
  | VNaN => Ok false
  | _ => Raise (mkExn TypeError
           (repr_str ">" +:+ " not supported between instances of "
            +:+ repr_str (type_name v) +:+ " and " +:+ repr_str "int"))
  end.

(** *** Strings *)

Definition lower_ascii (c : ascii) : ascii :=
  let n := nat_of_ascii c in
  if ((65 <=? n) && (n <=? 90))%nat then ascii_of_nat (n + 32) else c.

Fixpoint lower (s : string) : string :=
  match s with
  | EmptyString => EmptyString
  | String c t => String (lower_ascii c) (lower t)
  end.

Definition startswith (s p : string) : bool := String.prefix p s.

Fixpoint contains (needle hay : string) : bool :=
  String.prefix needle hay ||
  match hay with
  | EmptyString => false
  | String _ t => contains needle t
  end.

Definition endswith (s p : string) : bool :=
  let n := String.length s in
  let m := String.length p in
  (m <=? n)%nat && String.eqb (String.substring (n - m) m s) p.

(** [s.replace(c, r)] for a one-character pattern [c] *)
Fixpoint replace_char (c : ascii) (r : string) (s : string) : string :=
  match s with
  | EmptyString => EmptyString
  | String a t =>
      if Ascii.eqb a c then r +:+ replace_char c r t
      else String a (replace_char c r t)
  end.

(** [str.isspace] on ASCII characters *)
Definition is_space (c : ascii) : bool :=
  let n := nat_of_ascii c in
  ((9 <=? n) && (n <=? 13) || (28 <=? n) && (n <=? 32))%nat.

Fixpoint lstrip (s : string) : string :=
  match s with
  | String c t => if is_space c then lstrip t else s
  | EmptyString => EmptyString
  end.

Fixpoint rstrip (s : string) : string :=
  match s with
  | EmptyString => EmptyString
  | String c t =>
      match rstrip t with
      | EmptyString => if is_space c then EmptyString else String c EmptyString
      | t' => String c t'
      end
  end.

Definition strip (s : string) : string := rstrip (lstrip s).

(** [v.lower()] and [v.startswith(p)] on an arbitrary value *)
Definition lower_of (v : pyval) : result string :=
  match v with VStr s => Ok (lower s) | _ => Raise (no_attribute v "lower") end.

Definition startswith_of (v : pyval) (p : string) : result bool :=
  match v with
  | VStr s => Ok (startswith s p)
  | _ => Raise (no_attribute v "startswith")
  end.

(** [min(a, b)]: the first argument unless the second is strictly smaller *)
Definition py_min (a b : Q) : Q := if Qlt_le_dec b a then b else a.

Definition digit (c : ascii) : option Z :=
  let n := nat_of_ascii c in
  if ((48 <=? n) && (n <=? 57))%nat then Some (Z.of_nat (n - 48)) else None.

Fixpoint number (acc : Z) (s : string) : option Z :=
  match s with
  | EmptyString => Some acc
  | String c t => d ← digit c; number (10 * acc + d) t
  end.

(** [int(s)] on an unsigned decimal numeral *)
Definition int_of_str (s : string) : result Z :=
  match (match s with EmptyString => None | _ => number 0 s end) with
  | Some z => Ok z
  | None => Raise (mkExn ValueError
              ("invalid literal for int() with base 10: " +:+ repr_str s))
  end.

(** [try: m  except Exception as e: h e] *)
Definition try_catch {A} (m : result A) (h : exn -> result A) : result A :=
  match m with Ok a => Ok a | Raise e => h e end.

(** A [datetime]; [dt_utcoffset] is the offset in minutes of an aware one. *)
Record datetime := mkDatetime {
  dt_year : Z; dt_month : Z; dt_day : Z;
  dt_hour : Z; dt_minute : Z; dt_second : Z;
  dt_utcoffset : option Z
}.

End Py.

Import Py.

(** ** Regular expressions: the fragment of [re] the connectors use

    A backtracking matcher in continuation-passing style with Python's
    priorities: [Alt] tries its left branch first, [Star] is greedy, and
    [search] returns the leftmost match. Character classes are the ASCII
    ones. *)

Module Regex.

Inductive regex :=
  | Eps
  | Chr (ok : ascii -> bool)
  | Seq (r1 r2 : regex)
  | Alt (r1 r2 : regex)
  | Star (r : regex)
  | Group (i : nat) (r : regex).

Definition consumed (s rest : string) : string :=
  String.substring 0 (String.length s - String.length rest) s.

Fixpoint run {R} (r : regex) (s : string) (caps : list (option string))
    (k : string -> list (option string) -> option R) : option R :=
  match r with
  | Eps => k s caps
  | Chr ok =>
      match s with
      | String c t => if ok c then k t caps else None
      | EmptyString => None
      end
  | Seq a b => run a s caps (fun s' caps' => run b s' caps' k)
  | Alt a b =>
      match run a s caps k with
      | Some x => Some x
      | None => run b s caps k
      end
  | Star a =>
      (fix loop (fuel : nat) (s : string) (caps : list (option string)) :=
         match fuel with
         | O => k s caps
         | S fuel' =>
             match run a s caps (fun s' caps' =>
                     if (String.length s' <? String.length s)%nat
                     then loop fuel' s' caps' else None) with
             | Some x => Some x
             | None => k s caps
             end
         end) (S (String.length s)) s caps
  | Group i a =>
      run a s caps (fun s' caps' => k s' (<[i := Some (consumed s s')]> caps'))
  end.

(** [re.match(r, s)] for a pattern with [n] groups: the groups, or [None] *)
Definition rmatch (n : nat) (r : regex) (s : string) : option (list (option string)) :=
  run r s (replicate n None) (fun _ caps => Some caps).

(** [re.search(r, s)] *)
Fixpoint search (n : nat) (r : regex) (s : string) : option (list (option string)) :=
  match rmatch n r s with
  | Some caps => Some caps
  | None =>
      match s with
      | EmptyString => None
      | String _ t => search n r t
      end
  end.

Definition plus (r : regex) : regex := Seq r (Star r).

Fixpoint seqs (l : list regex) : regex :=
  match l with
  | [] => Eps
  | [r] => r
  | r :: t => Seq r (seqs t)
  end.

Fixpoint lit (s : string) : regex :=
  match s with
  | EmptyString => Eps
  | String c EmptyString => Chr (Ascii.eqb c)
  | String c t => Seq (Chr (Ascii.eqb c)) (lit t)
  end.

Fixpoint times (n : nat) (r : regex) : regex :=
  match n with
  | O => Eps
  | S O => r
  | S m => Seq r (times m r)
  end.

Definition between (lo hi : nat) (c : ascii) : bool :=
  let n := nat_of_ascii c in ((lo <=? n) && (n <=? hi))%nat.

Definition is_digit (c : ascii) : bool := between 48 57 c.
Definition is_word (c : ascii) : bool :=
  between 97 122 c || between 65 90 c || is_digit c || Ascii.eqb c "_".
Fixpoint one_of (s : string) (c : ascii) : bool :=
  match s with
  | EmptyString => false
  | String a t => Ascii.eqb c a || one_of t c
  end.

(** [\d], [\w], [\s], [\S] and [.] *)
Definition d : regex := Chr is_digit.
Definition w : regex := Chr is_word.
Definition sp : regex := Chr is_space.
Definition nsp : regex := Chr (fun c => negb (is_space c)).
Definition dot : regex := Chr (fun c => negb (Ascii.eqb c "010")).

(** [m.groups()] unpacked into three, respectively nine, names *)
Definition unpack3 (caps : list (option string)) : result (string * string * string) :=
  match caps with
  | [Some a; Some b; Some c] => Ok (a, b, c)
  | _ => Raise (mkExn TypeError "unexpected groups")
  end.

Definition unpack9 (caps : list (option string))
    : result (string * string * string * string * string
              * string * string * string * string) :=
  match caps with
  | [Some a; Some b; Some c; Some d; Some e; Some f; Some g; Some h; Some i] =>
      Ok (a, b, c, d, e, f, g, h, i)
  | _ => Raise (mkExn TypeError "unexpected groups")
  end.

End Regex.

(** ** The rule-based scorer: [src/ml/simple_anomaly_detector.py] *)

Module Detector.

(** One entry of [self.user_profiles], as [create_user_profiles] builds it.
    The countries and locations are the strings seen in the training
    batch. [avg] fields hold a float when computed and the integer
    literal of the source when defaulted. *)
Record login_hours := mkLoginHours {
  hours_min : Z; hours_max : Z; hours_avg : pyval
}.

Record file_sizes := mkFileSizes { sizes_avg : pyval; sizes_max : pyval }.

Record profile := mkProfile {
  user_id : Z;
  name : pyval;
  normal_login_hours : login_hours;
  normal_countries : list string;
  normal_locations : list string;
  avg_files_per_day : pyval;
  typical_file_sizes : file_sizes
}.

Inductive alert := HIGH | MEDIUM | LOW | NORMAL.

(** The dictionary [analyze_event] returns. *)
Record analysis := mkAnalysis {
  event : gmap string pyval;
  anomalies : list string;
  overall_risk_score : Q;
  alert_level : alert;
  is_suspicious : bool;
  timestamp_analyzed : string
}.

(** [self.suspicious_countries] *)
Definition suspicious_countries : list string :=
  ["Russia"; "China"; "North Korea"; "Unknown"].

Definition trusted_locations : list string :=
  ["New York"; "California"; "Texas"; "Florida"; "Illinois"].

Definition sensitive_words : list string :=
  ["database"; "customer"; "entire"; "backup"; ".sql"].

(** *** Profile construction, lines 20-54

    The training batch is a data frame: named columns and rows. The rows
    are read with [user_id] an integer column, [timestamp], [event_type],
    [country] and [location] string columns and [file_size_mb] a float
    column whose missing cells are NaN ([None] here); a cell of a column
    the frame does not have is never looked at. *)

Record row := mkRow {
  row_user_id : Z;
  row_timestamp : string;
  row_event_type : string;
  row_user_name : pyval;
  row_country : string;
  row_location : string;
  row_file_size_mb : option Q
}.

Record dataframe := mkDataframe { columns : list string; rows : list row }.

(** [Series.unique()]: distinct values in order of first appearance *)
Fixpoint unique `{EqDecision A} (l : list A) : list A :=
  match l with
  | [] => []
  | x :: t => x :: filter (fun y => y <> x) (unique t)
  end.

(** [df[c]] on a frame without column [c] *)
Definition column (df : dataframe) (c : string) : result unit :=
  if bool_decide (c ∈ columns df) then Ok tt
  else Raise (mkExn KeyError (repr_str c)).

Fixpoint mapM {A B} (f : A -> result B) (l : list A) : result (list B) :=
  match l with
  | [] => Ok []
  | x :: t => y ← f x; ys ← mapM f t; Ok (y :: ys)
  end.

Fixpoint foldM {A S} (f : S -> A -> result S) (s : S) (l : list A) : result S :=
  match l with
  | [] => Ok s
  | x :: t => s' ← f s x; foldM f s' t
  end.

Definition qsum (l : list Q) : Q := fold_right Qplus 0%Q l.
Definition qmax (a b : Q) : Q := if Qle_bool a b then b else a.

(** [Series.mean()] and [Series.max()] skip NaN cells and are NaN on none;
    [float(...)] of the outcome *)
Definition series_mean (l : list Q) : pyval :=
  match l with
  | [] => VNaN
  | _ => VFloat (qsum l / inject_Z (Z.of_nat (length l)))%Q
  end.

Definition series_max (l : list Q) : pyval :=
  match l with
  | [] => VNaN
  | x :: t => VFloat (fold_left qmax t x)
  end.

Definition zmin_list (x : Z) (l : list Z) : Z := fold_left Z.min l x.
Definition zmax_list (x : Z) (l : list Z) : Z := fold_left Z.max l x.

Definition is_login (r : row) : bool := String.eqb (row_event_type r) "login".
Definition is_file_access (r : row) : bool :=
  String.eqb (row_event_type r) "file_access".

(** [df[df['user_id'] == user_id]] *)
Definition user_rows (df : dataframe) (uid : Z) : list row :=
  filter (fun r => row_user_id r = uid) (rows df).

Section Training.

Variable to_datetime : string -> result datetime.

(** One iteration of the loop over [df['user_id'].unique()]. *)
Definition build_profile (df : dataframe) (uid : Z) : result profile :=
  let user_data := user_rows df uid in
  _ ← column df "timestamp";
  stamps ← mapM (fun r => to_datetime (row_timestamp r)) user_data;
  let with_hour := zip user_data (dt_hour <$> (stamps : list datetime)) in
  _ ← column df "event_type";
  let login_hours : list Z :=
    snd <$> filter (fun rh => is_login (fst rh)) with_hour in
  let file_data := filter is_file_access user_data in
  shown ← (if bool_decide ("user_name" ∈ columns df)
           then match user_data with
                | r :: _ => Ok (row_user_name r)
                | [] => Raise (mkExn IndexError
                          "single positional indexer is out-of-bounds")
                end
           else Ok (VStr ("User " +:+ pretty uid)));
  let sized := bool_decide ("file_size_mb" ∈ columns df) in
  let sizes : list Q := omap row_file_size_mb file_data in
  Ok {| user_id := uid;
        name := shown;
        normal_login_hours :=
          match login_hours with
          | h :: hs =>
              mkLoginHours (zmin_list h hs) (zmax_list h hs)
                (VFloat (inject_Z (foldr Z.add 0%Z login_hours)
                         / inject_Z (Z.of_nat (length login_hours)))%Q)
          | [] => mkLoginHours 9 17 (VInt 13)
          end;
        normal_countries :=
          if bool_decide ("country" ∈ columns df)
          then unique (row_country <$> user_data) else ["United States"];
        normal_locations :=
          if bool_decide ("location" ∈ columns df)
          then unique (row_location <$> user_data) else ["Unknown"];
        avg_files_per_day :=
          match file_data with
          | _ :: _ => VFloat (inject_Z (Z.of_nat (length file_data)) / 30)%Q
          | [] => VInt 0
          end;
        typical_file_sizes :=
          match file_data with
          | _ :: _ =>
              if sized then mkFileSizes (series_mean sizes) (series_max sizes)
              else mkFileSizes (VInt 0) (VInt 0)
          | [] => mkFileSizes (VInt 0) (VInt 0)
          end |}.

Definition create_user_profiles (df : dataframe) : result (gmap Z profile) :=
  _ ← column df "user_id";
  foldM (fun profiles uid =>
           p ← build_profile df uid; Ok (<[uid := p]> profiles))
        ∅ (unique (row_user_id <$> rows df)).

End Training.

(** The body of a [try] block that appends to [anomalies] as it goes:
    what was appended before an exception stays appended. *)
Definition body (A : Type) : Type := list string -> list string * result A.

#[export] Instance body_ret : MRet body := fun _ a acc => (acc, Ok a).
#[export] Instance body_bind : MBind body := fun _ _ f m acc =>
  match m acc with
  | (acc', Ok a) => f a acc'
  | (acc', Raise e) => (acc', Raise e)
  end.

Definition append (msg : string) : body unit := fun acc => (acc ++ [msg], Ok tt).
Definition lift {A} (r : result A) : body A := fun acc => (acc, r).
Definition when (b : bool) (m : body unit) : body unit := if b then m else mret tt.

(** [try: b  except Exception as e: anomalies.append(handler e)] *)
Definition try_except (b : body unit) (handler : exn -> string)
    (acc : list string) : list string :=
  match b acc with
  | (acc', Ok _) => acc'
  | (acc', Raise e) => acc' ++ [handler e]
  end.

(** The key under which a value is looked up in a dict with integer keys:
    [True == 1] and [1.0 == 1] hash alike; a dict is unhashable. *)
Definition hash_key (v : pyval) : result (option Z) :=
  match v with
  | VInt z => Ok (Some z)
  | VBool b => Ok (Some (if b then 1 else 0))
  | VFloat q => Ok (if Qeq_bool q (inject_Z (Qfloor q)) then Some (Qfloor q) else None)
  | VDict _ => Raise (mkExn TypeError "unhashable type: 'dict'")
  | VNone | VNaN | VStr _ => Ok None
  end.

Section Scoring.

(** Library functions the scorer calls: [datetime.fromisoformat],
    [pandas.to_datetime] on one string, and [str] on floats and dicts. *)
Variable fromisoformat : string -> result datetime.
Variable to_datetime : string -> result datetime.
Variable str_other : pyval -> string.

(** [self.user_profiles] *)
Variable user_profiles : gmap Z profile.

(** [str(v)], also what an f-string interpolates *)
Definition py_str (v : pyval) : string :=
  match v with
  | VStr s => s
  | VInt z => pretty z
  | VNone => "None"
  | VBool true => "True"
  | VBool false => "False"
  | _ => str_other v
  end.

(** [user_profiles.get(user_id)], raising where [in] does *)
Definition lookup_profile (uid : pyval) : result (option profile) :=
  k ← hash_key uid; mret (k ≫= (user_profiles !!.)).

(** Lines 84-87: which parser reads the time stamp. *)
Definition parse_timestamp (timestamp_str : string) : result datetime :=
  if contains "T" timestamp_str
  then fromisoformat (replace_char "Z" "+00:00" timestamp_str)
  else to_datetime timestamp_str.

(** Lines 91-97: the hour against the fixed window and the profile's. *)
Definition time_rule (hour : Z) (p : profile) : body unit :=
  let normal_start := hours_min (normal_login_hours p) in
  let normal_end := hours_max (normal_login_hours p) in
  if (hour <? 6) || (22 <? hour) then
    append ("Very unusual login time: " +:+ pretty hour +:+ ":00")
  else if (hour <? normal_start - 1) || (normal_end + 1 <? hour) then
    append ("Outside normal hours: " +:+ pretty hour +:+ ":00 (normal: "
            +:+ pretty normal_start +:+ "-" +:+ pretty normal_end +:+ ")")
  else mret tt.

(** Lines 100-102 *)
Definition country_rule (ev : gmap string pyval) : body unit :=
  let country := dict_get_default ev "country" (VStr "Unknown") in
  when (in_strs country suspicious_countries)
    (append ("Login from suspicious country: " +:+ py_str country)).

(** Lines 105-107 *)
Definition location_rule (ev : gmap string pyval) (p : profile) : body unit :=
  let location := dict_get_default ev "location" (VStr "Unknown") in
  when (negb (in_strs location (normal_locations p))
        && negb (in_strs location trusted_locations))
    (append ("Login from unusual location: " +:+ py_str location)).

(** Lines 110-112 *)
Definition ip_rule (ev : gmap string pyval) : body unit :=
  let source_ip := dict_get_default ev "source_ip" (VStr "") in
  local ← lift (startswith_of source_ip "192.168.1.");
  when (negb local)
    (append ("Login from external IP: " +:+ py_str source_ip)).

(** The [try] body of the login branch, lines 83-112. *)
Definition login_rules (ev : gmap string pyval) (p : profile) : body unit :=
  ts ← lift (getitem ev "timestamp");
  let timestamp_str := py_str ts in
  timestamp ← lift (parse_timestamp timestamp_str);
  let hour := dt_hour timestamp in
  time_rule hour p;;
  country_rule ev;;
  location_rule ev p;;
  ip_rule ev.

(** The file-access branch, lines 119-132; nothing catches what it raises. *)
Definition file_rules (ev : gmap string pyval) (acc : list string)
    : result (list string) :=
  let file_size := dict_get_default ev "file_size_mb" (VInt 0) in
  large ← gt_int file_size 100;
  let acc := if (large : bool)
             then acc ++ ["Large file access: " +:+ py_str file_size +:+ "MB"]
             else acc in
  download ← (if eq_str (dict_get ev "action") "download"
              then gt_int file_size 50 else Ok false);
  let acc := if (download : bool)
             then acc ++ ["File download: " +:+ py_str file_size +:+ "MB"]
             else acc in
  let file_name := dict_get_default ev "file_name" (VStr "") in
  lowered ← lower_of file_name;
  mret (if existsb (fun word => contains word lowered) sensitive_words
        then acc ++ ["Sensitive file access: " +:+ py_str file_name]
        else acc).

Definition detect_rule_based_anomalies (ev : gmap string pyval)
    : result (list string) :=
  found ← lookup_profile (dict_get ev "user_id");
  match found with
  | None => Ok ["Unknown user"]
  | Some p =>
      let acc := [] in
      let acc :=
        if eq_str (dict_get ev "event_type") "login"
        then try_except (login_rules ev p)
               (fun e => "Error parsing timestamp: " +:+ exn_msg e) acc
        else acc in
      if eq_str (dict_get ev "event_type") "file_access"
      then file_rules ev acc
      else Ok acc
  end.

Definition rule_score (n : nat) : Q := (inject_Z (Z.of_nat n) * 0.4)%Q.

Definition overall_score (n : nat) : Q := py_min 1 (rule_score n).

Definition level_of (score : Q) : alert :=
  if Qle_bool 0.6 score then HIGH
  else if Qle_bool 0.4 score then MEDIUM
  else if Qle_bool 0.2 score then LOW
  else NORMAL.

(** [now] is the value of [datetime.now().isoformat()] at the call. *)
Definition analyze_event (now : string) (ev : gmap string pyval)
    : result analysis :=
  rule_anomalies ← detect_rule_based_anomalies ev;
  let score := overall_score (length rule_anomalies) in
  mret {| event := ev;
          anomalies := rule_anomalies;
          overall_risk_score := score;
          alert_level := level_of score;
          is_suspicious := Qle_bool 0.4 score;
          timestamp_analyzed := now |}.

End Scoring.

End Detector.

(** ** The score in binary64

    Lines 142-160 as Python runs them, on IEEE doubles: the literals are
    the doubles nearest to 0.4, 0.2 and 0.6. *)

Module Float64.

Import Detector.

#[local] Set Warnings "-inexact-float".

Definition overall_score (n : nat) : float :=
  let rule_score := PrimFloat.mul (PrimFloat.of_uint63 (Uint63.of_Z (Z.of_nat n))) 0.4%float in
  if PrimFloat.ltb rule_score 1%float then rule_score else 1%float.

Definition level_of (score : float) : alert :=
  if PrimFloat.leb 0.6%float score then HIGH
  else if PrimFloat.leb 0.4%float score then MEDIUM
  else if PrimFloat.leb 0.2%float score then LOW
  else NORMAL.

Definition is_suspicious (score : float) : bool := PrimFloat.leb 0.4%float score.

End Float64.

(** ** Connectors: [src/data/connectors/]

    What the operating system holds: for each path that exists, the bytes
    of the file and whether this process may open and read it. *)

Record file := mkFile { content : string; readable : bool }.

Module Connector.

(** The keys of a normalized event. *)
Definition event_keys : list string :=
  ["timestamp"; "user_id"; "user_name"; "event_type"; "source_ip";
   "location"; "country"; "device"; "success"; "file_name";
   "file_size_mb"; "action"; "details"; "source"].

Section Base.

(** [datetime.now()] at the call, [datetime.isoformat] and
    [datetime.strptime]; [class_name] is [self.__class__.__name__]. *)
Variable now : datetime.
Variable isoformat : datetime -> string.
Variable strptime : string -> string -> result datetime.
Variable class_name : string.

(** [BaseConnector.standardize_event], lines 71-87 *)
Definition standardize_event (event_data : gmap string pyval)
    : gmap string pyval :=
  list_to_map [
    ("timestamp", dict_get_default event_data "timestamp" (VStr (isoformat now)));
    ("user_id", dict_get event_data "user_id");
    ("user_name", dict_get event_data "user_name");
    ("event_type", dict_get event_data "event_type");
    ("source_ip", dict_get event_data "source_ip");
    ("location", dict_get_default event_data "location" (VStr "Unknown"));
    ("country", dict_get_default event_data "country" (VStr "Unknown"));
    ("device", dict_get event_data "device");
    ("success", dict_get_default event_data "success" (VBool true));
    ("file_name", dict_get event_data "file_name");
    ("file_size_mb", dict_get event_data "file_size_mb");
    ("action", dict_get event_data "action");
    ("details", dict_get_default event_data "details" (VDict ∅));
    ("source", VStr class_name)
  ].

(** *** Tailing log files

    [fetch_events] is the same text in [LinuxAuthConnector] and
    [WebLogConnector]. The connector's state is [self.log_files] and
    [self.last_positions]; the generator is run to exhaustion against one
    snapshot [fs] of the files, and what it printed is returned next to
    what it yielded. *)

Record tail_state := mkTail {
  log_files : list string;
  last_positions : gmap string Z
}.

(** [_get_file_size]: [os.path.getsize], and 0 when that raises *)
Definition _get_file_size (fs : gmap string file) (file_path : string) : Z :=
  match fs !! file_path with
  | Some f => Z.of_nat (String.length (content f))
  | None => 0
  end.

Definition newline : string := String "010" EmptyString.

(** [f.readlines()] in text mode: lines end at a line feed, a carriage
    return or both, and keep a single line feed. [cur] is the line read
    so far. *)
Fixpoint readlines (cur : string) (s : string) : list string :=
  match s with
  | EmptyString =>
      match cur with EmptyString => [] | _ => [cur] end
  | String c t =>
      if Ascii.eqb c "010" then (cur +:+ newline) :: readlines EmptyString t
      else if Ascii.eqb c "013" then
        match t with
        | String c' t' =>
            if Ascii.eqb c' "010"
            then (cur +:+ newline) :: readlines EmptyString t'
            else (cur +:+ newline) :: readlines EmptyString t
        | EmptyString => [cur +:+ newline]
        end
      else readlines (cur +:+ String c EmptyString) t
  end.

(** *** Decoding

    [open(path, 'r')] decodes what it reads as UTF-8 and raises
    [UnicodeDecodeError] at the first sequence that is not well formed:
    a byte that cannot start one, a byte that cannot continue one
    (overlong forms, surrogates and code points above U+10FFFF fail at
    their second byte), or the end of the data inside one. [utf8_error]
    finds it: where the sequence starts, how many bytes are at fault, its
    first byte, and why. Decoded text is kept as its bytes. *)

Inductive decode_reason := InvalidStart | InvalidContinuation | UnexpectedEnd.

Record decode_error := mkDecodeError {
  err_start : nat;
  err_length : nat;
  err_byte : ascii;
  err_reason : decode_reason
}.

Definition continuation (c : ascii) : bool := Regex.between 128 191 c.

Definition second_of_three (lead : nat) (c : ascii) : bool :=
  if (lead =? 224)%nat then Regex.between 160 191 c
  else if (lead =? 237)%nat then Regex.between 128 159 c
  else continuation c.

Definition second_of_four (lead : nat) (c : ascii) : bool :=
  if (lead =? 240)%nat then Regex.between 144 191 c
  else if (lead =? 244)%nat then Regex.between 128 143 c
  else continuation c.

Fixpoint utf8_error (pos : nat) (s : string) : option decode_error :=
  match s with
  | EmptyString => None
  | String a t =>
      let lead := nat_of_ascii a in
      if (lead <? 128)%nat then utf8_error (S pos) t
      else if (lead <? 194)%nat then Some (mkDecodeError pos 1 a InvalidStart)
      else if (lead <? 224)%nat then
        match t with
        | EmptyString => Some (mkDecodeError pos 1 a UnexpectedEnd)
        | String b u =>
            if continuation b then utf8_error (pos + 2) u
            else Some (mkDecodeError pos 1 a InvalidContinuation)
        end
      else if (lead <? 240)%nat then
        match t with
        | EmptyString => Some (mkDecodeError pos 1 a UnexpectedEnd)
        | String b u =>
            if negb (second_of_three lead b)
            then Some (mkDecodeError pos 1 a InvalidContinuation)
            else
              match u with
              | EmptyString => Some (mkDecodeError pos 2 a UnexpectedEnd)
              | String c v =>
                  if continuation c then utf8_error (pos + 3) v
                  else Some (mkDecodeError pos 2 a InvalidContinuation)
              end
        end
      else if (lead <? 245)%nat then
        match t with
        | EmptyString => Some (mkDecodeError pos 1 a UnexpectedEnd)
        | String b u =>
            if negb (second_of_four lead b)
            then Some (mkDecodeError pos 1 a InvalidContinuation)
            else
              match u with
              | EmptyString => Some (mkDecodeError pos 2 a UnexpectedEnd)
              | String c v =>
                  if negb (continuation c)
                  then Some (mkDecodeError pos 2 a InvalidContinuation)
                  else
                    match v with
                    | EmptyString => Some (mkDecodeError pos 3 a UnexpectedEnd)
                    | String d w =>
                        if continuation d then utf8_error (pos + 4) w
                        else Some (mkDecodeError pos 3 a InvalidContinuation)
                    end
              end
        end
      else Some (mkDecodeError pos 1 a InvalidStart)
  end.

(** What is read decodes. *)
Definition utf8_valid (s : string) : bool :=
  match utf8_error 0 s with None => true | Some _ => false end.

Definition hex_digit (n : nat) : ascii :=
  if (n <? 10)%nat then ascii_of_nat (48 + n) else ascii_of_nat (87 + n).

(** [str(e)] of the [UnicodeDecodeError]. Positions are counted from
    where the read began, as the reader counts them while what is left
    of the file fits its chunk of 8192 bytes; a sequence cut off by the
    end of the file is decoded on its own, at position 0. *)
Definition decode_message (e : decode_error) : string :=
  let start := match err_reason e with
               | UnexpectedEnd => 0%nat
               | _ => err_start e
               end in
  let reason := match err_reason e with
                | InvalidStart => "invalid start byte"
                | InvalidContinuation => "invalid continuation byte"
                | UnexpectedEnd => "unexpected end of data"
                end in
  "'utf-8' codec can't decode "
  +:+ (if (err_length e =? 1)%nat then
         let n := nat_of_ascii (err_byte e) in
         "byte 0x" +:+ String (hex_digit (n / 16))
                         (String (hex_digit (n mod 16)) EmptyString)
         +:+ " in position " +:+ pretty start
       else
         "bytes in position " +:+ pretty start +:+ "-"
         +:+ pretty (start + err_length e - 1)%nat)
  +:+ ": " +:+ reason.

(** The bytes of [f] from offset [pos] on *)
Definition unread (f : file) (pos : Z) : string :=
  let n := Z.to_nat pos in
  String.substring n (String.length (content f) - n) (content f).

(** [open(path, 'r')], [f.seek(pos)], [f.readlines()] *)
Definition read_from (fs : gmap string file) (path : string) (pos : Z)
    : result (list string) :=
  match fs !! path with
  | None =>
      Raise (mkExn OSError
        ("[Errno 2] No such file or directory: " +:+ repr_str path))
  | Some f =>
      if negb (readable f) then
        Raise (mkExn OSError ("[Errno 13] Permission denied: " +:+ repr_str path))
      else if pos <? 0 then
        Raise (mkExn ValueError ("negative seek position " +:+ pretty pos))
      else
        match utf8_error 0 (unread f pos) with
        | Some e => Raise (mkExn UnicodeDecodeError (decode_message e))
        | None => Ok (readlines EmptyString (unread f pos))
        end
  end.

(** [self.last_positions.get(log_file, 0)] *)
Definition offset (positions : gmap string Z) (log_file : string) : Z :=
  default 0 (positions !! log_file).

(** One iteration of the loop of [fetch_events], lines 47-62:
    the lines yielded, the lines printed, the offsets afterwards. *)
Definition fetch_file (fs : gmap string file) (positions : gmap string Z)
    (log_file : string) : list string * list string * gmap string Z :=
  let current_size := _get_file_size fs log_file in
  let last_position := offset positions log_file in
  if last_position <? current_size then
    match read_from fs log_file last_position with
    | Ok new_lines =>
        (strip <$> new_lines, [], <[log_file := current_size]> positions)
    | Raise e =>
        ([], ["Error reading " +:+ log_file +:+ ": " +:+ exn_msg e], positions)
    end
  else ([], [], positions).

(** Nothing will be read from [log_file]: it has not grown past the stored
    offset, or it cannot be read. *)
Definition idle (fs : gmap string file) (positions : gmap string Z)
    (log_file : string) : Prop :=
  (offset positions log_file <? _get_file_size fs log_file) = false \/
  exists e, read_from fs log_file (offset positions log_file) = Raise e.

Fixpoint fetch_files (fs : gmap string file) (positions : gmap string Z)
    (files : list string) : list string * list string * gmap string Z :=
  match files with
  | [] => ([], [], positions)
  | log_file :: rest =>
      let '(yielded, printed, positions') := fetch_file fs positions log_file in
      let '(yielded', printed', positions'') := fetch_files fs positions' rest in
      (yielded ++ yielded', printed ++ printed', positions'')
  end.

Definition fetch_events (fs : gmap string file) (st : tail_state)
    : list string * list string * tail_state :=
  let '(yielded, printed, positions) :=
    fetch_files fs (last_positions st) (log_files st) in
  (yielded, printed, mkTail (log_files st) positions).

(** [connect], lines 21-35: keeps the files that exist and are readable
    and starts each at its current size. *)
Definition accessible (fs : gmap string file) (log_file : string) : bool :=
  match fs !! log_file with Some f => readable f | None => false end.

Definition connect (fs : gmap string file) (st : tail_state) : bool * tail_state :=
  let accessible_files := filter (fun f => accessible fs f) (log_files st) in
  let positions :=
    foldl (fun m f => <[f := _get_file_size fs f]> m)
          (last_positions st) accessible_files in
  (bool_decide (0 < length accessible_files)%nat,
   mkTail accessible_files positions).

End Base.

End Connector.

(** *** [LinuxAuthConnector] *)

Module LinuxAuth.

Import Regex.

(** [(\w+\s+\d+\s+\d+:\d+:\d+)], the syslog time stamp all three patterns
    start with *)
Definition stamp : regex :=
  Group 0 (seqs [plus w; plus sp; plus d; plus sp;
                 plus d; lit ":"; plus d; lit ":"; plus d]).

(** [[\d\.]+] *)
Definition address : regex := plus (Chr (fun c => is_digit c || Ascii.eqb c ".")).

(** [(\w+\s+\d+\s+\d+:\d+:\d+).*sshd.*Accepted.*for (\w+) from ([\d\.]+)] *)
Definition ssh_login_pattern : regex :=
  seqs [stamp; Star dot; lit "sshd"; Star dot; lit "Accepted"; Star dot;
        lit "for "; Group 1 (plus w); lit " from "; Group 2 address].

(** [(\w+\s+\d+\s+\d+:\d+:\d+).*sshd.*Failed.*for (\w+) from ([\d\.]+)] *)
Definition ssh_failed_pattern : regex :=
  seqs [stamp; Star dot; lit "sshd"; Star dot; lit "Failed"; Star dot;
        lit "for "; Group 1 (plus w); lit " from "; Group 2 address].

(** [(\w+\s+\d+\s+\d+:\d+:\d+).*sudo.*(\w+).*COMMAND=] followed by a
    last group that takes the rest of the line, [.*] *)
Definition sudo_pattern : regex :=
  seqs [stamp; Star dot; lit "sudo"; Star dot; Group 1 (plus w); Star dot;
        lit "COMMAND="; Group 2 (Star dot)].

Section Parse.

Variable now : datetime.
Variable isoformat : datetime -> string.
Variable strptime : string -> string -> result datetime.

Definition class_name : string := "LinuxAuthConnector".

(** [_parse_timestamp], lines 115-124 *)
Definition _parse_timestamp (timestamp_str : string) : string :=
  let current_year := dt_year now in
  let timestamp_with_year := pretty current_year +:+ " " +:+ timestamp_str in
  match strptime timestamp_with_year "%Y %b %d %H:%M:%S" with
  | Ok dt => isoformat dt
  | Raise _ => isoformat now
  end.

Definition ssh_event (raw_event : string) (success : bool)
    (groups : list (option string)) : result (option (gmap string pyval)) :=
  '(timestamp_str, username, source_ip) ← unpack3 groups;
  Ok (Some (Connector.standardize_event now isoformat class_name (list_to_map [
    ("timestamp", VStr (_parse_timestamp timestamp_str));
    ("user_name", VStr username);
    ("event_type", VStr "login");
    ("source_ip", VStr source_ip);
    ("success", VBool success);
    ("details", VDict (list_to_map [("method", VStr "ssh"); ("raw", VStr raw_event)]))
  ]))).

Definition sudo_event (raw_event : string) (groups : list (option string))
    : result (option (gmap string pyval)) :=
  '(timestamp_str, username, command) ← unpack3 groups;
  Ok (Some (Connector.standardize_event now isoformat class_name (list_to_map [
    ("timestamp", VStr (_parse_timestamp timestamp_str));
    ("user_name", VStr username);
    ("event_type", VStr "command");
    ("action", VStr "sudo");
    ("details", VDict (list_to_map [("command", VStr (strip command));
                                    ("raw", VStr raw_event)]))
  ]))).

(** The [try] body of [parse_event], lines 67-108, followed by the
    [return None] of line 113. *)
Definition parse_body (raw_event : string) : result (option (gmap string pyval)) :=
  match search 3 ssh_login_pattern raw_event with
  | Some groups => ssh_event raw_event true groups
  | None =>
      match search 3 ssh_failed_pattern raw_event with
      | Some groups => ssh_event raw_event false groups
      | None =>
          match search 3 sudo_pattern raw_event with
          | Some groups => sudo_event raw_event groups
          | None => Ok None
          end
      end
  end.

(** [parse_event]: the event or [None], and what was printed. *)
Definition parse_event (raw_event : string)
    : result (option (gmap string pyval) * list string) :=
  try_catch (ev ← parse_body raw_event; Ok (ev, []))
    (fun e => Ok (None, ["Error parsing auth event: " +:+ exn_msg e])).

End Parse.

End LinuxAuth.

(** *** [WebLogConnector] *)

Module WebLog.

Import Regex.

Definition quote : regex := Chr (Ascii.eqb "034").
Definition unquoted : regex := Star (Chr (fun c => negb (Ascii.eqb c "034"))).

(** [self.log_pattern]: client, two fields, the bracketed time stamp, the
    quoted request line, status, size, quoted referer and quoted agent *)
Definition log_pattern : regex :=
  seqs [Group 0 (plus nsp); lit " "; plus nsp; lit " "; plus nsp; lit " [";
        Group 1 (seqs [plus (Chr (fun c => is_word c || one_of ":/" c)); sp;
                       Chr (one_of "+-"); times 4 d]);
        lit "] "; quote;
        Group 2 (plus nsp); lit " "; Group 3 (plus nsp); lit " ";
        Group 4 (plus nsp); quote; lit " ";
        Group 5 (times 3 d); lit " ";
        Group 6 (Alt (plus d) (lit "-")); lit " ";
        quote; Group 7 unquoted; quote; lit " ";
        quote; Group 8 unquoted; quote].

Definition static_extensions : list string :=
  [".css"; ".js"; ".jpg"; ".png"; ".gif"; ".ico"; ".svg"; ".woff"].

Definition bot_indicators : list string := ["bot"; "crawler"; "spider"; "scraper"].

Definition _is_static_file (url : string) : bool :=
  existsb (fun ext => endswith (lower url) ext) static_extensions.

Definition _is_bot (user_agent : string) : bool :=
  existsb (fun indicator => contains indicator (lower user_agent)) bot_indicators.

(** [_determine_event_type], lines 122-137; [int(status_code)] is only
    evaluated where the source evaluates it. *)
Definition _determine_event_type (method url status_code : string)
    : result (option string) :=
  let url_lower := lower url in
  if contains "login" url_lower || contains "signin" url_lower then
    Ok (Some "login")
  else if contains "logout" url_lower || contains "signout" url_lower then
    Ok (Some "logout")
  else if contains "download" url_lower
          || String.eqb method "GET" && contains "file" url_lower then
    Ok (Some "file_access")
  else
    posted ← (if String.eqb method "POST"
              then code ← int_of_str status_code; Ok (code =? 200)
              else Ok false);
    if (posted : bool) then Ok (Some "application_use")
    else
      got ← (if String.eqb method "GET"
             then code ← int_of_str status_code; Ok (code =? 200)
             else Ok false);
      Ok (if (got : bool) then Some "page_view" else None).

(** [/user/(\w+)], [/profile/(\w+)], [/u/(\w+)], [user=(\w+)] *)
Definition user_patterns : list regex :=
  [Seq (lit "/user/") (Group 0 (plus w));
   Seq (lit "/profile/") (Group 0 (plus w));
   Seq (lit "/u/") (Group 0 (plus w));
   Seq (lit "user=") (Group 0 (plus w))].

Fixpoint first_user (patterns : list regex) (url : string) : string :=
  match patterns with
  | [] => "unknown"
  | pattern :: rest =>
      match search 1 pattern url with
      | Some [Some user] => user
      | _ => first_user rest url
      end
  end.

Definition _extract_user_from_url (url : string) : string :=
  first_user user_patterns url.

Section Parse.

Variable now : datetime.
Variable isoformat : datetime -> string.
Variable strptime : string -> string -> result datetime.

Definition class_name : string := "WebLogConnector".

(** [_parse_timestamp], lines 156-163 *)
Definition _parse_timestamp (timestamp_str : string) : string :=
  match strptime timestamp_str "%d/%b/%Y:%H:%M:%S %z" with
  | Ok dt => isoformat dt
  | Raise _ => isoformat now
  end.

(** The [try] body of [parse_event], lines 76-105. *)
Definition parse_body (raw_event : string) : result (option (gmap string pyval)) :=
  match rmatch 9 log_pattern raw_event with
  | None => Ok None
  | Some groups =>
      '(ip, timestamp_str, method, url, protocol, status_code, size,
        referer, user_agent) ← unpack9 groups;
      if _is_static_file url || _is_bot user_agent then Ok None
      else
        event_type ← _determine_event_type method url status_code;
        match event_type with
        | None => Ok None
        | Some event_type =>
            code ← int_of_str status_code;
            Ok (Some (Connector.standardize_event now isoformat class_name
              (list_to_map [
                ("timestamp", VStr (_parse_timestamp timestamp_str));
                ("user_name", VStr (_extract_user_from_url url));
                ("event_type", VStr event_type);
                ("source_ip", VStr ip);
                ("success", VBool (code <? 400));
                ("details", VDict (list_to_map [
                   ("method", VStr method);
                   ("url", VStr url);
                   ("status_code", VStr status_code);
                   ("user_agent", VStr user_agent);
                   ("size", VStr size);
                   ("raw", VStr raw_event)]))
              ])))
        end
  end.

Definition parse_event (raw_event : string)
    : result (option (gmap string pyval) * list string) :=
  try_catch (ev ← parse_body raw_event; Ok (ev, []))
    (fun e => Ok (None, ["Error parsing web log: " +:+ exn_msg e])).

End Parse.

End WebLog.

(** ** Training and batch analysis: the callers of the scorer

    [train] and [batch_analyze] of [simple_anomaly_detector.py], lines
    56-68 and 164-179. The CSV file is given as [pandas.read_csv] returns
    it: a data frame for [train], and for [batch_analyze] the list of its
    rows as [row.to_dict()] makes them. Each function returns what it
    printed next to its outcome; [clock i] is the reading of
    [datetime.now()] at the [i]-th analysed event. *)

Module Batch.

Import Detector.

Section Run.

Variable fromisoformat : string -> result datetime.
Variable to_datetime : string -> result datetime.
Variable str_other : pyval -> string.

(** [train]: the profile table that replaces [self.user_profiles]; when
    profile construction raises, the assignment is never reached. *)
Definition train (df : dataframe) : list string * result (gmap Z profile) :=
  let started :=
    ["🧠 Training anomaly detection model...";
     "📊 Loaded " +:+ pretty (length (rows df)) +:+ " events"] in
  match create_user_profiles to_datetime df with
  | Ok user_profiles =>
      (started ++
       ["👥 Created profiles for " +:+ pretty (base.size user_profiles) +:+ " users";
        "✅ Model training completed!"],
       Ok user_profiles)
  | Raise e => (started, Raise e)
  end.

(** The loop of lines 171-173. *)
Fixpoint analyze_all (user_profiles : gmap Z profile) (clock : nat -> string)
    (i : nat) (events : list (gmap string pyval)) : result (list analysis) :=
  match events with
  | [] => Ok []
  | ev :: rest =>
      r ← analyze_event fromisoformat to_datetime str_other user_profiles
            (clock i) ev;
      rs ← analyze_all user_profiles clock (S i) rest;
      Ok (r :: rs)
  end.

(** Line 176 *)
Definition suspicious_count (results : list analysis) : nat :=
  length (filter (fun r => is_suspicious r = true) results).

Definition batch_analyze (user_profiles : gmap Z profile)
    (clock : nat -> string) (events : list (gmap string pyval))
    : list string * result (list analysis) :=
  let started :=
    ["🔍 Analyzing " +:+ pretty (length events) +:+ " events for anomalies..."] in
  match analyze_all user_profiles clock 0 events with
  | Ok results =>
      (started ++
       ["🚨 Found " +:+ pretty (suspicious_count results)
        +:+ " suspicious events out of " +:+ pretty (length results)
        +:+ " total"],
       Ok results)
  | Raise e => (started, Raise e)
  end.

End Run.

End Batch.

(** ** The manager of the connectors: [src/data/data_source_manager.py]

    [self.connectors] is a dict, kept here in insertion order; a connector
    is one of the two classes that tail log files, with the state of its
    tail. Every method returns what it printed next to its outcome. *)

Module Manager.

Import Connector.

Inductive connector_class := LinuxAuthConnector | WebLogConnector.

Record connector := mkConnector {
  cls : connector_class;
  tail : tail_state
}.

Record manager := mkManager {
  connectors : list (string * connector);
  is_running : bool
}.

(** [self.connectors[name] = connector] *)
Fixpoint assign (name : string) (con : connector)
    (items : list (string * connector)) : list (string * connector) :=
  match items with
  | [] => [(name, con)]
  | (n, c) :: rest =>
      if String.eqb n name then (n, con) :: rest
      else (n, c) :: assign name con rest
  end.

(** [add_connector], lines 20-23 *)
Definition add_connector (name : string) (con : connector) (m : manager)
    : manager * list string :=
  (mkManager (assign name con (connectors m)) (is_running m),
   ["Added connector: " +:+ name]).

(** [LinuxAuthConnector(config)] for a [config] without ['log_files'] *)
Definition linux_auth_default : connector :=
  mkConnector LinuxAuthConnector
    (mkTail ["/var/log/auth.log"; "/var/log/secure"] ∅).

(** [create_data_manager], lines 92-100 *)
Definition create_data_manager : manager * list string :=
  add_connector "linux_auth" linux_auth_default (mkManager [] false).

Section Run.

Variable now : datetime.
Variable isoformat : datetime -> string.
Variable strptime : string -> string -> result datetime.
Variable fs : gmap string file.

(** [start_all_connectors], lines 25-39. [connect] catches what it
    raises, so the [except] of line 35 is never entered. *)
Definition start_connector (item : string * connector)
    : (string * connector) * string :=
  let '(name, con) := item in
  let '(connected, st) := connect fs (tail con) in
  ((name, mkConnector (cls con) st),
   if connected then "Connected to " +:+ name
   else "Failed to connect " +:+ name).

Definition start_all_connectors (m : manager) : manager * list string :=
  let started := start_connector <$> connectors m in
  (mkManager (fst <$> started) true,
   ["Starting real data connectors..."] ++ (snd <$> started)
   ++ ["Real data monitoring active!"]).

(** [connector.parse_event(raw_event)] *)
Definition parse_event (c : connector_class) (raw_event : string)
    : result (option (gmap string pyval) * list string) :=
  match c with
  | LinuxAuthConnector => LinuxAuth.parse_event now isoformat strptime raw_event
  | WebLogConnector => WebLog.parse_event now isoformat strptime raw_event
  end.

(** What the loops of [collect_recent_events] carry along: [all_events],
    [events_found] and the lines printed so far. *)
Record collected := mkCollected {
  all_events : list (gmap string pyval);
  events_found : nat;
  printed : list string
}.

(** Lines 49-53 for the records one file yielded; an exception of
    [parse_event] leaves the loop with what was appended before it. *)
Fixpoint collect_lines (name : string) (c : connector_class)
    (lines : list string) (acc : collected) : collected * option exn :=
  match lines with
  | [] => (acc, None)
  | raw_event :: rest =>
      match parse_event c raw_event with
      | Raise e => (acc, Some e)
      | Ok (parsed_event, out) =>
          let acc := mkCollected (all_events acc) (events_found acc)
                       (printed acc ++ out) in
          match parsed_event with
          | Some ev =>
              if (0 <? base.size ev)%nat then
                collect_lines name c rest
                  (mkCollected
                     (all_events acc ++ [<["source_connector" := VStr name]> ev])
                     (S (events_found acc)) (printed acc))
              else collect_lines name c rest acc
          | None => collect_lines name c rest acc
          end
      end
  end.

(** The generator [fetch_events] as line 48 drives it: a file is read
    when the loop reaches it, and an exception in the loop body abandons
    the files not yet reached. *)
Fixpoint collect_files (name : string) (c : connector_class)
    (files : list string) (positions : gmap string Z) (acc : collected)
    : collected * gmap string Z * option exn :=
  match files with
  | [] => (acc, positions, None)
  | log_file :: rest =>
      let '(yielded, out, positions) := fetch_file fs positions log_file in
      let acc := mkCollected (all_events acc) (events_found acc)
                   (printed acc ++ out) in
      match collect_lines name c yielded acc with
      | (acc, None) => collect_files name c rest positions acc
      | (acc, Some e) => (acc, positions, Some e)
      end
  end.

(** One round of the loop of line 45. *)
Definition collect_connector (item : string * connector)
    (events : list (gmap string pyval)) (out : list string)
    : (string * connector) * list (gmap string pyval) * list string :=
  let '(name, con) := item in
  let '(acc, positions, raised) :=
    collect_files name (cls con) (log_files (tail con))
      (last_positions (tail con)) (mkCollected events 0 out) in
  let con := mkConnector (cls con) (mkTail (log_files (tail con)) positions) in
  let line :=
    match raised with
    | None =>
        if (0 <? events_found acc)%nat
        then "Collected " +:+ pretty (events_found acc) +:+ " events from " +:+ name
        else "No events found from " +:+ name
    | Some e => "Error collecting from " +:+ name +:+ ": " +:+ exn_msg e
    end in
  ((name, con), all_events acc, printed acc ++ [line]).

Fixpoint collect_connectors (items : list (string * connector))
    (events : list (gmap string pyval)) (out : list string)
    : list (string * connector) * list (gmap string pyval) * list string :=
  match items with
  | [] => ([], events, out)
  | item :: rest =>
      let '(item, events, out) := collect_connector item events out in
      let '(rest, events, out) := collect_connectors rest events out in
      (item :: rest, events, out)
  end.

(** [collect_recent_events], lines 41-63 *)
Definition collect_recent_events (m : manager)
    : manager * list (gmap string pyval) * list string :=
  let '(items, events, out) := collect_connectors (connectors m) [] [] in
  (mkManager items (is_running m), events, out).

(** The row [export_events] writes when nothing was collected. *)
Definition sample_event : gmap string pyval :=
  list_to_map [
    ("timestamp", VStr (isoformat now));
    ("user_name", VStr "system_user");
    ("event_type", VStr "system_activity");
    ("source_ip", VStr "127.0.0.1");
    ("success", VBool true);
    ("source_connector", VStr "system_monitor");
    ("details", VStr "Real system monitoring active")
  ].

(** [export_events], lines 65-90: the rows handed to [pd.DataFrame] for
    [filename]. *)
Definition export_events (m : manager) (filename : string)
    : manager * list (gmap string pyval) * list string :=
  let '(m, events, out) := collect_recent_events m in
  match events with
  | _ :: _ =>
      (m, events,
       out ++ ["Exported " +:+ pretty (length events) +:+ " real events to "
               +:+ filename])
  | [] =>
      let sample_events := [sample_event] in
      (m, sample_events,
       out ++ ["Created real data file with " +:+ pretty (length sample_events)
               +:+ " events: " +:+ filename])
  end.

End Run.

End Manager.

(** ** The dashboard: [src/api/app.py]

    [get_alerts] and [get_stats] over [latest_results], the list
    [batch_analyze] returned. Each is given up to the dict it hands to
    [jsonify]; what it prints is left out. [round2 x] is [round(x, 2)]
    and [percentage s t] is [round((s / t) * 100, 1)], both as the
    doubles give them; [now] is [datetime.now().isoformat()]. *)

Module Dashboard.

Import Detector.

(** [safe_value], lines 28-32 *)
Definition safe_value (value default : pyval) : pyval :=
  match value with
  | VNone | VNaN => default
  | _ => value
  end.

(** One entry of ['alerts'], lines 88-101 *)
Module Alert.

Record t := mk {
  id : nat;
  user_name : pyval;
  timestamp : pyval;
  risk_score : Q;
  alert_level : alert;
  event_type : pyval;
  location : pyval;
  country : pyval;
  source_ip : pyval;
  anomalies : list string;
  file_name : pyval;
  file_size_mb : pyval
}.

End Alert.

(** [level == 'HIGH'] and the like *)
Definition level_is (l x : alert) : bool :=
  match l, x with
  | HIGH, HIGH | MEDIUM, MEDIUM | LOW, LOW | NORMAL, NORMAL => true
  | _, _ => false
  end.

(** [list.sort(key=lambda x: x.get('overall_risk_score', 0), reverse=True)]:
    descending, and stable: results of equal score keep their order. *)
Fixpoint insert_by_score (x : analysis) (l : list analysis) : list analysis :=
  match l with
  | [] => [x]
  | y :: t =>
      if Qle_bool (overall_risk_score y) (overall_risk_score x)
      then x :: y :: t
      else y :: insert_by_score x t
  end.

Definition sort_by_score (l : list analysis) : list analysis :=
  foldr insert_by_score [] l.

Definition count_level (l : alert) (alerts : list Alert.t) : nat :=
  length (filter (fun a => level_is l (Alert.alert_level a) = true) alerts).

(** The two answers of [get_alerts]: the dict of line 75, and
    [response_data]. *)
Inductive alerts_reply :=
  | NoAlerts
  | Alerts (alerts : list Alert.t)
           (total_alerts high_risk medium_risk low_risk : nat).

(** [==] between two dict keys: numbers compare by value, whatever their
    type. *)
Definition number_of (v : pyval) : option Q :=
  match v with
  | VBool b => Some (if b then 1 else 0)%Q
  | VInt z => Some (inject_Z z)
  | VFloat q => Some q
  | _ => None
  end.

Definition key_eq (a b : pyval) : bool :=
  match a, b with
  | VNone, VNone => true
  | VStr s, VStr t => String.eqb s t
  | _, _ =>
      match number_of a, number_of b with
      | Some x, Some y => Qeq_bool x y
      | _, _ => false
      end
  end.

Definition hashable (v : pyval) : bool :=
  match v with VDict _ => false | _ => true end.

(** A value of [user_stats] *)
Record user_stat := mkUserStat { total : nat; suspicious : nat }.

(** Lines 136-140 for one result: the entry of [user_name], made if it
    is not there, counts one more. *)
Fixpoint bump (user_name : pyval) (is_suspicious : bool)
    (user_stats : list (pyval * user_stat)) : list (pyval * user_stat) :=
  match user_stats with
  | [] => [(user_name, mkUserStat 1 (if is_suspicious then 1 else 0))]
  | (k, st) :: rest =>
      if key_eq k user_name then
        (k, mkUserStat (S (total st))
              (if is_suspicious then S (suspicious st) else suspicious st))
        :: rest
      else (k, st) :: bump user_name is_suspicious rest
  end.

(** The loop of lines 134-140; a key that cannot be hashed raises. *)
Fixpoint user_statistics (results : list analysis)
    (user_stats : list (pyval * user_stat))
    : result (list (pyval * user_stat)) :=
  match results with
  | [] => Ok user_stats
  | result :: rest =>
      let user_name :=
        safe_value (dict_get (event result) "user_name") (VStr "Unknown") in
      if hashable user_name then
        user_statistics rest (bump user_name (is_suspicious result) user_stats)
      else
        Raise (mkExn TypeError
                 ("unhashable type: " +:+ repr_str (type_name user_name)))
  end.

(** [alert_levels] *)
Record level_counts := mkLevels {
  high : nat; medium : nat; low : nat; normal : nat
}.

Definition count_alert (counts : level_counts) (level : alert) : level_counts :=
  match level with
  | HIGH => mkLevels (S (high counts)) (medium counts) (low counts) (normal counts)
  | MEDIUM => mkLevels (high counts) (S (medium counts)) (low counts) (normal counts)
  | LOW => mkLevels (high counts) (medium counts) (S (low counts)) (normal counts)
  | NORMAL => mkLevels (high counts) (medium counts) (low counts) (S (normal counts))
  end.

(** [response_data] of [get_stats] *)
Record stats := mkStats {
  total_events : nat;
  suspicious_events : nat;
  detection_rate : pyval;
  user_stats : list (pyval * user_stat);
  alert_levels : level_counts;
  last_updated : string
}.

(** The two answers of [get_stats]: an error with status 500, and
    [response_data]. *)
Inductive stats_reply :=
  | StatsFailed (error : string)
  | Stats (response_data : stats).

Section Api.

Variable round2 : Q -> Q.
Variable percentage : nat -> nat -> Q.
Variable now : string.

(** Lines 87-101 *)
Definition alert_of (i : nat) (result : analysis) : Alert.t :=
  let event := event result in
  {| Alert.id := S i;
     Alert.user_name := safe_value (dict_get event "user_name") (VStr "Unknown");
     Alert.timestamp := safe_value (dict_get event "timestamp") (VStr "");
     Alert.risk_score := round2 (overall_risk_score result);
     Alert.alert_level := alert_level result;
     Alert.event_type := safe_value (dict_get event "event_type") (VStr "unknown");
     Alert.location := safe_value (dict_get event "location") (VStr "Unknown");
     Alert.country := safe_value (dict_get event "country") (VStr "Unknown");
     Alert.source_ip := safe_value (dict_get event "source_ip") (VStr "Unknown");
     Alert.anomalies := take 3 (anomalies result);
     Alert.file_name := safe_value (dict_get event "file_name") (VStr "");
     Alert.file_size_mb := safe_value (dict_get event "file_size_mb") (VInt 0) |}.

(** [get_alerts], lines 69-112 *)
Definition get_alerts (latest_results : list analysis) : alerts_reply :=
  match latest_results with
  | [] => NoAlerts
  | _ =>
      let suspicious_events :=
        sort_by_score (filter (fun r => is_suspicious r = true) latest_results) in
      let alerts := imap alert_of (take 20 suspicious_events) in
      Alerts alerts (length suspicious_events)
        (count_level HIGH alerts) (count_level MEDIUM alerts)
        (count_level LOW alerts)
  end.

(** [get_stats], lines 121-158 *)
Definition get_stats (latest_results : list analysis) : stats_reply :=
  match latest_results with
  | [] => StatsFailed "No data available"
  | _ =>
      let total_events := length latest_results in
      let suspicious_events :=
        length (filter (fun r => is_suspicious r = true) latest_results) in
      match user_statistics latest_results [] with
      | Raise e => StatsFailed (exn_msg e)
      | Ok user_stats =>
          let alert_levels :=
            foldl (fun counts r => count_alert counts (alert_level r))
                  (mkLevels 0 0 0 0) latest_results in
          Stats {|
            total_events := total_events;
            suspicious_events := suspicious_events;
            detection_rate :=
              if (0 <? total_events)%nat
              then VFloat (percentage suspicious_events total_events)
              else VInt 0;
            user_stats := user_stats;
            alert_levels := alert_levels;
            last_updated := now |}
      end
  end.

End Api.

End Dashboard.

(** ** Executable stand-ins for the library functions

    Readers and printers for the timestamp shapes the connectors handle;
    the examples run the connectors and the scorer with them. *)

Module Lib.

Import Regex.

Definition field (s : string) (pos len : nat) : option Z :=
  let f := String.substring pos len s in
  if (String.length f =? len)%nat then number 0 f else None.

Definition sep_at (s : string) (pos : nat) (c : ascii) : bool :=
  match String.get pos s with Some a => Ascii.eqb a c | None => false end.

Definition in_range (mo d h mi se : Z) : bool :=
  (1 <=? mo) && (mo <=? 12) && (1 <=? d) && (d <=? 31)
  && (0 <=? h) && (h <=? 23) && (0 <=? mi) && (mi <=? 59)
  && (0 <=? se) && (se <=? 59).

(** [YYYY-MM-DD?HH:MM:SS] with separator [sep] between date and time *)
Definition read (sep : ascii) (s : string) : option datetime :=
  y ← field s 0 4; mo ← field s 5 2; d ← field s 8 2;
  h ← field s 11 2; mi ← field s 14 2; se ← field s 17 2;
  if sep_at s 4 "-" && sep_at s 7 "-" && sep_at s 10 sep
     && sep_at s 13 ":" && sep_at s 16 ":"
     && (String.length s =? 19)%nat && in_range mo d h mi se
  then Some (mkDatetime y mo d h mi se None) else None.

Definition fromisoformat (s : string) : result datetime :=
  match read "T" s with
  | Some t => Ok t
  | None => Raise (mkExn ValueError ("Invalid isoformat string: " +:+ repr_str s))
  end.

Definition to_datetime (s : string) : result datetime :=
  match read " " s with
  | Some t => Ok t
  | None => Raise (mkExn ValueError
              ("Unknown datetime string format, unable to parse: " +:+ s))
  end.

Definition str_other (v : pyval) : string := "<" +:+ type_name v +:+ ">".

Definition pad (width : nat) (z : Z) : string :=
  let s := pretty z in
  String.concat "" (replicate (width - String.length s) "0") +:+ s.

Definition isoformat (t : datetime) : string :=
  pad 4 (dt_year t) +:+ "-" +:+ pad 2 (dt_month t) +:+ "-" +:+ pad 2 (dt_day t)
  +:+ "T" +:+ pad 2 (dt_hour t) +:+ ":" +:+ pad 2 (dt_minute t)
  +:+ ":" +:+ pad 2 (dt_second t)
  +:+ match dt_utcoffset t with
      | None => ""
      | Some m =>
          (if m <? 0 then "-" else "+")
          +:+ pad 2 (Z.abs m / 60) +:+ ":" +:+ pad 2 (Z.abs m mod 60)
      end.

Definition months : list string :=
  ["jan"; "feb"; "mar"; "apr"; "may"; "jun";
   "jul"; "aug"; "sep"; "oct"; "nov"; "dec"].

Fixpoint index_of (x : string) (l : list string) (i : Z) : option Z :=
  match l with
  | [] => None
  | y :: t => if String.eqb x y then Some i else index_of x t (i + 1)
  end.

Definition whole (n : nat) (r : regex) (s : string) : option (list string) :=
  caps ← run r s (replicate n None)
           (fun rest caps => match rest with EmptyString => Some caps | _ => None end);
  mapM id caps.

(** [%Y %b %d %H:%M:%S] *)
Definition syslog_shape : regex :=
  seqs [Group 0 (times 4 d); plus sp; Group 1 (plus w); plus sp;
        Group 2 (plus d); plus sp; Group 3 (plus d); lit ":";
        Group 4 (plus d); lit ":"; Group 5 (plus d)].

(** [%d/%b/%Y:%H:%M:%S %z] *)
Definition access_shape : regex :=
  seqs [Group 0 (plus d); lit "/"; Group 1 (plus w); lit "/";
        Group 2 (times 4 d); lit ":"; Group 3 (plus d); lit ":";
        Group 4 (plus d); lit ":"; Group 5 (plus d); plus sp;
        Group 6 (Chr (one_of "+-")); Group 7 (times 2 d); Group 8 (times 2 d)].

Definition checked (y mo d h mi se : Z) (off : option Z) : option datetime :=
  if in_range mo d h mi se then Some (mkDatetime y mo d h mi se off) else None.

Definition strptime_opt (s fmt : string) : option datetime :=
  if String.eqb fmt "%Y %b %d %H:%M:%S" then
    caps ← whole 6 syslog_shape s;
    match caps with
    | [y; b; d; h; mi; se] =>
        y ← number 0 y; mo ← index_of (lower b) months 1; d ← number 0 d;
        h ← number 0 h; mi ← number 0 mi; se ← number 0 se;
        checked y mo d h mi se None
    | _ => None
    end
  else if String.eqb fmt "%d/%b/%Y:%H:%M:%S %z" then
    caps ← whole 9 access_shape s;
    match caps with
    | [d; b; y; h; mi; se; sign; oh; om] =>
        y ← number 0 y; mo ← index_of (lower b) months 1; d ← number 0 d;
        h ← number 0 h; mi ← number 0 mi; se ← number 0 se;
        oh ← number 0 oh; om ← number 0 om;
        checked y mo d h mi se
          (Some ((if String.eqb sign "-" then -1 else 1) * (60 * oh + om)))
    | _ => None
    end
  else None.

Definition strptime (s fmt : string) : result datetime :=
  match strptime_opt s fmt with
  | Some t => Ok t
  | None => Raise (mkExn ValueError
              ("time data " +:+ repr_str s +:+ " does not match format "
               +:+ repr_str fmt))
  end.

(** A clock reading for the examples. *)
Definition noon : datetime := mkDatetime 2024 1 15 12 0 0 None.

(** [round(x, digits)] on rationals, halves rounded up; [round(x, 2)] and
    [round((s / t) * 100, 1)] with it *)
Definition round_to (digits : Z) (x : Q) : Q :=
  let scale := (10 ^ digits)%Z in
  Qmake (Qfloor (x * inject_Z scale + (1 # 2))%Q) (Z.to_pos scale).

Definition round2 : Q -> Q := round_to 2.

Definition percentage (s t : nat) : Q :=
  round_to 1 (inject_Z (Z.of_nat s) / inject_Z (Z.of_nat t) * 100)%Q.

(** [pandas.to_datetime] when the clock reads [now]: 'now' and 'today'
    are the clock reading, any other text is read as [to_datetime] reads
    it. *)
Definition to_datetime_at (now : datetime) (s : string) : result datetime :=
  if String.eqb s "now" || String.eqb s "today" then Ok now
  else to_datetime s.

(** A second clock reading, in the night after [noon]. *)
Definition night : datetime := mkDatetime 2024 1 16 3 0 0 None.

End Lib.


(** ** Sample data *)

Module Samples.

Import Detector.

Definition alice : profile :=
  mkProfile 1 (VStr "alice") (mkLoginHours 9 17 (VFloat 13))
    ["United States"] ["New York"] (VInt 0) (mkFileSizes (VInt 0) (VInt 0)).

Definition profiles : gmap Z profile := {[ 1 := alice ]}.

(** A login at 03:12 from Russia and an address outside 192.168.1.0/24 *)
Definition night_login : gmap string pyval :=
  list_to_map [
    ("user_id", VInt 1); ("event_type", VStr "login");
    ("timestamp", VStr "2024-01-15T03:12:00"); ("country", VStr "Russia");
    ("location", VStr "New York"); ("source_ip", VStr "203.0.113.45")].

(** What analysing [night_login] at clock reading [now] returns *)
Definition night_login_analysis (now : string) : analysis :=
  {| event := night_login;
     anomalies := ["Very unusual login time: 3:00";
                   "Login from suspicious country: Russia";
                   "Login from external IP: 203.0.113.45"];
     overall_risk_score := 1;
     alert_level := HIGH;
     is_suspicious := true;
     timestamp_analyzed := now |}.

(** A login in office hours from where alice usually is *)
Definition office_login : gmap string pyval :=
  list_to_map [
    ("user_id", VInt 1); ("event_type", VStr "login");
    ("timestamp", VStr "2024-01-15T10:05:00"); ("country", VStr "United States");
    ("location", VStr "New York"); ("source_ip", VStr "192.168.1.23")].

(** A 500 MB download of a backup *)
Definition big_download : gmap string pyval :=
  list_to_map [
    ("user_id", VInt 1); ("event_type", VStr "file_access");
    ("timestamp", VStr "2024-01-15T10:06:00"); ("file_size_mb", VInt 500);
    ("action", VStr "download"); ("file_name", VStr "backup.sql")].

(** A file access as normalization leaves it when the source has no size,
    attributed to alice *)
Definition sizeless_access : gmap string pyval :=
  <["user_id" := VInt 1]>
    (Connector.standardize_event Lib.noon Lib.isoformat "WebLogConnector"
       (list_to_map [("event_type", VStr "file_access");
                     ("user_name", VStr "alice")])).

(** alice logging out *)
Definition logout_event : gmap string pyval :=
  list_to_map [("user_id", VInt 1); ("event_type", VStr "logout")].

Definition ssh_line : string :=
  "Jan  5 10:00:00 myhost sshd[1234]: Accepted password for bob from 10.0.0.1 port 22 ssh2".

(** What [LinuxAuthConnector.parse_event] makes of [ssh_line] *)
Definition ssh_event : gmap string pyval :=
  Connector.standardize_event Lib.noon Lib.isoformat "LinuxAuthConnector"
    (list_to_map [
       ("timestamp", VStr "2024-01-05T10:00:00");
       ("user_name", VStr "bob");
       ("event_type", VStr "login");
       ("source_ip", VStr "10.0.0.1");
       ("success", VBool true);
       ("details", VDict (list_to_map [("method", VStr "ssh");
                                       ("raw", VStr ssh_line)]))]).

Definition tick (i : nat) : string := "2024-01-15T12:00:0" +:+ pretty i.

(** A login of a known user with no country and no time stamp *)
Definition unstamped_login : gmap string pyval :=
  list_to_map [("user_id", VInt 1); ("event_type", VStr "login");
               ("country", VStr "Unknown")].

(** The same login from a user nobody trained on *)
Definition stranger_login : gmap string pyval := <["user_id" := VInt 2]> night_login.

Definition batch_columns : list string :=
  ["timestamp"; "user_id"; "user_name"; "event_type"; "source_ip";
   "location"; "country"; "device"; "success"; "file_name";
   "file_size_mb"; "action"].


(** A batch in which user 1 only ever logs out *)
Definition logout_batch : dataframe :=
  mkDataframe batch_columns
    [mkRow 1 "2024-01-15 18:00:00" "logout" (VStr "alice")
       "United States" "New York" None].

(** Two users: alice logs in twice and logs out, bob logs in once *)
Definition week_batch : dataframe :=
  mkDataframe batch_columns
    [mkRow 1 "2024-01-15 09:02:00" "login" (VStr "alice")
       "United States" "New York" None;
     mkRow 2 "2024-01-15 22:40:00" "login" (VStr "bob")
       "United Kingdom" "London" None;
     mkRow 1 "2024-01-16 17:30:00" "login" (VStr "alice")
       "United States" "Boston" None;
     mkRow 1 "2024-01-16 18:00:00" "logout" (VStr "alice")
       "United States" "Boston" None].

(** [week_batch] with one time stamp nobody can read *)
Definition broken_batch : dataframe :=
  mkDataframe batch_columns
    (rows week_batch ++
     [mkRow 2 "yesterday" "login" (VStr "bob") "United Kingdom" "London" None]).

(** The normalized form of a record that supplies nothing *)
Definition bare_event : gmap string pyval :=
  Connector.standardize_event Lib.noon Lib.isoformat "LinuxAuthConnector" ∅.

(** An access-log line: a GET of [/user/john/login] answered 200 *)
Definition access_line : string :=
  let q := String "034" EmptyString in
  "10.1.2.3 - - [26/Dec/2023:14:30:45 +0000] " +:+ q
  +:+ "GET /user/john/login HTTP/1.1" +:+ q +:+ " 200 512 "
  +:+ q +:+ "-" +:+ q +:+ " " +:+ q +:+ "Mozilla/5.0" +:+ q.

Definition auth_log : string := "/var/log/auth.log".

Definition two_lines : gmap string file :=
  {[ auth_log := mkFile ("line one" +:+ Connector.newline +:+
                         "  line two  " +:+ Connector.newline) true ]}.

(** [two_lines] after one more line was appended *)
Definition three_lines : gmap string file :=
  {[ auth_log := mkFile ("line one" +:+ Connector.newline +:+
                         "  line two  " +:+ Connector.newline +:+
                         "line three" +:+ Connector.newline) true ]}.

(** [auth_log] after rotation: shorter than before *)
Definition rotated : gmap string file := {[ auth_log := mkFile "x" true ]}.

Definition fresh : Connector.tail_state :=
  Connector.mkTail [auth_log; "/var/log/secure"] ∅.

(** The connector after one [fetch_events] over [two_lines] *)
Definition caught_up : Connector.tail_state :=
  Connector.mkTail [auth_log; "/var/log/secure"] {[ auth_log := 22 ]}.

(** A sudo line as [sudo] logs it *)
Definition sudo_entry : string :=
  "Jan  5 10:00:00 myhost sudo:    alice : TTY=pts/0 ; USER=root ; COMMAND=/bin/ls -la".

(** An auth log of two lines: an accepted login and a sudo command *)
Definition ssh_log : gmap string file :=
  {[ auth_log :=
       mkFile (ssh_line +:+ Connector.newline +:+ sudo_entry
               +:+ Connector.newline) true ]}.

(** Four events of one day *)
Definition day_events : list (gmap string pyval) :=
  [night_login; office_login; logout_event; big_download].

(** The first row of [week_batch], and the event [to_dict] makes of it
    when the address is an outside one *)
Definition monday_row : row :=
  mkRow 1 "2024-01-15 09:02:00" "login" (VStr "alice")
    "United States" "New York" None.

Definition monday_login : gmap string pyval :=
  list_to_map [
    ("timestamp", VStr "2024-01-15 09:02:00"); ("user_id", VInt 1);
    ("user_name", VStr "alice"); ("event_type", VStr "login");
    ("source_ip", VStr "203.0.113.45"); ("location", VStr "New York");
    ("country", VStr "United States")].

(** A login of alice stamped with the word pandas reads off the clock *)
Definition login_now : gmap string pyval :=
  list_to_map [
    ("user_id", VInt 1); ("event_type", VStr "login");
    ("timestamp", VStr "now"); ("country", VStr "United States");
    ("location", VStr "New York"); ("source_ip", VStr "192.168.1.23")].

(** A log whose second line holds a byte that is no UTF-8 *)
Definition garbled : gmap string file :=
  {[ auth_log :=
       mkFile ("ok" +:+ Connector.newline +:+ String (ascii_of_nat 255) "x"
               +:+ Connector.newline) true ]}.

End Samples.

(** * Predicates of the statements *)

(** The shapes of text and of captures that the properties below speak
    about. *)

Module Shapes.

Import Py Regex.

(** A text that does not begin with white space. *)
Definition starts_clean (s : string) : Prop :=
  match s with
  | EmptyString => True
  | String c _ => is_space c = false
  end.

(** The texts a pattern matches. *)
Inductive matches : regex -> string -> Prop :=
  | matches_eps : matches Eps EmptyString
  | matches_chr ok c : ok c = true -> matches (Chr ok) (String c EmptyString)
  | matches_seq a b t u : matches a t -> matches b u -> matches (Seq a b) (t +:+ u)
  | matches_alt_l a b t : matches a t -> matches (Alt a b) t
  | matches_alt_r a b t : matches b t -> matches (Alt a b) t
  | matches_star_nil a : matches (Star a) EmptyString
  | matches_star_more a t u :
      matches a t -> matches (Star a) u -> matches (Star a) (t +:+ u)
  | matches_group i a t : matches a t -> matches (Group i a) t.

(** The groups a successful match has certainly set. *)
Fixpoint groups_set (r : regex) : list nat :=
  match r with
  | Eps | Chr _ | Star _ => []
  | Seq a b => groups_set a ++ groups_set b
  | Alt a b => filter (fun i => i ∈ groups_set b) (groups_set a)
  | Group i a => i :: groups_set a
  end.

(** [Inv i] holds of every text group [i] can capture. *)
Fixpoint group_ok (Inv : nat -> string -> Prop) (r : regex) : Prop :=
  match r with
  | Eps | Chr _ => True
  | Seq a b | Alt a b => group_ok Inv a /\ group_ok Inv b
  | Star a => group_ok Inv a
  | Group i a => (forall t, matches a t -> Inv i t) /\ group_ok Inv a
  end.

Definition holds (Inv : nat -> string -> Prop) (caps : list (option string))
    (i : nat) : Prop :=
  exists v, caps !! i = Some (Some v) /\ Inv i v.

(** The loop of [run] on a starred pattern, for any matcher of the body. *)
Section Loop.

Context {R : Type}.
Variable body : string -> list (option string) ->
                (string -> list (option string) -> option R) -> option R.
Variable k : string -> list (option string) -> option R.

Fixpoint star_loop (fuel : nat) (s : string) (caps : list (option string))
    : option R :=
  match fuel with
  | O => k s caps
  | S fuel' =>
      match body s caps (fun s' caps' =>
              if (String.length s' <? String.length s)%nat
              then star_loop fuel' s' caps' else None) with
      | Some x => Some x
      | None => k s caps
      end
  end.

End Loop.

(** What a successful run hands to its continuation. *)
Definition sound_at {R : Type} (Inv : nat -> string -> Prop) (r : regex)
    (groups : list nat) : Prop :=
  forall s caps (k : string -> list (option string) -> option R) x,
    run r s caps k = Some x ->
    exists t s' caps',
      s = t +:+ s' /\ matches r t /\ k s' caps' = Some x /\
      length caps' = length caps /\
      (forall i, holds Inv caps i -> holds Inv caps' i) /\
      (forall i, i ∈ groups -> (i < length caps)%nat -> holds Inv caps' i).

(** Texts of one character class. *)
Fixpoint all_chars (ok : ascii -> bool) (t : string) : Prop :=
  match t with
  | EmptyString => True
  | String c u => ok c = true /\ all_chars ok u
  end.

Definition run_of (ok : ascii -> bool) (t : string) : Prop :=
  t <> EmptyString /\ all_chars ok t.

(** A character of a dotted address. *)
Definition is_address_char (c : ascii) : bool := is_digit c || Ascii.eqb c ".".

(** What the groups of the two SSH patterns hold. *)
Definition ssh_inv (i : nat) (t : string) : Prop :=
  match i with
  | 1%nat => run_of is_word t
  | 2%nat => run_of is_address_char t
  | _ => True
  end.

(** What the groups of the sudo pattern hold. *)
Definition sudo_inv (i : nat) (t : string) : Prop :=
  match i with
  | 1%nat => run_of is_word t
  | _ => True
  end.

(** What the groups of the access-log pattern hold. *)
Definition access_inv (i : nat) (t : string) : Prop :=
  match i with
  | 0%nat => t <> EmptyString
  | 5%nat => exists a b c, t = String a (String b (String c EmptyString)) /\
                           is_digit a = true /\ is_digit b = true /\
                           is_digit c = true
  | _ => True
  end.

(** The event types of the web connector. *)
Definition web_event_types : list string :=
  ["login"; "logout"; "file_access"; "application_use"; "page_view"].

(** Whether a parse produced an event. *)
Definition emitted (r : result (option (gmap string pyval) * list string))
    : bool :=
  match r with Ok (Some _, _) => true | _ => false end.

(** A starred character class run directly: characters are taken while
    the class allows, and the continuation is tried at the longest prefix
    first. *)
Fixpoint greedy {R} (ok : ascii -> bool)
    (k : string -> list (option string) -> option R)
    (s : string) (caps : list (option string)) : option R :=
  match s with
  | String c t =>
      if ok c then
        match greedy ok k t caps with
        | Some x => Some x
        | None => k s caps
        end
      else k s caps
  | EmptyString => k s caps
  end.

(** What follows the user group in the sudo pattern. *)
Definition sudo_rest : regex :=
  Seq (Star dot) (Seq (lit "COMMAND=") (Group 2 (Star dot))).

(** The event type of the event a parse produced. *)
Definition emitted_type
    (r : result (option (gmap string pyval) * list string)) : option pyval :=
  match r with Ok (Some ev, _) => ev !! "event_type" | _ => None end.

(** *** Events of a manager *)

Import Connector Manager.

Section Collected.

Variable now : datetime.
Variable isoformat : datetime -> string.
Variable strptime : string -> string -> result datetime.
Variable fs : gmap string file.

(** The event a record gives, tagged with the name of its connector. *)
Definition tagged (name : string) (c : connector_class) (raw : string)
    : option (gmap string pyval) :=
  match parse_event now isoformat strptime c raw with
  | Ok (Some ev, _) => Some (<["source_connector" := VStr name]> ev)
  | _ => None
  end.

(** The events of everything a connector's [fetch_events] yields. *)
Definition events_of (item : string * connector) : list (gmap string pyval) :=
  omap (tagged item.1 (cls item.2)) (fetch_events fs (tail item.2)).1.1.

(** The connector after its [fetch_events] ran to the end. *)
Definition advance (item : string * connector) : string * connector :=
  (item.1, mkConnector (cls item.2) (fetch_events fs (tail item.2)).2).

(** What a round of [collect_recent_events] prints for a connector: the
    files it could not read, then the count. *)
Definition report (item : string * connector) : list string :=
  (fetch_events fs (tail item.2)).1.2 ++
  [if (0 <? length (events_of item))%nat
   then "Collected " +:+ pretty (length (events_of item)) +:+ " events from "
        +:+ item.1
   else "No events found from " +:+ item.1].

(** Nothing new to read: the connector's [fetch_events] yields nothing
    and leaves its offsets alone. *)
Definition settled (item : string * connector) : Prop :=
  exists p, fetch_events fs (tail item.2) = ([], p, tail item.2).

End Collected.

(** [self.__class__.__name__] *)
Definition class_name_of (c : connector_class) : string :=
  match c with
  | LinuxAuthConnector => LinuxAuth.class_name
  | WebLogConnector => WebLog.class_name
  end.

(** *** Results on the dashboard *)

Import Detector.

(** A result as [analyze_event] makes it: level and flag follow from the
    score, and the score from a number of anomalies. *)
Definition scored (r : analysis) : Prop :=
  alert_level r = level_of (overall_risk_score r) /\
  is_suspicious r = Qle_bool 0.4 (overall_risk_score r) /\
  exists n, overall_risk_score r = overall_score n.

(** The order [get_alerts] sorts into: no score rises. *)
Definition descending (x y : analysis) : Prop :=
  (overall_risk_score y <= overall_risk_score x)%Q.

Fixpoint falling (l : list analysis) : Prop :=
  match l with
  | [] => True
  | x :: t => Forall (descending x) t /\ falling t
  end.

(** How many results have a level. *)
Definition with_level (l : alert) (results : list analysis) : nat :=
  length (filter (fun r => Dashboard.level_is l (alert_level r) = true) results).

Definition totals (user_stats : list (pyval * Dashboard.user_stat)) : nat :=
  foldr (fun item n => (Dashboard.total item.2 + n)%nat) 0%nat user_stats.

Definition suspicious_totals (user_stats : list (pyval * Dashboard.user_stat))
    : nat :=
  foldr (fun item n => (Dashboard.suspicious item.2 + n)%nat) 0%nat user_stats.

(** Whether a batch was analysed to the end. *)
Definition analysed (r : result (list analysis)) : bool :=
  match r with Ok _ => true | Raise _ => false end.

(** An anomaly that does not come from comparing with a profile. *)
Definition profile_free (a : string) : Prop :=
  a <> "Unknown user" /\
  startswith a "Outside normal hours" = false /\
  startswith a "Login from unusual location" = false.

(** Whether training produced a table. *)
Definition trained (r : result (gmap Z profile)) : bool :=
  match r with Ok _ => true | Raise _ => false end.

(** The status a parse kept in the details of its event. *)
Definition status_of (r : result (option (gmap string pyval) * list string))
    : option pyval :=
  match r with
  | Ok (Some ev, _) =>
      match ev !! "details" with
      | Some (VDict details) => details !! "status_code"
      | _ => None
      end
  | _ => None
  end.

End Shapes.

(** * Properties *)

(** ** Scoring *)

Module DetectorProps.

Import Detector.

Lemma py_min_Qmin (a b : Q) : (py_min a b == Qmin a b)%Q.
Proof.
  unfold py_min. destruct (Qlt_le_dec b a) as [Hlt | Hle].
  - symmetry. apply Q.min_r. by apply Qlt_le_weak.
  - symmetry. by apply Q.min_l.
Qed.

Lemma rule_score_mono (n m : nat) :
  (n <= m)%nat -> (rule_score n <= rule_score m)%Q.
Proof.
  intros Hnm. unfold rule_score.
  apply Qmult_le_compat_r; [| done].
  rewrite <- Zle_Qle. lia.
Qed.

Lemma overall_score_mono (n m : nat) :
  (n <= m)%nat -> (overall_score n <= overall_score m)%Q.
Proof.
  intros Hnm. unfold overall_score. rewrite !py_min_Qmin.
  apply Q.min_le_compat_l. by apply rule_score_mono.
Qed.

Lemma overall_score_range (n : nat) : (0 <= overall_score n <= 1)%Q.
Proof.
  unfold overall_score. rewrite py_min_Qmin. split.
  - apply Q.min_glb; [done |]. unfold rule_score.
    apply Qmult_le_0_compat; [| done]. rewrite <- (Zle_Qle 0). lia.
  - apply Q.le_min_l.
Qed.

Lemma Qle_bool_false (a b : Q) : Qle_bool a b = false <-> (b < a)%Q.
Proof.
  rewrite <- not_true_iff_false, Qle_bool_iff. split.
  - apply Qnot_le_lt.
  - apply Qlt_not_le.
Qed.

(** The alert level as a function of the score, threshold by threshold. *)
Lemma level_of_spec (score : Q) :
  (level_of score = HIGH <-> (0.6 <= score)%Q) /\
  (level_of score = MEDIUM <-> (0.4 <= score)%Q /\ (score < 0.6)%Q) /\
  (level_of score = LOW <-> (0.2 <= score)%Q /\ (score < 0.4)%Q) /\
  (level_of score = NORMAL <-> (score < 0.2)%Q).
Proof.
  unfold level_of.
  destruct (Qle_bool 0.6 score) eqn:H6;
    [apply Qle_bool_iff in H6 | apply Qle_bool_false in H6];
  (destruct (Qle_bool 0.4 score) eqn:H4;
    [apply Qle_bool_iff in H4 | apply Qle_bool_false in H4]);
  (destruct (Qle_bool 0.2 score) eqn:H2;
    [apply Qle_bool_iff in H2 | apply Qle_bool_false in H2]);
  repeat split; try done; try (intros [? ?]); intros; lra.
Qed.

(** The level and the flag computed on doubles are those computed on
    rationals, for every number of anomalies an event can have. *)
Lemma float_score_agrees (n : nat) :
  (n <= 4)%nat ->
  Float64.level_of (Float64.overall_score n) = level_of (overall_score n) /\
  Float64.is_suspicious (Float64.overall_score n)
  = Qle_bool 0.4 (overall_score n).
Proof.
  intros Hn.
  destruct n as [| [| [| [| [| n]]]]]; [| | | | | lia];
    split; vm_compute; reflexivity.
Qed.

Section Scoring.

Variable fromisoformat : string -> result datetime.
Variable to_datetime : string -> result datetime.
Variable str_other : pyval -> string.
Variable user_profiles : gmap Z profile.

#[local] Abbreviation detect :=
  (detect_rule_based_anomalies fromisoformat to_datetime str_other user_profiles).
#[local] Abbreviation analyze :=
  (analyze_event fromisoformat to_datetime str_other user_profiles).

(** [analyze_event] returns exactly when rule detection does, with the
    record built from the anomalies found. *)
Lemma analyze_event_inv now ev r :
  analyze now ev = Ok r ->
  detect ev = Ok (anomalies r) /\
  event r = ev /\
  overall_risk_score r = overall_score (length (anomalies r)) /\
  alert_level r = level_of (overall_risk_score r) /\
  is_suspicious r = Qle_bool 0.4 (overall_risk_score r) /\
  timestamp_analyzed r = now.
Proof.
  unfold analyze_event. destruct detect as [l | e]; simpl; [| done].
  intros [= <-]. done.
Qed.

Lemma analyze_event_returns now ev l :
  detect ev = Ok l -> returns (analyze now ev).
Proof. intros H. unfold analyze_event. rewrite H. by eexists. Qed.

(** C1. Whenever [analyze_event] returns, the anomalies are those rule
    detection found, the score is [min(1.0, n * 0.4)] for their number
    [n], the alert level is HIGH iff the score is at least 0.6, MEDIUM iff
    it is in [0.4, 0.6), LOW iff in [0.2, 0.4), NORMAL iff below 0.2,
    [is_suspicious] holds iff the score is at least 0.4, the score lies in
    [0, 1], and an event with at least as many anomalies scores at least
    as high. *)
Theorem analyze_event_score now ev r :
  analyze_event fromisoformat to_datetime str_other user_profiles now ev
  = Ok r ->
  let n := length (anomalies r) in
  let score := overall_risk_score r in
  detect_rule_based_anomalies fromisoformat to_datetime str_other
    user_profiles ev = Ok (anomalies r) /\
  (score == Qmin 1 (inject_Z (Z.of_nat n) * 0.4))%Q /\
  (alert_level r = HIGH <-> (0.6 <= score)%Q) /\
  (alert_level r = MEDIUM <-> (0.4 <= score)%Q /\ (score < 0.6)%Q) /\
  (alert_level r = LOW <-> (0.2 <= score)%Q /\ (score < 0.4)%Q) /\
  (alert_level r = NORMAL <-> (score < 0.2)%Q) /\
  (is_suspicious r = true <-> (0.4 <= score)%Q) /\
  (0 <= score <= 1)%Q /\
  (forall now' ev' r',
     analyze_event fromisoformat to_datetime str_other user_profiles now' ev'
     = Ok r' ->
     (n <= length (anomalies r'))%nat ->
     (score <= overall_risk_score r')%Q).
Proof.
  intros H n score.
  destruct (analyze_event_inv _ _ _ H) as (Hd & _ & Hs & Hl & Hb & _).
  destruct (level_of_spec score) as (L1 & L2 & L3 & L4).
  subst score. rewrite Hl.
  split; [exact Hd |]. split; [rewrite Hs; apply py_min_Qmin |].
  split; [exact L1 |]. split; [exact L2 |].
  split; [exact L3 |]. split; [exact L4 |].
  split; [rewrite Hb; apply Qle_bool_iff |].
  split; [rewrite Hs; apply overall_score_range |].
  intros now' ev' r' H' Hn.
  destruct (analyze_event_inv _ _ _ H') as (_ & _ & Hs' & _).
    rewrite Hs, Hs'. by apply overall_score_mono.
Qed.



(** C9. A login at hour 3 from "Russia" and address 203.0.113.45, by a
    user whose profile has login hours 9 to 17 and whose location check
    does not fire (the location is in the profile's history or in the
    trusted list), has exactly the time, country and external-address
    anomalies, in this order; its score is 1.0, its level HIGH, and it is
    suspicious. The profile's country history plays no part. *)
Theorem night_login_from_russia now ev p stamp t :
  lookup_profile user_profiles (dict_get ev "user_id") = Ok (Some p) ->
  hours_min (normal_login_hours p) = 9 ->
  hours_max (normal_login_hours p) = 17 ->
  ev !! "event_type" = Some (VStr "login") ->
  ev !! "timestamp" = Some stamp ->
  parse_timestamp fromisoformat to_datetime (py_str str_other stamp) = Ok t ->
  dt_hour t = 3 ->
  ev !! "country" = Some (VStr "Russia") ->
  ev !! "source_ip" = Some (VStr "203.0.113.45") ->
  (let location := dict_get_default ev "location" (VStr "Unknown") in
   in_strs location (normal_locations p) || in_strs location trusted_locations
   = true) ->
  let found := ["Very unusual login time: 3:00";
                "Login from suspicious country: Russia";
                "Login from external IP: 203.0.113.45"] in
  detect ev = Ok found /\
  exists r,
    analyze now ev = Ok r /\
    anomalies r = found /\
    (overall_risk_score r == 1)%Q /\
    (overall_risk_score r == Qmin 1 (3 * 0.4))%Q /\
    alert_level r = HIGH /\
    is_suspicious r = true.
Proof.
  intros Hp Hmin Hmax Hty Hts Hparse Hhour Hc Hip Hloc found.
  assert (Hd : detect ev = Ok found).
  { unfold detect_rule_based_anomalies. rewrite Hp. simpl.
    unfold dict_get. rewrite Hty. simpl.
    unfold try_except, login_rules, getitem. rewrite Hts.
    unfold mbind, body_bind, lift. rewrite Hparse, Hhour.
    unfold country_rule, location_rule, ip_rule, dict_get_default in *.
    unfold mbind, body_bind, lift. rewrite Hc, Hip. simpl in *.
    assert (Hquiet :
      negb (in_strs (default (VStr "Unknown") (ev !! "location"))
              (normal_locations p))
      && negb (in_strs (default (VStr "Unknown") (ev !! "location"))
                 trusted_locations) = false).
    { rewrite <- negb_orb. by rewrite Hloc. }
    rewrite Hquiet. reflexivity. }
  split; [done |]. unfold analyze_event. rewrite Hd. simpl.
  eexists. split; [reflexivity |]. simpl. done.
Qed.

(** Each login rule only appends, and at most one entry. *)
Lemma time_rule_run hour p acc :
  exists l, time_rule hour p acc = (acc ++ l, Ok tt) /\ (length l <= 1)%nat.
Proof.
  unfold time_rule.
  destruct ((hour <? 6) || (22 <? hour)).
  - eexists [_]. split; [reflexivity | simpl; lia].
  - destruct ((hour <? hours_min (normal_login_hours p) - 1)
              || (hours_max (normal_login_hours p) + 1 <? hour)).
    + eexists [_]. split; [reflexivity | simpl; lia].
    + exists []. rewrite app_nil_r. split; [reflexivity | simpl; lia].
Qed.

Lemma when_append_run (b : bool) msg acc :
  exists l, when b (append msg) acc = (acc ++ l, Ok tt) /\ (length l <= 1)%nat.
Proof.
  destruct b.
  - exists [msg]. split; [reflexivity | simpl; lia].
  - exists []. rewrite app_nil_r. split; [reflexivity | simpl; lia].
Qed.

Lemma ip_rule_run ev acc :
  exists l r,
    ip_rule str_other ev acc = (acc ++ l, r) /\
    (length l + (if r is Raise _ then 1 else 0) <= 1)%nat.
Proof.
  unfold ip_rule, mbind, body_bind, lift.
  destruct (startswith_of _ _) as [local | e].
  - destruct (when_append_run (negb local)
      ("Login from external IP: " +:+
       py_str str_other (dict_get_default ev "source_ip" (VStr ""))) acc)
      as (l & -> & Hl).
    exists l, (Ok tt). split; [done | lia].
  - exists [], (Raise e). rewrite app_nil_r. split; [done | simpl; lia].
Qed.

(** The login branch as a whole, handler included, appends at most four
    entries. *)
Lemma login_branch_run ev p acc :
  exists l,
    try_except (login_rules fromisoformat to_datetime str_other ev p)
      (fun e => "Error parsing timestamp: " +:+ exn_msg e) acc = acc ++ l /\
    (length l <= 4)%nat.
Proof.
  unfold try_except, login_rules, mbind, body_bind, lift.
  destruct (getitem ev "timestamp") as [stamp | e];
    [| eexists; split; [reflexivity | simpl; lia]].
  destruct (parse_timestamp _ _ _) as [t | e];
    [| eexists; split; [reflexivity | simpl; lia]].
  destruct (time_rule_run (dt_hour t) p acc) as (l1 & -> & H1).
  unfold country_rule, location_rule.
  destruct (when_append_run
    (in_strs (dict_get_default ev "country" (VStr "Unknown")) suspicious_countries)
    ("Login from suspicious country: " +:+
     py_str str_other (dict_get_default ev "country" (VStr "Unknown")))
    (acc ++ l1)) as (l2 & -> & H2).
  destruct (when_append_run
    (negb (in_strs (dict_get_default ev "location" (VStr "Unknown"))
             (normal_locations p))
     && negb (in_strs (dict_get_default ev "location" (VStr "Unknown"))
                trusted_locations))
    ("Login from unusual location: " +:+
     py_str str_other (dict_get_default ev "location" (VStr "Unknown")))
    ((acc ++ l1) ++ l2)) as (l3 & -> & H3).
  destruct (ip_rule_run ev (((acc ++ l1) ++ l2) ++ l3)) as (l4 & r & -> & H4).
  destruct r as [[] | e].
  - exists (l1 ++ l2 ++ l3 ++ l4). rewrite <- !app_assoc.
    split; [done |]. rewrite !length_app. lia.
  - exists (l1 ++ l2 ++ l3 ++ l4 ++ ["Error parsing timestamp: " +:+ exn_msg e]).
    rewrite <- !app_assoc. split; [done |]. rewrite !length_app. simpl. lia.
Qed.

(** C10, as the code has it. For a login of a user who has a profile,
    whose time stamp is present and is read by the parser, a [country] of
    "Unknown" (also by default, when the event has none) puts the
    suspicious-country anomaly in the anomaly list. *)
Theorem unknown_country_flagged ev p stamp t :
  lookup_profile user_profiles (dict_get ev "user_id") = Ok (Some p) ->
  ev !! "event_type" = Some (VStr "login") ->
  ev !! "timestamp" = Some stamp ->
  parse_timestamp fromisoformat to_datetime (py_str str_other stamp) = Ok t ->
  dict_get_default ev "country" (VStr "Unknown") = VStr "Unknown" ->
  exists l,
    detect ev = Ok l /\
    "Login from suspicious country: Unknown" ∈ l.
Proof.
  intros Hp Hty Hts Hparse Hc.
  unfold detect_rule_based_anomalies. rewrite Hp. simpl.
  unfold dict_get. rewrite Hty. simpl.
  unfold try_except, login_rules, getitem. rewrite Hts.
  unfold mbind, body_bind, lift. rewrite Hparse.
  destruct (time_rule_run (dt_hour t) p []) as (l1 & -> & _).
  assert (Hcr : forall acc,
    country_rule str_other ev acc
    = (acc ++ ["Login from suspicious country: Unknown"], Ok tt)).
  { intros acc. unfold country_rule. rewrite Hc. reflexivity. }
  rewrite Hcr. simpl app. unfold location_rule.
  destruct (when_append_run
    (negb (in_strs (dict_get_default ev "location" (VStr "Unknown"))
             (normal_locations p))
     && negb (in_strs (dict_get_default ev "location" (VStr "Unknown"))
                trusted_locations))
    ("Login from unusual location: " +:+
     py_str str_other (dict_get_default ev "location" (VStr "Unknown")))
    (l1 ++ ["Login from suspicious country: Unknown"])) as (l3 & -> & _).
  destruct (ip_rule_run ev ((l1 ++ ["Login from suspicious country: Unknown"]) ++ l3))
    as (l4 & r & -> & _).
  destruct r as [[] | e]; eexists; (split; [reflexivity |]);
    rewrite !elem_of_app, list_elem_of_singleton; tauto.
Qed.

(** The file branch appends at most three entries when it returns. *)
Lemma file_rules_run ev acc l :
  file_rules str_other ev acc = Ok l ->
  exists l', l = acc ++ l' /\ (length l' <= 3)%nat.
Proof.
  unfold file_rules, mbind, result_bind.
  destruct (gt_int _ 100) as [large | e]; [| done].
  destruct (if eq_str _ _ then _ else _) as [download | e]; [| done].
  destruct (lower_of _) as [lowered | e]; [| done].
  destruct large, download,
    (existsb (fun word => contains word lowered) sensitive_words);
    intros [= <-]; rewrite <- ?app_assoc;
    eexists; (split; [first [reflexivity | symmetry; apply app_nil_r]
                     | simpl; lia]).
Qed.

(** No event has more than four anomalies: the two branches exclude each
    other, so a score is one of 0, 0.4, 0.8 and 1. *)
Lemma detect_at_most_four ev l :
  detect ev = Ok l -> (length l <= 4)%nat.
Proof.
  unfold detect_rule_based_anomalies, mbind, result_bind.
  destruct (lookup_profile _ _) as [[p |] | e]; [| intros [= <-]; simpl; lia | done].
  destruct (login_branch_run ev p []) as (l1 & E1 & H1). simpl in E1.
  destruct (eq_str (dict_get ev "event_type") "login") eqn:Hlogin.
  - assert (Hfile : eq_str (dict_get ev "event_type") "file_access" = false).
    { destruct (dict_get ev "event_type") as [| | | | | s |]; try done.
      simpl in *. apply String.eqb_eq in Hlogin. by subst s. }
    rewrite Hfile, E1. by intros [= <-].
  - destruct (eq_str (dict_get ev "event_type") "file_access").
    + intros (l' & -> & Hl')%file_rules_run. simpl. lia.
    + intros [= <-]. simpl. lia.
Qed.

(** An event that is not a file access, with a hashable [user_id], is
    always analysed: nothing the login branch raises gets out. *)
Lemma analyze_event_total now ev :
  eq_str (dict_get ev "event_type") "file_access" = false ->
  (forall d, dict_get ev "user_id" <> VDict d) ->
  returns (analyze now ev).
Proof.
  intros Hfile Hid.
  assert (Hd : exists l, detect ev = Ok l); [| destruct Hd as [l Hd];
    by eapply analyze_event_returns].
  unfold detect_rule_based_anomalies, lookup_profile, mbind, result_bind.
  destruct (dict_get ev "user_id") as [| | | | | | d] eqn:E; simpl;
    try (by eexists);
    try (rewrite Hfile; repeat case_match; by eexists).
  by destruct (Hid d).
Qed.

(** The record [analyze_event] returns has the level and the flag that
    the double-precision computation of the source gives. *)
Lemma analyze_event_float now ev r :
  analyze now ev = Ok r ->
  alert_level r = Float64.level_of (Float64.overall_score (length (anomalies r))) /\
  is_suspicious r
  = Float64.is_suspicious (Float64.overall_score (length (anomalies r))).
Proof.
  intros H. destruct (analyze_event_inv _ _ _ H) as (Hd & _ & Hs & Hl & Hb & _).
  destruct (float_score_agrees (length (anomalies r))) as [Fl Fb].
  { by eapply detect_at_most_four. }
  by rewrite Hl, Hb, Hs, Fl, Fb.
Qed.

End Scoring.

(** *** Two calls at two clock readings

    [pandas.to_datetime] reads the texts 'now' and 'today' off the clock,
    so the parser a call of [analyze_event] uses is the parser at that
    call's clock reading, [to_datetime_at now]. *)

Section Clock.

Variable fromisoformat : string -> result datetime.
Variable to_datetime_at : datetime -> string -> result datetime.
Variable str_other : pyval -> string.
Variable isoformat : datetime -> string.
Variable user_profiles : gmap Z profile.

(** Rule detection consults [pandas.to_datetime] for nothing but the time
    stamp of a login, and for that only when it has no "T". *)
Lemma detect_reads_stamp_only (to_datetime to_datetime' : string -> result datetime)
    (ev : gmap string pyval) :
  (eq_str (dict_get ev "event_type") "login" = true ->
   forall stamp,
     ev !! "timestamp" = Some stamp ->
     contains "T" (py_str str_other stamp) = false ->
     to_datetime (py_str str_other stamp)
     = to_datetime' (py_str str_other stamp)) ->
  detect_rule_based_anomalies fromisoformat to_datetime str_other
    user_profiles ev
  = detect_rule_based_anomalies fromisoformat to_datetime' str_other
      user_profiles ev.
Proof.
  intros Hstamp. unfold detect_rule_based_anomalies.
  destruct (lookup_profile user_profiles (dict_get ev "user_id"))
    as [[p |] | e]; simpl; [| done | done].
  destruct (eq_str (dict_get ev "event_type") "login") eqn:Hlogin; [| done].
  assert (Hrules :
    try_except (login_rules fromisoformat to_datetime str_other ev p)
      (fun e => "Error parsing timestamp: " +:+ exn_msg e) []
    = try_except (login_rules fromisoformat to_datetime' str_other ev p)
        (fun e => "Error parsing timestamp: " +:+ exn_msg e) []);
    [| by rewrite Hrules].
  unfold try_except, login_rules, getitem, mbind, body_bind, lift.
  destruct (ev !! "timestamp") as [stamp |] eqn:Hts; [| done].
  assert (Hparse :
    parse_timestamp fromisoformat to_datetime (py_str str_other stamp)
    = parse_timestamp fromisoformat to_datetime' (py_str str_other stamp)).
  { unfold parse_timestamp.
    destruct (contains "T" (py_str str_other stamp)) eqn:HT; [done |].
    by apply Hstamp. }
  by rewrite Hparse.
Qed.
(** C3, as the code has it. Two calls on the same event and profile
    table, at two clock readings, agree on whether they raise and on
    [event], [anomalies], [overall_risk_score], [alert_level] and
    [is_suspicious], unless the event is a login whose time stamp has no
    "T" and is read differently by [pandas.to_datetime] at the two
    readings; [timestamp_analyzed] is the clock reading of each call. *)
Theorem analyze_event_clock_only (now1 now2 : datetime)
    (ev : gmap string pyval) :
  (eq_str (dict_get ev "event_type") "login" = true ->
   forall stamp,
     ev !! "timestamp" = Some stamp ->
     contains "T" (py_str str_other stamp) = false ->
     to_datetime_at now1 (py_str str_other stamp)
     = to_datetime_at now2 (py_str str_other stamp)) ->
  match analyze_event fromisoformat (to_datetime_at now1) str_other
          user_profiles (isoformat now1) ev,
        analyze_event fromisoformat (to_datetime_at now2) str_other
          user_profiles (isoformat now2) ev with
  | Ok r1, Ok r2 =>
      event r1 = event r2 /\
      anomalies r1 = anomalies r2 /\
      overall_risk_score r1 = overall_risk_score r2 /\
      alert_level r1 = alert_level r2 /\
      is_suspicious r1 = is_suspicious r2 /\
      timestamp_analyzed r1 = isoformat now1 /\
      timestamp_analyzed r2 = isoformat now2
  | Raise e1, Raise e2 => e1 = e2
  | _, _ => False
  end.
Proof.
  intros Hstamp. unfold analyze_event.
  rewrite (detect_reads_stamp_only (to_datetime_at now1) (to_datetime_at now2)
             ev Hstamp).
  by destruct (detect_rule_based_anomalies _ _ _ _ _).
Qed.

End Clock.



(** *** The scorer on the sample events *)

#[local] Abbreviation sample_detect :=
  (detect_rule_based_anomalies Lib.fromisoformat Lib.to_datetime Lib.str_other
     Samples.profiles).
#[local] Abbreviation sample_analyze :=
  (analyze_event Lib.fromisoformat Lib.to_datetime Lib.str_other
     Samples.profiles).

Lemma analyze_event_score_witness :
  sample_analyze "2024-01-15T12:00:00" Samples.night_login
  = Ok (Samples.night_login_analysis "2024-01-15T12:00:00") /\
  (overall_risk_score (Samples.night_login_analysis "2024-01-15T12:00:00")
   == Qmin 1 (inject_Z 3 * 0.4))%Q /\
  (0 <= overall_risk_score (Samples.night_login_analysis "2024-01-15T12:00:00")
   <= 1)%Q.
Proof.
  set (r := Samples.night_login_analysis "2024-01-15T12:00:00").
  assert (H : sample_analyze "2024-01-15T12:00:00" Samples.night_login = Ok r)
    by (vm_compute; reflexivity).
  destruct (analyze_event_score Lib.fromisoformat Lib.to_datetime
              Lib.str_other Samples.profiles "2024-01-15T12:00:00"
              Samples.night_login r H)
    as (_ & Hs & _ & _ & _ & _ & _ & Hr & _).
  exact (conj H (conj Hs Hr)).
Defined.

(** C3 as stated fails: the same event and the same profile table, analysed
    at two clock readings, give two different records. *)
Lemma analyze_event_depends_on_clock :
  sample_analyze "2024-01-15T12:00:00" Samples.night_login
  = Ok (Samples.night_login_analysis "2024-01-15T12:00:00") /\
  sample_analyze "2024-01-15T12:00:01" Samples.night_login
  = Ok (Samples.night_login_analysis "2024-01-15T12:00:01") /\
  timestamp_analyzed (Samples.night_login_analysis "2024-01-15T12:00:00")
  <> timestamp_analyzed (Samples.night_login_analysis "2024-01-15T12:00:01") /\
  Samples.night_login_analysis "2024-01-15T12:00:00"
  <> Samples.night_login_analysis "2024-01-15T12:00:01".
Proof.
  split; [vm_compute; reflexivity |].
  split; [vm_compute; reflexivity |].
  split; [simpl; discriminate |].
  intros H. apply (f_equal timestamp_analyzed) in H. simpl in H. discriminate H.
Qed.

Lemma analyze_event_clock_only_witness :
  exists r1 r2,
    analyze_event Lib.fromisoformat (Lib.to_datetime_at Lib.noon) Lib.str_other
      Samples.profiles (Lib.isoformat Lib.noon) Samples.monday_login = Ok r1 /\
    analyze_event Lib.fromisoformat (Lib.to_datetime_at Lib.night) Lib.str_other
      Samples.profiles (Lib.isoformat Lib.night) Samples.monday_login = Ok r2 /\
    anomalies r1 = anomalies r2 /\
    alert_level r1 = alert_level r2 /\
    timestamp_analyzed r1 = Lib.isoformat Lib.noon /\
    timestamp_analyzed r2 = Lib.isoformat Lib.night.
Proof.
  pose proof (analyze_event_clock_only Lib.fromisoformat Lib.to_datetime_at
                Lib.str_other Lib.isoformat Samples.profiles Lib.noon Lib.night
                Samples.monday_login) as H.
  destruct (analyze_event Lib.fromisoformat (Lib.to_datetime_at Lib.noon)
              Lib.str_other Samples.profiles (Lib.isoformat Lib.noon)
              Samples.monday_login) as [r1 | e1] eqn:E1.
  - destruct (analyze_event Lib.fromisoformat (Lib.to_datetime_at Lib.night)
                Lib.str_other Samples.profiles (Lib.isoformat Lib.night)
                Samples.monday_login) as [r2 | e2] eqn:E2.
    + destruct H as (_ & Ha & _ & Hl & _ & Ht1 & Ht2).
      { intros _ stamp Hs _. vm_compute in Hs. injection Hs as <-.
        vm_compute. reflexivity. }
      exists r1, r2.
      exact (conj eq_refl (conj eq_refl (conj Ha (conj Hl (conj Ht1 Ht2))))).
    + exfalso.
      apply (f_equal (fun r : result analysis =>
                        match r with Ok _ => true | Raise _ => false end)) in E2.
      vm_compute in E2. discriminate E2.
  - exfalso.
    apply (f_equal (fun r : result analysis =>
                      match r with Ok _ => true | Raise _ => false end)) in E1.
    vm_compute in E1. discriminate E1.
Defined.

(** A login stamped "now" is judged by the hour of the call: quiet at
    noon, very unusual at three in the night. *)
Example login_stamped_now :
  detect_rule_based_anomalies Lib.fromisoformat (Lib.to_datetime_at Lib.noon)
    Lib.str_other Samples.profiles Samples.login_now = Ok [] /\
  detect_rule_based_anomalies Lib.fromisoformat (Lib.to_datetime_at Lib.night)
    Lib.str_other Samples.profiles Samples.login_now
  = Ok ["Very unusual login time: 3:00"].
Proof. split; vm_compute; reflexivity. Qed.



Lemma night_login_from_russia_witness :
  sample_detect Samples.night_login
  = Ok ["Very unusual login time: 3:00";
        "Login from suspicious country: Russia";
        "Login from external IP: 203.0.113.45"].
Proof.
  refine (proj1 (night_login_from_russia Lib.fromisoformat Lib.to_datetime
                   Lib.str_other Samples.profiles "2024-01-15T12:00:00"
                   Samples.night_login Samples.alice
                   (VStr "2024-01-15T03:12:00")
                   (mkDatetime 2024 1 15 3 12 0 None)
                   _ _ _ _ _ _ _ _ _ _));
    vm_compute; reflexivity.
Defined.

(** C10 as stated fails: a login of a known user with country "Unknown"
    and no time stamp gets the parse-error anomaly only; the country rule
    is never reached. *)
Lemma unknown_country_not_flagged :
  lookup_profile Samples.profiles (dict_get Samples.unstamped_login "user_id")
  = Ok (Some Samples.alice) /\
  Samples.unstamped_login !! "event_type" = Some (VStr "login") /\
  Samples.unstamped_login !! "country" = Some (VStr "Unknown") /\
  sample_detect Samples.unstamped_login
  = Ok ["Error parsing timestamp: 'timestamp'"] /\
  "Login from suspicious country: Unknown"
  ∉ ["Error parsing timestamp: 'timestamp'"].
Proof.
  repeat split; try (vm_compute; reflexivity).
  rewrite list_elem_of_singleton. discriminate.
Qed.

Lemma unknown_country_flagged_witness :
  exists l,
    sample_detect (<["country" := VStr "Unknown"]> Samples.night_login) = Ok l /\
    "Login from suspicious country: Unknown" ∈ l.
Proof.
  refine (unknown_country_flagged Lib.fromisoformat Lib.to_datetime
            Lib.str_other Samples.profiles
            (<["country" := VStr "Unknown"]> Samples.night_login) Samples.alice
            (VStr "2024-01-15T03:12:00") (mkDatetime 2024 1 15 3 12 0 None)
            _ _ _ _ _);
    vm_compute; reflexivity.
Defined.

End DetectorProps.

(** ** Profile construction *)

Module TrainingProps.

Import Detector.

Lemma unique_elem `{EqDecision A} (l : list A) (x : A) : x ∈ unique l <-> x ∈ l.
Proof.
  induction l as [| y t IH]; simpl; [done |].
  rewrite !elem_of_cons, list_elem_of_filter, IH.
  destruct (decide (x = y)); tauto.
Qed.


Lemma mapM_length {A B} (f : A -> result B) (l : list A) ys :
  mapM f l = Ok ys -> length ys = length l.
Proof.
  revert ys. induction l as [| x t IH]; simpl; intros ys.
  - by intros [= <-].
  - destruct (f x); simpl; [| done].
    destruct (mapM f t); simpl; [| done].
    intros [= <-]. simpl. f_equal. by apply IH.
Qed.

(** Rows that fail a test on the row fail it when paired with anything. *)
Lemma filter_zip_none {A B} (P : A -> bool) (l : list A) (hs : list B) :
  (forall x, x ∈ l -> P x = false) ->
  filter (fun rh : A * B => P (fst rh)) (zip l hs) = [].
Proof.
  revert hs. induction l as [| x t IH]; intros hs H; simpl; [done |].
  destruct hs as [| h hs]; [done |]. simpl.
  rewrite filter_cons. simpl. rewrite (H x) by set_solver.
  destruct (decide (Is_true false)) as [[] |].
  apply IH. intros; apply H; set_solver.
Qed.

Lemma filter_none {A} (P : A -> bool) (l : list A) :
  (forall x, x ∈ l -> P x = false) -> filter P l = [].
Proof.
  induction l as [| x t IH]; intros H; [done |].
  rewrite filter_cons, (H x) by set_solver.
  destruct (decide (Is_true false)) as [[] |].
  apply IH. intros; apply H; set_solver.
Qed.

Section Training.

Variable to_datetime : string -> result datetime.

#[local] Abbreviation build := (build_profile to_datetime).
#[local] Abbreviation create := (create_user_profiles to_datetime).

(** What one iteration puts in the profile when the user has no login,
    respectively no file-access, rows. *)
Lemma build_profile_defaults df uid p :
  build df uid = Ok p ->
  user_id p = uid /\
  ((forall r, r ∈ user_rows df uid -> is_login r = false) ->
   normal_login_hours p = mkLoginHours 9 17 (VInt 13)) /\
  ((forall r, r ∈ user_rows df uid -> is_file_access r = false) ->
   avg_files_per_day p = VInt 0 /\
   typical_file_sizes p = mkFileSizes (VInt 0) (VInt 0)).
Proof.
  unfold build_profile, mbind, result_bind. fold (user_rows df uid).
  destruct (column df "timestamp"); [| done].
  destruct (mapM _ _) as [stamps |]; [| done].
  destruct (column df "event_type"); [| done].
  destruct (if bool_decide _ then _ else _) as [shown |]; [| done].
  intros [= <-]. simpl. split; [done |]. split.
  - intros Hnone. by rewrite filter_zip_none.
  - intros Hnone. by rewrite filter_none.
Qed.


(** The loop: every user of the list gets the profile its iteration
    builds, other keys are left alone. *)
Lemma foldM_profiles df (l : list Z) (m profiles : gmap Z profile) :
  foldM (fun profiles uid => p ← build df uid; Ok (<[uid := p]> profiles)) m l
  = Ok profiles ->
  forall uid,
    (uid ∈ l -> exists p, build df uid = Ok p /\ profiles !! uid = Some p) /\
    (uid ∉ l -> profiles !! uid = m !! uid).
Proof.
  revert m. induction l as [| x t IH]; simpl; intros m H uid.
  - injection H as <-. split; [by intros ?%not_elem_of_nil | done].
  - unfold mbind, result_bind in H.
    destruct (build df x) as [p |] eqn:Hp; [| done].
    destruct (IH _ H uid) as [Hin Hout]. split.
    + intros Hx. destruct (decide (uid ∈ t)) as [Ht | Ht]; [by apply Hin |].
      apply elem_of_cons in Hx as [-> | ?]; [| done].
      exists p. split; [done |]. rewrite (Hout Ht). apply lookup_insert_eq.
    + intros Hx. apply not_elem_of_cons in Hx as [Hne Ht].
      rewrite (Hout Ht). by apply lookup_insert_ne.
Qed.



End Training.




End TrainingProps.

(** ** Connectors *)

Module ConnectorProps.

Import Connector.

Section Normalize.

Variable now : datetime.
Variable isoformat : datetime -> string.
Variable class_name : string.

#[local] Abbreviation standardize := (standardize_event now isoformat class_name).

Lemma standardize_event_lookup (d : gmap string pyval) :
  standardize d !! "timestamp"
    = Some (dict_get_default d "timestamp" (VStr (isoformat now))) /\
  standardize d !! "user_id" = Some (dict_get d "user_id") /\
  standardize d !! "user_name" = Some (dict_get d "user_name") /\
  standardize d !! "event_type" = Some (dict_get d "event_type") /\
  standardize d !! "source_ip" = Some (dict_get d "source_ip") /\
  standardize d !! "location"
    = Some (dict_get_default d "location" (VStr "Unknown")) /\
  standardize d !! "country"
    = Some (dict_get_default d "country" (VStr "Unknown")) /\
  standardize d !! "device" = Some (dict_get d "device") /\
  standardize d !! "success"
    = Some (dict_get_default d "success" (VBool true)) /\
  standardize d !! "file_name" = Some (dict_get d "file_name") /\
  standardize d !! "file_size_mb" = Some (dict_get d "file_size_mb") /\
  standardize d !! "action" = Some (dict_get d "action") /\
  standardize d !! "details" = Some (dict_get_default d "details" (VDict ∅)) /\
  standardize d !! "source" = Some (VStr class_name).
Proof.
  unfold standardize_event.
  generalize (dict_get_default d "timestamp" (VStr (isoformat now)))
    (dict_get d "user_id") (dict_get d "user_name") (dict_get d "event_type")
    (dict_get d "source_ip") (dict_get_default d "location" (VStr "Unknown"))
    (dict_get_default d "country" (VStr "Unknown")) (dict_get d "device")
    (dict_get_default d "success" (VBool true)) (dict_get d "file_name")
    (dict_get d "file_size_mb") (dict_get d "action")
    (dict_get_default d "details" (VDict ∅)).
  intros. repeat split; vm_compute; reflexivity.
Qed.

(** C4, as the code has it. A normalized event has exactly the fourteen
    keys of [event_keys]. A field the input supplies is carried over. Of
    the fields the input does not supply, [timestamp] is the clock reading,
    [location] and [country] are "Unknown", [success] is [True],
    [details] is the empty dict, and [user_id], [user_name], [event_type],
    [source_ip], [device], [file_name], [file_size_mb] and [action] are
    [None]. *)
Theorem standardize_event_fields (d : gmap string pyval) :
  (forall k, k ∈ event_keys <-> is_Some (standardize d !! k)) /\
  (forall k v, k ∈ event_keys -> k <> "source" ->
               d !! k = Some v -> standardize d !! k = Some v) /\
  (d !! "timestamp" = None ->
   standardize d !! "timestamp" = Some (VStr (isoformat now))) /\
  (d !! "location" = None -> standardize d !! "location" = Some (VStr "Unknown")) /\
  (d !! "country" = None -> standardize d !! "country" = Some (VStr "Unknown")) /\
  (d !! "success" = None -> standardize d !! "success" = Some (VBool true)) /\
  (d !! "details" = None -> standardize d !! "details" = Some (VDict ∅)) /\
  (forall k,
     k ∈ ["user_id"; "user_name"; "event_type"; "source_ip"; "device";
          "file_name"; "file_size_mb"; "action"] ->
     d !! k = None -> standardize d !! k = Some VNone).
Proof.
  destruct (standardize_event_lookup d)
    as (H1 & H2 & H3 & H4 & H5 & H6 & H7 & H8 & H9 & H10 & H11 & H12
        & H13 & H14).
  split; [| split; [| repeat split]].
  - intros k. split.
    + intros Hk. unfold event_keys in Hk.
      repeat (apply elem_of_cons in Hk as [-> | Hk]; [by eexists |]).
      by apply not_elem_of_nil in Hk.
    + intros [v Hv]. destruct (decide (k ∈ event_keys)) as [| Hk]; [done |].
      exfalso. apply Hk. unfold standardize_event in Hv.
      apply elem_of_list_to_map_2 in Hv.
      apply (list_elem_of_fmap_2 fst) in Hv. exact Hv.
  - intros k v Hk Hne Hd. unfold event_keys in Hk.
    unfold dict_get, dict_get_default in *.
    repeat (apply elem_of_cons in Hk as [-> | Hk];
            [first [by rewrite ?H1, ?H2, ?H3, ?H4, ?H5, ?H6, ?H7, ?H8, ?H9,
                      ?H10, ?H11, ?H12, ?H13, Hd | done] |]).
    by apply not_elem_of_nil in Hk.
  - intros Hd. unfold dict_get_default in H1. by rewrite H1, Hd.
  - intros Hd. unfold dict_get_default in H6. by rewrite H6, Hd.
  - intros Hd. unfold dict_get_default in H7. by rewrite H7, Hd.
  - intros Hd. unfold dict_get_default in H9. by rewrite H9, Hd.
  - intros Hd. unfold dict_get_default in H13. by rewrite H13, Hd.
  - intros k Hk Hd. unfold dict_get in *.
    repeat (apply elem_of_cons in Hk as [-> | Hk];
            [by rewrite ?H2, ?H3, ?H4, ?H5, ?H8, ?H10, ?H11, ?H12, Hd |]).
    by apply not_elem_of_nil in Hk.
Qed.

End Normalize.


(** C4 as stated fails: with no [user_name], [source_ip] and [device] in
    the input, the normalized event holds [None] for them, not the
    "unknown" or "Unknown" string. *)
Lemma standardize_event_none_not_sentinel :
  Samples.bare_event !! "user_name" = Some VNone /\
  Samples.bare_event !! "source_ip" = Some VNone /\
  Samples.bare_event !! "device" = Some VNone /\
  Samples.bare_event !! "user_name" <> Some (VStr "unknown") /\
  Samples.bare_event !! "source_ip" <> Some (VStr "Unknown") /\
  Samples.bare_event !! "device" <> Some (VStr "Unknown").
Proof.
  repeat split; try (vm_compute; reflexivity); vm_compute; discriminate.
Qed.

Lemma standardize_event_fields_witness :
  (∅ : gmap string pyval) !! "country" = None /\
  standardize_event Lib.noon Lib.isoformat "LinuxAuthConnector" ∅ !! "country"
  = Some (VStr "Unknown").
Proof.
  assert (H : (∅ : gmap string pyval) !! "country" = None) by reflexivity.
  split; [exact H |].
  destruct (standardize_event_fields Lib.noon Lib.isoformat
              "LinuxAuthConnector" ∅) as (_ & _ & _ & _ & Hc & _).
  exact (Hc H).
Defined.

(** *** Tailing *)

Section Tail.

Variable fs : gmap string file.

Lemma idle_fetch_file m f :
  idle fs m f -> exists printed, fetch_file fs m f = ([], printed, m).
Proof.
  unfold fetch_file. intros [Hsize | [e He]].
  - rewrite Hsize. by eexists.
  - destruct (offset m f <? _get_file_size fs f); [| by eexists].
    rewrite He. by eexists.
Qed.

Lemma fetch_file_lookup_ne m g f :
  g <> f -> (fetch_file fs m g).2 !! f = m !! f.
Proof.
  intros Hne. unfold fetch_file.
  destruct (_ <? _); [| done].
  destruct (read_from _ _ _); [| done].
  simpl. by apply lookup_insert_ne.
Qed.

Lemma fetch_file_idle_self m f : idle fs (fetch_file fs m f).2 f.
Proof.
  unfold fetch_file.
  destruct (offset m f <? _get_file_size fs f) eqn:Hlt; simpl.
  - destruct (read_from fs f (offset m f)) eqn:Hread; simpl.
    + left. unfold offset. rewrite lookup_insert_eq. simpl. apply Z.ltb_irrefl.
    + right. by eexists.
  - by left.
Qed.

Lemma fetch_file_idle m g f : idle fs m f -> idle fs (fetch_file fs m g).2 f.
Proof.
  intros Hidle. destruct (decide (g = f)) as [-> | Hne].
  - apply fetch_file_idle_self.
  - unfold idle, offset in *. by rewrite fetch_file_lookup_ne.
Qed.

Lemma fetch_files_cons m f l :
  fetch_files fs m (f :: l) =
  ((fetch_file fs m f).1.1 ++ (fetch_files fs (fetch_file fs m f).2 l).1.1,
   (fetch_file fs m f).1.2 ++ (fetch_files fs (fetch_file fs m f).2 l).1.2,
   (fetch_files fs (fetch_file fs m f).2 l).2).
Proof.
  simpl. destruct (fetch_file fs m f) as [[y p] m1]. simpl.
  by destruct (fetch_files fs m1 l) as [[y' p'] m2].
Qed.

Lemma fetch_files_idle m l f : idle fs m f -> idle fs (fetch_files fs m l).2 f.
Proof.
  revert m. induction l as [| g t IH]; intros m H; [done |].
  rewrite fetch_files_cons. simpl. by apply IH, fetch_file_idle.
Qed.

(** After a pass over [l], every file of [l] is idle. *)
Lemma fetch_files_all_idle m l f : f ∈ l -> idle fs (fetch_files fs m l).2 f.
Proof.
  revert m. induction l as [| g t IH]; intros m Hin.
  - by apply not_elem_of_nil in Hin.
  - rewrite fetch_files_cons. simpl.
    apply elem_of_cons in Hin as [-> | Hin].
    + apply fetch_files_idle, fetch_file_idle_self.
    + by apply IH.
Qed.

(** A pass over idle files yields nothing and moves no offset. *)
Lemma fetch_files_idle_quiet m l :
  (forall f, f ∈ l -> idle fs m f) ->
  exists printed, fetch_files fs m l = ([], printed, m).
Proof.
  induction l as [| g t IH]; intros H; [by eexists |].
  destruct (idle_fetch_file m g) as [p Hg]; [apply H; set_solver |].
  destruct IH as [p' Ht]; [intros; apply H; set_solver |].
  rewrite fetch_files_cons, Hg. simpl. rewrite Ht. by eexists.
Qed.

(** A file at its full size stays there. *)
Lemma fetch_file_keeps_full m g f :
  m !! f = Some (_get_file_size fs f) ->
  (fetch_file fs m g).2 !! f = Some (_get_file_size fs f).
Proof.
  intros H. destruct (decide (g = f)) as [-> | Hne].
  - unfold fetch_file, offset. rewrite H. simpl. by rewrite Z.ltb_irrefl.
  - by rewrite fetch_file_lookup_ne.
Qed.

Lemma fetch_files_keeps_full m l f :
  m !! f = Some (_get_file_size fs f) ->
  (fetch_files fs m l).2 !! f = Some (_get_file_size fs f).
Proof.
  revert m. induction l as [| g t IH]; intros m H; [done |].
  rewrite fetch_files_cons. simpl. by apply IH, fetch_file_keeps_full.
Qed.

(** A readable file that has grown and whose unread bytes decode is read,
    and its offset becomes its size. *)
Lemma fetch_file_advances m f file :
  fs !! f = Some file ->
  readable file = true ->
  0 <= offset m f < _get_file_size fs f ->
  utf8_valid (unread file (offset m f)) = true ->
  (fetch_file fs m f).2 !! f = Some (_get_file_size fs f).
Proof.
  intros Hfile Hacc [Hpos Hlt] Hvalid. unfold fetch_file.
  rewrite (proj2 (Z.ltb_lt _ _) Hlt).
  unfold read_from. rewrite Hfile, Hacc. simpl.
  rewrite (proj2 (Z.ltb_ge _ _) Hpos).
  unfold utf8_valid in Hvalid.
  destruct (utf8_error 0 (unread file (offset m f))); [done |].
  apply lookup_insert_eq.
Qed.

Lemma fetch_files_advances m l f file :
  f ∈ l ->
  fs !! f = Some file ->
  readable file = true ->
  0 <= offset m f < _get_file_size fs f ->
  utf8_valid (unread file (offset m f)) = true ->
  (fetch_files fs m l).2 !! f = Some (_get_file_size fs f).
Proof.
  revert m. induction l as [| g t IH]; intros m Hin Hfile Hacc Hoff Hvalid.
  - by apply not_elem_of_nil in Hin.
  - rewrite fetch_files_cons. simpl.
    destruct (decide (g = f)) as [-> | Hne].
    + by eapply fetch_files_keeps_full, fetch_file_advances.
    + apply elem_of_cons in Hin as [-> | Hin]; [done |].
      assert (Hsame : offset (fetch_file fs m g).2 f = offset m f)
        by (unfold offset; by rewrite fetch_file_lookup_ne).
      apply IH; [done | done | done | by rewrite Hsame | by rewrite Hsame].
Qed.

(** A file shorter than its stored offset is left alone. *)
Lemma fetch_file_shrunk m g f :
  _get_file_size fs f < offset m f ->
  (fetch_file fs m g).2 !! f = m !! f.
Proof.
  intros Hlt. destruct (decide (g = f)) as [-> | Hne].
  - unfold fetch_file.
    by rewrite (proj2 (Z.ltb_ge _ _) (Z.lt_le_incl _ _ Hlt)).
  - by apply fetch_file_lookup_ne.
Qed.

Lemma fetch_files_shrunk m l f :
  _get_file_size fs f < offset m f ->
  (fetch_files fs m l).2 !! f = m !! f.
Proof.
  revert m. induction l as [| g t IH]; intros m Hlt; [done |].
  rewrite fetch_files_cons. simpl.
  rewrite IH; [by apply fetch_file_shrunk |].
  unfold offset. by rewrite fetch_file_shrunk.
Qed.

Lemma fetch_events_state st :
  (fetch_events fs st).2
  = mkTail (log_files st) (fetch_files fs (last_positions st) (log_files st)).2.
Proof.
  unfold fetch_events.
  by destruct (fetch_files fs (last_positions st) (log_files st)) as [[y p] m].
Qed.

(** C6. After a call of [fetch_events], a second call against the same
    files yields no record and leaves the state as it is; and a readable
    monitored file that had grown past its stored offset, and whose bytes
    from that offset on decode, has the offset advanced to its size by the
    call. *)
Theorem fetch_events_no_duplicates st :
  (exists printed,
     fetch_events fs (fetch_events fs st).2
     = ([], printed, (fetch_events fs st).2)) /\
  (forall f file,
     f ∈ log_files st ->
     fs !! f = Some file ->
     readable file = true ->
     0 <= offset (last_positions st) f < _get_file_size fs f ->
     utf8_valid (unread file (offset (last_positions st) f)) = true ->
     last_positions (fetch_events fs st).2 !! f = Some (_get_file_size fs f)).
Proof.
  rewrite fetch_events_state. split.
  - destruct (fetch_files_idle_quiet
                (fetch_files fs (last_positions st) (log_files st)).2
                (log_files st)) as [printed H].
    { intros f Hf. by apply fetch_files_all_idle. }
    exists printed. unfold fetch_events. simpl. by rewrite H.
  - intros f file Hf Hfile Hacc Hoff Hvalid. simpl.
    by eapply fetch_files_advances.
Qed.

(** C2, as the code has it. When a file is shorter than its stored
    offset, [fetch_events] reads nothing from it and leaves the stored
    offset where it was. *)
Theorem fetch_events_keeps_offset_of_shrunk_file st f :
  _get_file_size fs f < offset (last_positions st) f ->
  last_positions (fetch_events fs st).2 !! f = last_positions st !! f /\
  forall m, m !! f = last_positions st !! f ->
            fetch_file fs m f = ([], [], m).
Proof.
  intros Hlt. split.
  - rewrite fetch_events_state. simpl. by apply fetch_files_shrunk.
  - intros m Hm. unfold fetch_file. unfold offset in *. rewrite Hm.
    by rewrite (proj2 (Z.ltb_ge _ _) (Z.lt_le_incl _ _ Hlt)).
Qed.

End Tail.

(** *** Parsing *)

Section Parse.

Variable now : datetime.
Variable isoformat : datetime -> string.
Variable strptime : string -> string -> result datetime.

(** The handler of [parse_event] turns whatever the body raises into
    [None]. *)
Lemma try_catch_returns {A} (m : result A) (h : exn -> result A) :
  (forall e, returns (h e)) -> returns (try_catch m h).
Proof. intros H. destruct m as [a | e]; simpl; [by eexists | apply H]. Qed.

(** C5. A line that none of the three auth patterns is found in, and a
    line the access-log pattern does not match, make [parse_event] return
    [None] with nothing printed; and on every line whatsoever both
    [parse_event]s return rather than raise. *)
Theorem parse_event_unrecognized (raw_event : string) :
  (Regex.search 3 LinuxAuth.ssh_login_pattern raw_event = None ->
   Regex.search 3 LinuxAuth.ssh_failed_pattern raw_event = None ->
   Regex.search 3 LinuxAuth.sudo_pattern raw_event = None ->
   LinuxAuth.parse_event now isoformat strptime raw_event = Ok (None, [])) /\
  (Regex.rmatch 9 WebLog.log_pattern raw_event = None ->
   WebLog.parse_event now isoformat strptime raw_event = Ok (None, [])) /\
  returns (LinuxAuth.parse_event now isoformat strptime raw_event) /\
  returns (WebLog.parse_event now isoformat strptime raw_event).
Proof.
  split; [| split; [| split]].
  - intros H1 H2 H3. unfold LinuxAuth.parse_event, LinuxAuth.parse_body.
    by rewrite H1, H2, H3.
  - intros H. unfold WebLog.parse_event, WebLog.parse_body. by rewrite H.
  - apply try_catch_returns. intros e. by eexists.
  - apply try_catch_returns. intros e. by eexists.
Qed.

End Parse.


Lemma fetch_events_no_duplicates_witness :
  exists file,
    Samples.auth_log ∈ log_files Samples.fresh /\
    Samples.two_lines !! Samples.auth_log = Some file /\
    readable file = true /\
    0 <= offset (last_positions Samples.fresh) Samples.auth_log
      < _get_file_size Samples.two_lines Samples.auth_log /\
    utf8_valid (unread file
                  (offset (last_positions Samples.fresh) Samples.auth_log))
    = true /\
    last_positions (fetch_events Samples.two_lines Samples.fresh).2
      !! Samples.auth_log = Some 22.
Proof.
  exists (mkFile ("line one" +:+ newline +:+ "  line two  " +:+ newline) true).
  assert (Hin : Samples.auth_log ∈ log_files Samples.fresh)
    by (apply list_elem_of_In; simpl; tauto).
  assert (Hfile : Samples.two_lines !! Samples.auth_log
                  = Some (mkFile ("line one" +:+ newline +:+ "  line two  "
                                  +:+ newline) true))
    by (vm_compute; reflexivity).
  assert (Hoff : 0 <= offset (last_positions Samples.fresh) Samples.auth_log
                 < _get_file_size Samples.two_lines Samples.auth_log)
    by (vm_compute; split; [discriminate | reflexivity]).
  assert (Hvalid :
    utf8_valid (unread (mkFile ("line one" +:+ newline +:+ "  line two  "
                                +:+ newline) true)
                  (offset (last_positions Samples.fresh) Samples.auth_log))
    = true) by (vm_compute; reflexivity).
  split; [exact Hin |]. split; [exact Hfile |]. split; [reflexivity |].
  split; [exact Hoff |]. split; [exact Hvalid |].
  exact (proj2 (fetch_events_no_duplicates Samples.two_lines Samples.fresh)
           Samples.auth_log _ Hin Hfile eq_refl Hoff Hvalid).
Defined.

(** C2 as stated fails: the log is read to offset 22, then replaced by a
    one-byte file; the next call yields nothing, and the stored offset is
    still 22, not 0. *)
Lemma rotation_not_detected :
  fetch_events Samples.two_lines Samples.fresh
  = (["line one"; "line two"], [], Samples.caught_up) /\
  last_positions Samples.caught_up !! Samples.auth_log = Some 22 /\
  _get_file_size Samples.rotated Samples.auth_log = 1 /\
  fetch_events Samples.rotated Samples.caught_up = ([], [], Samples.caught_up) /\
  last_positions (fetch_events Samples.rotated Samples.caught_up).2
    !! Samples.auth_log <> Some 0.
Proof.
  repeat split; try (vm_compute; reflexivity). vm_compute. discriminate.
Qed.

Lemma fetch_events_keeps_offset_of_shrunk_file_witness :
  _get_file_size Samples.rotated Samples.auth_log
  < offset (last_positions Samples.caught_up) Samples.auth_log /\
  last_positions (fetch_events Samples.rotated Samples.caught_up).2
    !! Samples.auth_log
  = last_positions Samples.caught_up !! Samples.auth_log.
Proof.
  assert (H : _get_file_size Samples.rotated Samples.auth_log
              < offset (last_positions Samples.caught_up) Samples.auth_log)
    by (vm_compute; reflexivity).
  split; [exact H |].
  exact (proj1 (fetch_events_keeps_offset_of_shrunk_file Samples.rotated
                  Samples.caught_up Samples.auth_log H)).
Defined.


Lemma parse_event_unrecognized_witness :
  LinuxAuth.parse_event Lib.noon Lib.isoformat Lib.strptime "hello world"
  = Ok (None, []) /\
  WebLog.parse_event Lib.noon Lib.isoformat Lib.strptime "hello world"
  = Ok (None, []).
Proof.
  destruct (parse_event_unrecognized Lib.noon Lib.isoformat Lib.strptime
              "hello world") as (Hauth & Hweb & _).
  split.
  - apply Hauth; vm_compute; reflexivity.
  - apply Hweb; vm_compute; reflexivity.
Defined.


(** *** The connectors on sample lines *)

Example accepted_login_line :
  match LinuxAuth.parse_event Lib.noon Lib.isoformat Lib.strptime
          "Jan  5 10:00:00 myhost sshd[1234]: Accepted password for bob from 10.0.0.1 port 22 ssh2"
  with
  | Ok (Some ev, []) =>
      ev !! "event_type" = Some (VStr "login") /\
      ev !! "user_name" = Some (VStr "bob") /\
      ev !! "source_ip" = Some (VStr "10.0.0.1") /\
      ev !! "timestamp" = Some (VStr "2024-01-05T10:00:00") /\
      ev !! "success" = Some (VBool true) /\
      ev !! "country" = Some (VStr "Unknown") /\
      ev !! "user_id" = Some VNone
  | _ => False
  end.
Proof. vm_compute. repeat split. Qed.

(** The user name of a sudo line is the last word character before
    [COMMAND=], as the greedy pattern has it. *)
Example sudo_line :
  match LinuxAuth.parse_event Lib.noon Lib.isoformat Lib.strptime
          "Jan  5 10:00:00 myhost sudo:    alice : TTY=pts/0 ; USER=root ; COMMAND=/bin/ls -la"
  with
  | Ok (Some ev, []) =>
      ev !! "event_type" = Some (VStr "command") /\
      ev !! "action" = Some (VStr "sudo") /\
      ev !! "user_name" = Some (VStr "t")
  | _ => False
  end.
Proof. vm_compute. repeat split. Qed.

Example connect_keeps_existing_files :
  connect Samples.two_lines Samples.fresh
  = (true, mkTail [Samples.auth_log] {[ Samples.auth_log := 22 ]}).
Proof. vm_compute. reflexivity. Qed.

Example access_log_line :
  match WebLog.parse_event Lib.noon Lib.isoformat Lib.strptime
          Samples.access_line
  with
  | Ok (Some ev, []) =>
      ev !! "event_type" = Some (VStr "login") /\
      ev !! "user_name" = Some (VStr "john") /\
      ev !! "source_ip" = Some (VStr "10.1.2.3") /\
      ev !! "timestamp" = Some (VStr "2023-12-26T14:30:45+00:00") /\
      ev !! "success" = Some (VBool true) /\
      ev !! "device" = Some VNone
  | _ => False
  end.
Proof. vm_compute. repeat split. Qed.

End ConnectorProps.

(** ** More on scoring *)

Module DetectorFacts.

Import Detector DetectorProps.

Section Scoring.

Variable fromisoformat : string -> result datetime.
Variable to_datetime : string -> result datetime.
Variable str_other : pyval -> string.
Variable user_profiles : gmap Z profile.

#[local] Abbreviation detect :=
  (detect_rule_based_anomalies fromisoformat to_datetime str_other user_profiles).
#[local] Abbreviation analyze :=
  (analyze_event fromisoformat to_datetime str_other user_profiles).

(** Detection for a user with a profile, branch by branch. *)
Lemma detect_known ev p :
  lookup_profile user_profiles (dict_get ev "user_id") = Ok (Some p) ->
  detect ev =
  let acc :=
    if eq_str (dict_get ev "event_type") "login"
    then try_except (login_rules fromisoformat to_datetime str_other ev p)
           (fun e => "Error parsing timestamp: " +:+ exn_msg e) []
    else [] in
  if eq_str (dict_get ev "event_type") "file_access"
  then file_rules str_other ev acc
  else Ok acc.
Proof. intros H. unfold detect_rule_based_anomalies. by rewrite H. Qed.

Lemma analyze_of_detect now ev l :
  detect ev = Ok l ->
  analyze now ev
  = Ok (mkAnalysis ev l (overall_score (length l))
          (level_of (overall_score (length l)))
          (Qle_bool 0.4 (overall_score (length l))) now).
Proof. intros H. unfold analyze_event. by rewrite H. Qed.

Lemma analyze_of_detect_raise now ev e :
  detect ev = Raise e -> analyze now ev = Raise e.
Proof. intros H. unfold analyze_event. by rewrite H. Qed.

(** The level is decided by the number of anomalies alone: none is NORMAL,
    one is MEDIUM, two or more are HIGH. LOW is never returned, the score
    is 0, 0.4, 0.8 or 1, and one anomaly is enough to be suspicious. *)
Theorem alert_level_by_count now ev r :
  analyze_event fromisoformat to_datetime str_other user_profiles now ev
  = Ok r ->
  (alert_level r = NORMAL <-> anomalies r = []) /\
  (alert_level r = MEDIUM <-> length (anomalies r) = 1%nat) /\
  (alert_level r = HIGH <-> (2 <= length (anomalies r))%nat) /\
  alert_level r <> LOW /\
  (is_suspicious r = true <-> anomalies r <> []) /\
  ((overall_risk_score r == 0)%Q \/ (overall_risk_score r == 0.4)%Q \/
   (overall_risk_score r == 0.8)%Q \/ (overall_risk_score r == 1)%Q).
Proof.
  intros H.
  destruct (analyze_event_inv _ _ _ _ _ _ _ H) as (Hd & _ & Hs & Hl & Hb & _).
  pose proof (detect_at_most_four _ _ _ _ _ _ Hd) as Hn.
  rewrite Hl, Hb, Hs. clear H Hd Hs Hl Hb.
  destruct (anomalies r) as [| a1 [| a2 [| a3 [| a4 [| a5 l]]]]];
    simpl in Hn; [| | | | | lia]; vm_compute;
    repeat split; try done; try lia; intros; try lia; try done; auto.
Qed.

(** For a user with a profile: a login has at most four anomalies and is
    always analysed; a file access has at most three; an event of any
    other type is analysed and has none. *)
Theorem anomalies_by_event_type now ev p :
  lookup_profile user_profiles (dict_get ev "user_id") = Ok (Some p) ->
  (eq_str (dict_get ev "event_type") "login" = true ->
   exists r, analyze_event fromisoformat to_datetime str_other user_profiles
               now ev = Ok r /\ (length (anomalies r) <= 4)%nat) /\
  (eq_str (dict_get ev "event_type") "file_access" = true ->
   forall r, analyze_event fromisoformat to_datetime str_other user_profiles
               now ev = Ok r -> (length (anomalies r) <= 3)%nat) /\
  (eq_str (dict_get ev "event_type") "login" = false ->
   eq_str (dict_get ev "event_type") "file_access" = false ->
   exists r, analyze_event fromisoformat to_datetime str_other user_profiles
               now ev = Ok r /\ anomalies r = [] /\ alert_level r = NORMAL
             /\ is_suspicious r = false).
Proof.
  intros Hp. pose proof (detect_known ev p Hp) as Hd. simpl in Hd.
  split; [| split].
  - intros Hlogin. rewrite Hlogin in Hd.
    assert (Hfile : eq_str (dict_get ev "event_type") "file_access" = false).
    { destruct (dict_get ev "event_type") as [| | | | | s |]; try done.
      simpl in *. apply String.eqb_eq in Hlogin. by subst s. }
    rewrite Hfile in Hd.
    destruct (login_branch_run fromisoformat to_datetime str_other ev p [])
      as (l & Hl & Hlen). simpl in Hl. rewrite Hl in Hd.
    eexists. split; [by apply analyze_of_detect |]. done.
  - intros Hfile r Hr.
    destruct (analyze_event_inv _ _ _ _ _ _ _ Hr) as (Hdr & _).
    assert (Hlogin : eq_str (dict_get ev "event_type") "login" = false).
    { destruct (dict_get ev "event_type") as [| | | | | s |]; try done.
      simpl in *. apply String.eqb_eq in Hfile. by subst s. }
    rewrite Hlogin, Hfile, Hdr in Hd. symmetry in Hd.
    apply file_rules_run in Hd as (l' & -> & Hlen). done.
  - intros Hlogin Hfile. rewrite Hlogin, Hfile in Hd.
    eexists. split; [by apply analyze_of_detect |]. done.
Qed.

(** A file access of a user with a profile whose [file_size_mb] is
    [None], as normalization leaves it when the source gives no size,
    makes [analyze_event] raise [TypeError]: nothing catches the
    comparison of [None] with 100. *)
Theorem file_access_without_size_raises now ev p :
  lookup_profile user_profiles (dict_get ev "user_id") = Ok (Some p) ->
  ev !! "event_type" = Some (VStr "file_access") ->
  ev !! "file_size_mb" = Some VNone ->
  analyze_event fromisoformat to_datetime str_other user_profiles now ev
  = Raise (mkExn TypeError
      "'>' not supported between instances of 'NoneType' and 'int'").
Proof.
  intros Hp Hty Hsize. apply analyze_of_detect_raise.
  rewrite (detect_known ev p Hp). simpl.
  unfold dict_get. rewrite Hty. simpl.
  unfold file_rules, dict_get_default. rewrite Hsize. reflexivity.
Qed.

(** A login of a user with a profile whose time stamp is missing, or is
    rejected by the parser, has the parse error as its only anomaly: no
    rule is evaluated, and the event is MEDIUM and suspicious. *)
Theorem login_without_timestamp now ev p :
  lookup_profile user_profiles (dict_get ev "user_id") = Ok (Some p) ->
  ev !! "event_type" = Some (VStr "login") ->
  (ev !! "timestamp" = None ->
   exists r,
     analyze_event fromisoformat to_datetime str_other user_profiles now ev
     = Ok r /\
     anomalies r = ["Error parsing timestamp: 'timestamp'"] /\
     alert_level r = MEDIUM /\ is_suspicious r = true) /\
  (forall stamp e,
     ev !! "timestamp" = Some stamp ->
     parse_timestamp fromisoformat to_datetime (py_str str_other stamp)
     = Raise e ->
     exists r,
       analyze_event fromisoformat to_datetime str_other user_profiles now ev
       = Ok r /\
       anomalies r = ["Error parsing timestamp: " +:+ exn_msg e] /\
       alert_level r = MEDIUM /\ is_suspicious r = true).
Proof.
  intros Hp Hty. pose proof (detect_known ev p Hp) as Hd. simpl in Hd.
  unfold dict_get in Hd. rewrite Hty in Hd. simpl in Hd.
  unfold try_except, login_rules, getitem, mbind, body_bind, lift in Hd.
  split.
  - intros Hts. rewrite Hts in Hd.
    eexists. split; [by apply analyze_of_detect |]. done.
  - intros stamp e Hts Hparse. rewrite Hts, Hparse in Hd.
    eexists. split; [by apply analyze_of_detect |]. done.
Qed.

(** A login inside both hour windows, from a country outside the
    suspicious list, a known or trusted location and an address in
    192.168.1.*, has no anomaly at all. *)
Theorem quiet_login now ev p stamp t country location source_ip :
  lookup_profile user_profiles (dict_get ev "user_id") = Ok (Some p) ->
  ev !! "event_type" = Some (VStr "login") ->
  ev !! "timestamp" = Some stamp ->
  parse_timestamp fromisoformat to_datetime (py_str str_other stamp) = Ok t ->
  6 <= dt_hour t <= 22 ->
  hours_min (normal_login_hours p) - 1 <= dt_hour t
    <= hours_max (normal_login_hours p) + 1 ->
  ev !! "country" = Some (VStr country) ->
  country ∉ suspicious_countries ->
  ev !! "location" = Some (VStr location) ->
  location ∈ normal_locations p \/ location ∈ trusted_locations ->
  ev !! "source_ip" = Some (VStr source_ip) ->
  startswith source_ip "192.168.1." = true ->
  exists r,
    analyze_event fromisoformat to_datetime str_other user_profiles now ev
    = Ok r /\
    anomalies r = [] /\ (overall_risk_score r == 0)%Q /\
    alert_level r = NORMAL /\ is_suspicious r = false.
Proof.
  intros Hp Hty Hts Hparse H6 Hwin Hc Hcs Hl Hls Hip Hprefix.
  pose proof (detect_known ev p Hp) as Hd. simpl in Hd.
  unfold dict_get in Hd. rewrite Hty in Hd. simpl in Hd.
  unfold try_except, login_rules, getitem, mbind, body_bind, lift in Hd.
  rewrite Hts, Hparse in Hd.
  unfold time_rule in Hd.
  rewrite (proj2 (Z.ltb_ge _ _) (proj1 H6)),
          (proj2 (Z.ltb_ge _ _) (proj2 H6)),
          (proj2 (Z.ltb_ge _ _) (proj1 Hwin)),
          (proj2 (Z.ltb_ge _ _) (proj2 Hwin)) in Hd.
  unfold country_rule, location_rule, ip_rule, dict_get_default,
    mbind, body_bind, lift in Hd.
  rewrite Hc, Hl, Hip in Hd. simpl in Hd.
  rewrite (bool_decide_eq_false_2 _ Hcs) in Hd.
  assert (Hquiet :
    negb (bool_decide (location ∈ normal_locations p))
    && negb (bool_decide (location ∈ trusted_locations)) = false).
  { destruct Hls as [H | H]; rewrite (bool_decide_eq_true_2 _ H); simpl;
      [done | by rewrite andb_false_r]. }
  rewrite Hquiet in Hd. unfold startswith in Hprefix.
  unfold startswith in Hd. rewrite Hprefix in Hd. simpl in Hd.
  eexists. split; [by apply analyze_of_detect |]. done.
Qed.

Lemma gt_int_weaken v :
  gt_int v 100 = Ok true -> gt_int v 50 = Ok true.
Proof.
  destruct v as [| [] | z | q | | |]; simpl; try done.
  - intros [= H]. f_equal. apply Z.ltb_lt in H. apply Z.ltb_lt. lia.
  - intros [= H]. f_equal. apply negb_true_iff, Qle_bool_false in H.
    apply negb_true_iff, Qle_bool_false.
    eapply Qle_lt_trans; [| exact H]. done.
Qed.

(** A download of more than 100 MB by a user with a profile is reported
    both as a large file and as a download, which makes it HIGH whatever
    the file is called. *)
Theorem large_download_is_high now ev p name :
  lookup_profile user_profiles (dict_get ev "user_id") = Ok (Some p) ->
  ev !! "event_type" = Some (VStr "file_access") ->
  gt_int (dict_get_default ev "file_size_mb" (VInt 0)) 100 = Ok true ->
  ev !! "action" = Some (VStr "download") ->
  dict_get_default ev "file_name" (VStr "") = VStr name ->
  exists r rest,
    analyze_event fromisoformat to_datetime str_other user_profiles now ev
    = Ok r /\
    anomalies r =
      ["Large file access: "
       +:+ py_str str_other (dict_get_default ev "file_size_mb" (VInt 0))
       +:+ "MB";
       "File download: "
       +:+ py_str str_other (dict_get_default ev "file_size_mb" (VInt 0))
       +:+ "MB"] ++ rest /\
    (length rest <= 1)%nat /\
    alert_level r = HIGH /\ is_suspicious r = true.
Proof.
  intros Hp Hty Hsize Hact Hname.
  pose proof (detect_known ev p Hp) as Hd. simpl in Hd.
  unfold dict_get in Hd. rewrite Hty in Hd. simpl in Hd.
  unfold file_rules, mbind, result_bind in Hd.
  rewrite Hsize in Hd. unfold dict_get in Hd. rewrite Hact in Hd.
  simpl in Hd. rewrite (gt_int_weaken _ Hsize), Hname in Hd. simpl in Hd.
  match type of Hd with
  | context [if ?sensitive then _ else _] => destruct sensitive
  end.
  - eexists _, [_]. split; [by apply analyze_of_detect |].
    split; [reflexivity |]. split; [simpl; lia |]. split; reflexivity.
  - eexists _, []. split; [by apply analyze_of_detect |].
    split; [reflexivity |]. split; [simpl; lia |]. split; reflexivity.
Qed.

End Scoring.


Section Pipeline.

Variable fromisoformat : string -> result datetime.
Variable to_datetime : string -> result datetime.
Variable str_other : pyval -> string.
Variable now : datetime.
Variable isoformat : datetime -> string.
Variable strptime : string -> string -> result datetime.

(** What the two log connectors emit never carries a [user_id]. *)
Lemma standardized_without_user_id class_name (d : gmap string pyval) :
  d !! "user_id" = None ->
  Connector.standardize_event now isoformat class_name d !! "user_id"
  = Some VNone.
Proof.
  intros H.
  destruct (ConnectorProps.standardize_event_lookup now isoformat class_name d)
    as (_ & -> & _).
  unfold dict_get. by rewrite H.
Qed.

Lemma linux_event_user_id raw_event ev :
  LinuxAuth.parse_body now isoformat strptime raw_event = Ok (Some ev) ->
  ev !! "user_id" = Some VNone.
Proof.
  unfold LinuxAuth.parse_body, LinuxAuth.ssh_event, LinuxAuth.sudo_event,
    mbind, result_bind.
  repeat case_match; try done;
    intros [= <-]; by apply standardized_without_user_id.
Qed.

Lemma web_event_user_id raw_event ev :
  WebLog.parse_body now isoformat strptime raw_event = Ok (Some ev) ->
  ev !! "user_id" = Some VNone.
Proof.
  unfold WebLog.parse_body, mbind, result_bind.
  repeat case_match; try done;
    intros [= <-]; by apply standardized_without_user_id.
Qed.

(** Every event that [LinuxAuthConnector] or [WebLogConnector] emits is
    scored as an unknown user, whatever the profile table: the connectors
    set no [user_id], and [None] is never a key of the table. *)
Theorem connector_events_are_unknown_users raw_event ev printed
    (user_profiles : gmap Z profile) :
  LinuxAuth.parse_event now isoformat strptime raw_event = Ok (Some ev, printed)
  \/ WebLog.parse_event now isoformat strptime raw_event = Ok (Some ev, printed) ->
  detect_rule_based_anomalies fromisoformat to_datetime str_other
    user_profiles ev = Ok ["Unknown user"].
Proof.
  intros H.
  assert (Hid : ev !! "user_id" = Some VNone).
  { destruct H as [H | H].
    - unfold LinuxAuth.parse_event, try_catch, mbind, result_bind in H.
      destruct (LinuxAuth.parse_body now isoformat strptime raw_event)
        as [[ev' |] |] eqn:Hb; try done.
      injection H as <- <-. by eapply linux_event_user_id.
    - unfold WebLog.parse_event, try_catch, mbind, result_bind in H.
      destruct (WebLog.parse_body now isoformat strptime raw_event)
        as [[ev' |] |] eqn:Hb; try done.
      injection H as <- <-. by eapply web_event_user_id. }
  unfold detect_rule_based_anomalies, lookup_profile, dict_get.
  by rewrite Hid.
Qed.

Lemma analyze_all_results (user_profiles : gmap Z profile)
    (clock : nat -> string) (events : list (gmap string pyval)) k results :
  Batch.analyze_all fromisoformat to_datetime str_other user_profiles
    clock k events = Ok results ->
  length results = length events /\
  forall i ev,
    events !! i = Some ev ->
    exists r,
      results !! i = Some r /\
      analyze_event fromisoformat to_datetime str_other user_profiles
        (clock (k + i)%nat) ev = Ok r.
Proof.
  revert k results. induction events as [| ev0 rest IH]; simpl; intros k results.
  - intros [= <-]. split; [done |]. intros i ev Hi. done.
  - unfold mbind, result_bind.
    destruct (analyze_event _ _ _ _ (clock k) ev0) as [r0 |] eqn:H0; [| done].
    destruct (Batch.analyze_all _ _ _ _ clock (S k) rest) as [rs |] eqn:Hrs;
      [| done].
    intros [= <-]. destruct (IH _ _ Hrs) as [Hlen Hnth].
    split; [simpl; by rewrite Hlen |].
    intros [| i] ev Hi; simpl in *.
    + injection Hi as <-. exists r0. by rewrite Nat.add_0_r.
    + destruct (Hnth i ev Hi) as (r & Hr & Ha). exists r. split; [done |].
      by rewrite Nat.add_succ_r.
Qed.

Lemma analyze_all_raises (user_profiles : gmap Z profile)
    (clock : nat -> string) (events : list (gmap string pyval)) k ev e :
  ev ∈ events ->
  detect_rule_based_anomalies fromisoformat to_datetime str_other
    user_profiles ev = Raise e ->
  exists e',
    Batch.analyze_all fromisoformat to_datetime str_other user_profiles
      clock k events = Raise e'.
Proof.
  revert k. induction events as [| ev0 rest IH]; intros k Hin Hd.
  - by apply not_elem_of_nil in Hin.
  - simpl. unfold mbind, result_bind.
    destruct (analyze_event _ _ _ _ (clock k) ev0) as [r0 |] eqn:H0;
      [| by eexists].
    apply elem_of_cons in Hin as [-> | Hin].
    + by rewrite (analyze_of_detect_raise _ _ _ _ _ _ _ Hd) in H0.
    + destruct (IH (S k) Hin Hd) as [e' ->]. by eexists.
Qed.

(** [batch_analyze] returns one result per event, in order, each built
    from that event at its own clock reading; and one event on which rule
    detection raises makes the whole batch raise. *)
Theorem batch_analyze_all_or_nothing (user_profiles : gmap Z profile)
    (clock : nat -> string) (events : list (gmap string pyval)) :
  (forall results,
     (Batch.batch_analyze fromisoformat to_datetime str_other user_profiles
        clock events).2 = Ok results ->
     length results = length events /\
     forall i ev,
       events !! i = Some ev ->
       exists r,
         results !! i = Some r /\
         analyze_event fromisoformat to_datetime str_other user_profiles
           (clock i) ev = Ok r) /\
  (forall ev e,
     ev ∈ events ->
     detect_rule_based_anomalies fromisoformat to_datetime str_other
       user_profiles ev = Raise e ->
     exists e',
       (Batch.batch_analyze fromisoformat to_datetime str_other user_profiles
          clock events).2 = Raise e').
Proof.
  unfold Batch.batch_analyze. split.
  - intros results.
    destruct (Batch.analyze_all _ _ _ _ clock 0 events) as [rs |] eqn:Hrs;
      simpl; [| done].
    intros [= <-]. by apply (analyze_all_results _ _ _ 0%nat).
  - intros ev e Hin Hd.
    destruct (analyze_all_raises user_profiles clock events 0%nat ev e Hin Hd)
      as [e' ->].
    by eexists.
Qed.

(** After training, an event of a user who has no row in the training
    batch is scored as an unknown user. *)
Theorem untrained_user_is_unknown df user_profiles ev uid :
  (Batch.train to_datetime df).2 = Ok user_profiles ->
  uid ∉ row_user_id <$> rows df ->
  dict_get ev "user_id" = VInt uid ->
  detect_rule_based_anomalies fromisoformat to_datetime str_other
    user_profiles ev = Ok ["Unknown user"].
Proof.
  intros Htrain Huid Hid. unfold Batch.train in Htrain.
  destruct (create_user_profiles to_datetime df) as [profiles |] eqn:Hc;
    simpl in Htrain; [| done].
  injection Htrain as ->.
  unfold create_user_profiles, mbind, result_bind in Hc.
  destruct (column df "user_id"); [| done].
  destruct (TrainingProps.foldM_profiles _ _ _ _ _ Hc uid) as [_ Hout].
  unfold detect_rule_based_anomalies, lookup_profile. rewrite Hid. simpl.
  rewrite Hout; [done |].
  intros Hin. by apply Huid, (proj1 (TrainingProps.unique_elem _ _)).
Qed.

End Pipeline.


(** *** On the sample events *)

#[local] Abbreviation sample_detect :=
  (detect_rule_based_anomalies Lib.fromisoformat Lib.to_datetime Lib.str_other
     Samples.profiles).
#[local] Abbreviation sample_analyze :=
  (analyze_event Lib.fromisoformat Lib.to_datetime Lib.str_other
     Samples.profiles).

Lemma alert_level_by_count_witness :
  sample_analyze "2024-01-15T12:00:00" Samples.night_login
  = Ok (Samples.night_login_analysis "2024-01-15T12:00:00") /\
  alert_level (Samples.night_login_analysis "2024-01-15T12:00:00") <> LOW.
Proof.
  assert (H : sample_analyze "2024-01-15T12:00:00" Samples.night_login
              = Ok (Samples.night_login_analysis "2024-01-15T12:00:00"))
    by (vm_compute; reflexivity).
  split; [exact H |].
  exact (proj1 (proj2 (proj2 (proj2
    (alert_level_by_count Lib.fromisoformat Lib.to_datetime Lib.str_other
       Samples.profiles _ _ _ H))))).
Defined.

Lemma anomalies_by_event_type_witness :
  lookup_profile Samples.profiles (dict_get Samples.logout_event "user_id")
  = Ok (Some Samples.alice) /\
  exists r, sample_analyze "2024-01-15T12:00:00" Samples.logout_event = Ok r
            /\ anomalies r = [] /\ alert_level r = NORMAL
            /\ is_suspicious r = false.
Proof.
  assert (H : lookup_profile Samples.profiles
                (dict_get Samples.logout_event "user_id")
              = Ok (Some Samples.alice)) by (vm_compute; reflexivity).
  split; [exact H |].
  apply (proj2 (proj2 (anomalies_by_event_type Lib.fromisoformat
    Lib.to_datetime Lib.str_other Samples.profiles "2024-01-15T12:00:00"
    Samples.logout_event Samples.alice H))); vm_compute; reflexivity.
Defined.

Lemma file_access_without_size_raises_witness :
  sample_analyze "2024-01-15T12:00:00" Samples.sizeless_access
  = Raise (mkExn TypeError
      "'>' not supported between instances of 'NoneType' and 'int'").
Proof.
  apply (file_access_without_size_raises Lib.fromisoformat Lib.to_datetime
           Lib.str_other Samples.profiles "2024-01-15T12:00:00"
           Samples.sizeless_access Samples.alice);
    vm_compute; reflexivity.
Defined.

Lemma login_without_timestamp_witness :
  Samples.unstamped_login !! "timestamp" = None /\
  exists r,
    sample_analyze "2024-01-15T12:00:00" Samples.unstamped_login = Ok r /\
    anomalies r = ["Error parsing timestamp: 'timestamp'"] /\
    alert_level r = MEDIUM /\ is_suspicious r = true.
Proof.
  assert (H : Samples.unstamped_login !! "timestamp" = None)
    by (vm_compute; reflexivity).
  split; [exact H |].
  refine (proj1 (login_without_timestamp Lib.fromisoformat Lib.to_datetime
            Lib.str_other Samples.profiles "2024-01-15T12:00:00"
            Samples.unstamped_login Samples.alice _ _) H);
    vm_compute; reflexivity.
Defined.

Lemma quiet_login_witness :
  exists r,
    sample_analyze "2024-01-15T12:00:00" Samples.office_login = Ok r /\
    anomalies r = [] /\ (overall_risk_score r == 0)%Q /\
    alert_level r = NORMAL /\ is_suspicious r = false.
Proof.
  refine (quiet_login Lib.fromisoformat Lib.to_datetime Lib.str_other
            Samples.profiles "2024-01-15T12:00:00" Samples.office_login
            Samples.alice (VStr "2024-01-15T10:05:00")
            (mkDatetime 2024 1 15 10 5 0 None)
            "United States" "New York" "192.168.1.23"
            _ _ _ _ _ _ _ _ _ _ _ _);
    try (vm_compute; reflexivity).
  - vm_compute. split; discriminate.
  - vm_compute. split; discriminate.
  - unfold suspicious_countries. rewrite !not_elem_of_cons.
    repeat split; try discriminate. apply not_elem_of_nil.
  - left. apply list_elem_of_In. simpl. tauto.
Defined.

Lemma large_download_is_high_witness :
  exists r rest,
    sample_analyze "2024-01-15T12:00:00" Samples.big_download = Ok r /\
    anomalies r
    = ["Large file access: 500MB"; "File download: 500MB"] ++ rest /\
    (length rest <= 1)%nat /\
    alert_level r = HIGH /\ is_suspicious r = true.
Proof.
  refine (large_download_is_high Lib.fromisoformat Lib.to_datetime
            Lib.str_other Samples.profiles "2024-01-15T12:00:00"
            Samples.big_download Samples.alice "backup.sql" _ _ _ _ _);
    vm_compute; reflexivity.
Defined.


Lemma connector_events_are_unknown_users_witness :
  LinuxAuth.parse_event Lib.noon Lib.isoformat Lib.strptime Samples.ssh_line
  = Ok (Some Samples.ssh_event, []) /\
  sample_detect Samples.ssh_event = Ok ["Unknown user"].
Proof.
  assert (H : LinuxAuth.parse_event Lib.noon Lib.isoformat Lib.strptime
                Samples.ssh_line = Ok (Some Samples.ssh_event, []))
    by (vm_compute; reflexivity).
  split; [exact H |].
  exact (connector_events_are_unknown_users Lib.fromisoformat Lib.to_datetime
           Lib.str_other Lib.noon Lib.isoformat Lib.strptime Samples.ssh_line
           Samples.ssh_event [] Samples.profiles (or_introl H)).
Defined.

Lemma batch_analyze_all_or_nothing_witness :
  (Batch.batch_analyze Lib.fromisoformat Lib.to_datetime Lib.str_other
     Samples.profiles Samples.tick [Samples.night_login; Samples.night_login]).2
  = Ok [Samples.night_login_analysis (Samples.tick 0);
        Samples.night_login_analysis (Samples.tick 1)] /\
  length [Samples.night_login_analysis (Samples.tick 0);
          Samples.night_login_analysis (Samples.tick 1)]
  = length [Samples.night_login; Samples.night_login] /\
  exists e',
    (Batch.batch_analyze Lib.fromisoformat Lib.to_datetime Lib.str_other
       Samples.profiles Samples.tick
       [Samples.night_login; Samples.sizeless_access]).2 = Raise e'.
Proof.
  split; [vm_compute; reflexivity |]. split.
  - apply (proj1 (batch_analyze_all_or_nothing Lib.fromisoformat
      Lib.to_datetime Lib.str_other Samples.profiles Samples.tick
      [Samples.night_login; Samples.night_login])).
    vm_compute. reflexivity.
  - apply (proj2 (batch_analyze_all_or_nothing Lib.fromisoformat
      Lib.to_datetime Lib.str_other Samples.profiles Samples.tick
      [Samples.night_login; Samples.sizeless_access])
      Samples.sizeless_access
      (mkExn TypeError
         "'>' not supported between instances of 'NoneType' and 'int'")).
    + apply list_elem_of_In. simpl. tauto.
    + vm_compute. reflexivity.
Defined.

Lemma untrained_user_is_unknown_witness :
  exists user_profiles,
    (Batch.train Lib.to_datetime Samples.logout_batch).2 = Ok user_profiles /\
    (2 ∉ row_user_id <$> rows Samples.logout_batch) /\
    detect_rule_based_anomalies Lib.fromisoformat Lib.to_datetime
      Lib.str_other user_profiles Samples.stranger_login
    = Ok ["Unknown user"].
Proof.
  eexists. split; [vm_compute; reflexivity |].
  assert (H : 2 ∉ row_user_id <$> rows Samples.logout_batch).
  { simpl. rewrite list_elem_of_singleton. discriminate. }
  split; [exact H |].
  eapply (untrained_user_is_unknown Lib.fromisoformat Lib.to_datetime
            Lib.str_other Samples.logout_batch _ Samples.stranger_login 2).
  - vm_compute. reflexivity.
  - exact H.
  - vm_compute. reflexivity.
Defined.

End DetectorFacts.

(** ** More on profile construction *)

Module TrainingFacts.

Import Detector TrainingProps.

Lemma unique_NoDup `{EqDecision A} (l : list A) : NoDup (unique l).
Proof.
  induction l as [| x t IH]; simpl; [constructor |].
  constructor.
  - intros [Hne _]%list_elem_of_filter. by apply Hne.
  - by apply NoDup_filter.
Qed.

Lemma zmin_list_le (l : list Z) (x y : Z) : y ∈ x :: l -> zmin_list x l <= y.
Proof.
  unfold zmin_list. revert x y. induction l as [| a l IH]; intros x y Hy; simpl.
  - apply list_elem_of_singleton in Hy. lia.
  - pose proof (IH (Z.min x a) (Z.min x a) ltac:(left)) as Hself.
    apply elem_of_cons in Hy as [Hy | Hy]; [lia |].
    apply elem_of_cons in Hy as [Hy | Hy]; [lia |].
    apply IH. by right.
Qed.

Lemma zmax_list_ge (l : list Z) (x y : Z) : y ∈ x :: l -> y <= zmax_list x l.
Proof.
  unfold zmax_list. revert x y. induction l as [| a l IH]; intros x y Hy; simpl.
  - apply list_elem_of_singleton in Hy. lia.
  - pose proof (IH (Z.max x a) (Z.max x a) ltac:(left)) as Hself.
    apply elem_of_cons in Hy as [Hy | Hy]; [lia |].
    apply elem_of_cons in Hy as [Hy | Hy]; [lia |].
    apply IH. by right.
Qed.

(** A parsed column pairs each row with its own parse. *)
Lemma mapM_zip {A B C} (f : A -> result B) (g : B -> C) (l : list A) ys x y :
  mapM f l = Ok ys -> x ∈ l -> f x = Ok y -> (x, g y) ∈ zip l (g <$> ys).
Proof.
  revert ys. induction l as [| a t IH]; simpl; intros ys Hm Hx Hy.
  - by apply not_elem_of_nil in Hx.
  - unfold mbind, result_bind in Hm.
    destruct (f a) as [b |] eqn:Ha; [| done].
    destruct (mapM f t) as [bs |] eqn:Ht; [| done].
    injection Hm as <-. simpl.
    apply elem_of_cons in Hx as [-> | Hx].
    + rewrite Hy in Ha. injection Ha as <-. by left.
    + right. by apply IH.
Qed.

Lemma mapM_raises {A B} (f : A -> result B) (l : list A) x e :
  x ∈ l -> f x = Raise e -> exists e', mapM f l = Raise e'.
Proof.
  induction l as [| a t IH]; simpl; intros Hx He.
  - by apply not_elem_of_nil in Hx.
  - unfold mbind, result_bind.
    destruct (f a) as [b |] eqn:Ha; [| by eexists].
    apply elem_of_cons in Hx as [-> | Hx]; [congruence |].
    destruct (IH Hx He) as [e' ->]. by eexists.
Qed.

Section Training.

Variable to_datetime : string -> result datetime.

#[local] Abbreviation build := (build_profile to_datetime).

(** An entry of the table is what the iteration for its key built. *)
Lemma create_lookup df profiles uid p :
  create_user_profiles to_datetime df = Ok profiles ->
  profiles !! uid = Some p ->
  build df uid = Ok p /\ uid ∈ row_user_id <$> rows df.
Proof.
  intros Hc Hp. unfold create_user_profiles, mbind, result_bind in Hc.
  destruct (column df "user_id"); [| done].
  destruct (foldM_profiles _ _ _ _ _ Hc uid) as [Hin Hout].
  destruct (decide (uid ∈ unique (row_user_id <$> rows df))) as [Hu | Hu].
  - destruct (Hin Hu) as (p' & Hb & Hp'). rewrite Hp in Hp'.
    injection Hp' as <-. split; [done |]. by apply (proj1 (unique_elem _ _)).
  - rewrite (Hout Hu), lookup_empty in Hp. done.
Qed.

Lemma build_profile_hours df uid p r t :
  build df uid = Ok p ->
  r ∈ user_rows df uid ->
  is_login r = true ->
  to_datetime (row_timestamp r) = Ok t ->
  hours_min (normal_login_hours p) <= dt_hour t
    <= hours_max (normal_login_hours p).
Proof.
  unfold build_profile, mbind, result_bind.
  destruct (column df "timestamp"); [| done].
  destruct (mapM _ _) as [stamps |] eqn:Hm; [| done].
  destruct (column df "event_type"); [| done].
  destruct (if bool_decide _ then _ else _) as [shown |]; [| done].
  intros [= <-] Hr Hlogin Ht. simpl.
  assert (Hin : dt_hour t ∈
    (snd <$> filter (fun rh : row * Z => is_login (fst rh))
               (zip (user_rows df uid) (dt_hour <$> stamps)))).
  { apply (list_elem_of_fmap_2' snd _ (r, dt_hour t)); [| done].
    apply list_elem_of_filter. split; [simpl; by rewrite Hlogin |].
    by eapply (mapM_zip (fun r => to_datetime (row_timestamp r))). }
  destruct (snd <$> filter _ _) as [| h hs]; [by apply not_elem_of_nil in Hin |].
  simpl. split; [by apply zmin_list_le | by apply zmax_list_ge].
Qed.

(** The login window of a profile contains the hour of every login the
    user has in the training batch, and its bounds are in order. *)
Theorem profile_covers_login_hours df profiles uid p :
  create_user_profiles to_datetime df = Ok profiles ->
  profiles !! uid = Some p ->
  user_id p = uid /\
  hours_min (normal_login_hours p) <= hours_max (normal_login_hours p) /\
  forall r t,
    r ∈ rows df -> row_user_id r = uid -> is_login r = true ->
    to_datetime (row_timestamp r) = Ok t ->
    hours_min (normal_login_hours p) <= dt_hour t
      <= hours_max (normal_login_hours p).
Proof.
  intros Hc Hp. destruct (create_lookup _ _ _ _ Hc Hp) as [Hb Huid].
  assert (Hrows : forall r t,
    r ∈ rows df -> row_user_id r = uid -> is_login r = true ->
    to_datetime (row_timestamp r) = Ok t ->
    hours_min (normal_login_hours p) <= dt_hour t
      <= hours_max (normal_login_hours p)).
  { intros r t Hr Hu Hl Ht. eapply build_profile_hours; try done.
    by apply list_elem_of_filter. }
  split; [by destruct (build_profile_defaults _ _ _ _ Hb) as [? _] |].
  split; [| done].
  destruct (existsb is_login (user_rows df uid)) eqn:Hex.
  - apply existsb_exists in Hex as (r & Hr & Hl).
    apply list_elem_of_In, list_elem_of_filter in Hr as [Hu Hr].
    assert (Hparse : exists t, to_datetime (row_timestamp r) = Ok t).
    { revert Hb. unfold build_profile, mbind, result_bind.
      destruct (column df "timestamp"); [| done].
      destruct (mapM _ _) as [stamps |] eqn:Hm; [| done]. intros _.
      destruct (to_datetime (row_timestamp r)) as [t | e] eqn:Ht;
        [by eexists |].
      destruct (mapM_raises (fun r => to_datetime (row_timestamp r))
                  (user_rows df uid) r e) as [e' He']; [| done |].
      - by apply list_elem_of_filter.
      - by rewrite Hm in He'. }
    destruct Hparse as [t Ht]. pose proof (Hrows r t Hr Hu Hl Ht). lia.
  - destruct (build_profile_defaults _ _ _ _ Hb) as (_ & Hdef & _).
    rewrite Hdef; [simpl; lia |].
    intros r Hr. destruct (is_login r) eqn:Hl; [| done].
    assert (existsb is_login (user_rows df uid) = true) as Hyes.
    { apply existsb_exists. exists r. split; [by apply list_elem_of_In | done]. }
    congruence.
Qed.

Lemma build_profile_places df uid p :
  build df uid = Ok p ->
  normal_countries p =
    (if bool_decide ("country" ∈ columns df)
     then unique (row_country <$> user_rows df uid) else ["United States"]) /\
  normal_locations p =
    (if bool_decide ("location" ∈ columns df)
     then unique (row_location <$> user_rows df uid) else ["Unknown"]).
Proof.
  unfold build_profile, mbind, result_bind.
  destruct (column df "timestamp"); [| done].
  destruct (mapM _ _) as [stamps |]; [| done].
  destruct (column df "event_type"); [| done].
  destruct (if bool_decide _ then _ else _) as [shown |]; [| done].
  by intros [= <-].
Qed.

(** The countries and locations of a profile are those of the user's rows
    in the batch, each listed once; without the column they are the fixed
    defaults. An event from a location the user has in the batch never gets
    the unusual-location anomaly. *)
Theorem profile_places df profiles uid p (str_other : pyval -> string) :
  create_user_profiles to_datetime df = Ok profiles ->
  profiles !! uid = Some p ->
  NoDup (normal_countries p) /\ NoDup (normal_locations p) /\
  ("country" ∈ columns df ->
   forall c, c ∈ normal_countries p <->
             exists r, r ∈ rows df /\ row_user_id r = uid /\ row_country r = c) /\
  ("location" ∈ columns df ->
   forall l, l ∈ normal_locations p <->
             exists r, r ∈ rows df /\ row_user_id r = uid /\ row_location r = l) /\
  ("country" ∉ columns df -> normal_countries p = ["United States"]) /\
  ("location" ∉ columns df -> normal_locations p = ["Unknown"]) /\
  ("location" ∈ columns df ->
   forall r ev acc,
     r ∈ rows df -> row_user_id r = uid ->
     ev !! "location" = Some (VStr (row_location r)) ->
     location_rule str_other ev p acc = (acc, Ok tt)).
Proof.
  intros Hc Hp. destruct (create_lookup _ _ _ _ Hc Hp) as [Hb _].
  destruct (build_profile_places _ _ _ Hb) as [Hcs Hls].
  assert (Hmem : forall (f : row -> string) x,
    x ∈ unique (f <$> user_rows df uid) <->
    exists r, r ∈ rows df /\ row_user_id r = uid /\ f r = x).
  { intros f x. rewrite unique_elem, list_elem_of_fmap. split.
    - intros (r & -> & [Hu Hr]%list_elem_of_filter). by exists r.
    - intros (r & Hr & Hu & <-). exists r. split; [done |].
      by apply list_elem_of_filter. }
  assert (Hlmem : "location" ∈ columns df ->
    forall l, l ∈ normal_locations p <->
      exists r, r ∈ rows df /\ row_user_id r = uid /\ row_location r = l).
  { intros Hcol l. rewrite Hls, bool_decide_eq_true_2 by done. apply Hmem. }
  split.
  { rewrite Hcs. destruct (bool_decide ("country" ∈ columns df));
      [apply unique_NoDup | apply NoDup_singleton]. }
  split.
  { rewrite Hls. destruct (bool_decide ("location" ∈ columns df));
      [apply unique_NoDup | apply NoDup_singleton]. }
  split.
  { intros Hcol c. rewrite Hcs, bool_decide_eq_true_2 by done. apply Hmem. }
  split; [exact Hlmem |].
  split.
  { intros Hcol. by rewrite Hcs, bool_decide_eq_false_2. }
  split.
  { intros Hcol. by rewrite Hls, bool_decide_eq_false_2. }
  intros Hcol r ev acc Hr Hu Hloc.
  unfold location_rule, dict_get_default. rewrite Hloc. simpl.
  rewrite bool_decide_eq_true_2; [done |].
  apply Hlmem; [done |]. by exists r.
Qed.

(** Training fails as a whole: without a [user_id] column [train] raises
    [KeyError], and one row whose time stamp the parser rejects makes it
    raise too; in both cases only the first two lines are printed and no
    table is produced. *)
Theorem train_raises df :
  ("user_id" ∉ columns df ->
   Batch.train to_datetime df
   = (["🧠 Training anomaly detection model...";
       "📊 Loaded " +:+ pretty (length (rows df)) +:+ " events"],
      Raise (mkExn KeyError "'user_id'"))) /\
  (forall r e,
     r ∈ rows df -> to_datetime (row_timestamp r) = Raise e ->
     "user_id" ∈ columns df -> "timestamp" ∈ columns df ->
     exists e',
       Batch.train to_datetime df
       = (["🧠 Training anomaly detection model...";
           "📊 Loaded " +:+ pretty (length (rows df)) +:+ " events"],
          Raise e')).
Proof.
  split.
  - intros Hcol. unfold Batch.train, create_user_profiles, column.
    by rewrite bool_decide_eq_false_2.
  - intros r e Hr He Hid Hts.
    assert (Hbuild : exists e', build df (row_user_id r) = Raise e').
    { unfold build_profile, mbind, result_bind, column.
      rewrite bool_decide_eq_true_2 by done.
      destruct (mapM_raises (fun r => to_datetime (row_timestamp r))
                  (user_rows df (row_user_id r)) r e) as [e' ->];
        [by apply list_elem_of_filter | done |]. by eexists. }
    destruct Hbuild as [e1 Hbuild].
    assert (Hfold : forall (l : list Z) (m : gmap Z profile),
      row_user_id r ∈ l ->
      exists e',
        foldM (fun (profiles : gmap Z profile) uid =>
                 p ← build df uid; Ok (<[uid := p]> profiles)) m l = Raise e').
    { induction l as [| x t IH]; intros m Hin.
      - by apply not_elem_of_nil in Hin.
      - simpl. unfold mbind, result_bind.
        destruct (build df x) as [p |] eqn:Hx; [| by eexists].
        apply elem_of_cons in Hin as [<- | Hin]; [congruence |].
        by apply IH. }
    destruct (Hfold (unique (row_user_id <$> rows df)) ∅) as [e' He'].
    { apply (proj2 (unique_elem _ _)). by apply list_elem_of_fmap_2. }
    exists e'. unfold Batch.train, create_user_profiles, column.
    rewrite bool_decide_eq_true_2 by done.
    unfold mbind, result_bind in *. by rewrite He'.
Qed.

End Training.


Lemma profile_covers_login_hours_witness :
  exists profiles p,
    create_user_profiles Lib.to_datetime Samples.week_batch = Ok profiles /\
    profiles !! 1 = Some p /\
    user_id p = 1 /\
    hours_min (normal_login_hours p) <= hours_max (normal_login_hours p).
Proof.
  destruct (create_user_profiles Lib.to_datetime Samples.week_batch)
    as [profiles |] eqn:Hc; [| by vm_compute in Hc].
  destruct (profiles !! 1) as [p |] eqn:Hp.
  - exists profiles, p. split; [reflexivity |]. split; [exact Hp |].
    destruct (profile_covers_login_hours Lib.to_datetime _ _ _ _ Hc Hp)
      as (Hid & Hle & _).
    exact (conj Hid Hle).
  - exfalso. vm_compute in Hc. injection Hc as <-. vm_compute in Hp.
    discriminate Hp.
Defined.

Lemma profile_places_witness :
  exists profiles p,
    create_user_profiles Lib.to_datetime Samples.week_batch = Ok profiles /\
    profiles !! 1 = Some p /\
    NoDup (normal_locations p).
Proof.
  destruct (create_user_profiles Lib.to_datetime Samples.week_batch)
    as [profiles |] eqn:Hc; [| by vm_compute in Hc].
  destruct (profiles !! 1) as [p |] eqn:Hp.
  - exists profiles, p. split; [reflexivity |]. split; [exact Hp |].
    exact (proj1 (proj2 (profile_places Lib.to_datetime _ _ _ _ Lib.str_other
                           Hc Hp))).
  - exfalso. vm_compute in Hc. injection Hc as <-. vm_compute in Hp.
    discriminate Hp.
Defined.

Lemma train_raises_witness :
  exists e',
    Batch.train Lib.to_datetime Samples.broken_batch
    = (["🧠 Training anomaly detection model..."; "📊 Loaded 5 events"],
       Raise e').
Proof.
  refine (proj2 (train_raises Lib.to_datetime Samples.broken_batch)
            (mkRow 2 "yesterday" "login" (VStr "bob") "United Kingdom"
               "London" None)
            (mkExn ValueError
               "Unknown datetime string format, unable to parse: yesterday")
            _ _ _ _).
  - apply list_elem_of_In. simpl. tauto.
  - vm_compute. reflexivity.
  - apply list_elem_of_In. simpl. tauto.
  - apply list_elem_of_In. simpl. tauto.
Defined.

Example week_batch_profiles :
  match create_user_profiles Lib.to_datetime Samples.week_batch with
  | Ok profiles =>
      (normal_login_hours <$> profiles !! 1)
      = Some (mkLoginHours 9 17 (VFloat (26 # 2))) /\
      (normal_locations <$> profiles !! 1) = Some ["New York"; "Boston"] /\
      (normal_login_hours <$> profiles !! 2)
      = Some (mkLoginHours 22 22 (VFloat (22 # 1))) /\
      profiles !! 3 = None
  | Raise _ => False
  end.
Proof. vm_compute. repeat split. Qed.

End TrainingFacts.

(** ** More on the connectors *)

Module ConnectorFacts.

Import Connector ConnectorProps Shapes.

(** *** Whitespace *)

Lemma lstrip_starts_clean s : starts_clean (lstrip s).
Proof.
  induction s as [| c t IH]; simpl; [done |].
  destruct (is_space c) eqn:Hc; [done | by simpl].
Qed.

Lemma lstrip_clean s : starts_clean s -> lstrip s = s.
Proof. destruct s as [| c t]; simpl; [done |]. by intros ->. Qed.

Lemma rstrip_starts_clean s : starts_clean s -> starts_clean (rstrip s).
Proof.
  destruct s as [| c t]; simpl; [done |]. intros Hc.
  destruct (rstrip t); [by rewrite Hc | done].
Qed.

Lemma rstrip_idem s : rstrip (rstrip s) = rstrip s.
Proof.
  induction s as [| c t IH]; simpl; [done |].
  destruct (rstrip t) as [| a u] eqn:Ht.
  - destruct (is_space c) eqn:Hc; simpl; [done | by rewrite Hc].
  - change (rstrip (String c (String a u))) with
      (match rstrip (String a u) with
       | EmptyString => if is_space c then EmptyString else String c EmptyString
       | t' => String c t'
       end).
    by rewrite IH.
Qed.

Lemma strip_idem s : strip (strip s) = strip s.
Proof.
  unfold strip.
  rewrite (lstrip_clean (rstrip (lstrip s))).
  - apply rstrip_idem.
  - apply rstrip_starts_clean, lstrip_starts_clean.
Qed.


(** *** Reading a growing file in steps *)

Lemma length_append (s t : string) :
  String.length (s +:+ t) = (String.length s + String.length t)%nat.
Proof. induction s as [| c s IH]; simpl; [done | by rewrite IH]. Qed.

Lemma append_assoc (s t u : string) : (s +:+ t) +:+ u = s +:+ t +:+ u.
Proof.
  induction s as [| c s IH]; [done |].
  change (String c ((s +:+ t) +:+ u) = String c (s +:+ t +:+ u)).
  by rewrite IH.
Qed.

Lemma substring_all (s : string) : String.substring 0 (String.length s) s = s.
Proof. induction s as [| c s IH]; simpl; [done | by rewrite IH]. Qed.

(** Seeking inside the old content of a file that was appended to. *)
Lemma substring_append (n : nat) (s t : string) :
  (n <= String.length s)%nat ->
  String.substring n (String.length (s +:+ t) - n) (s +:+ t)
  = String.substring n (String.length s - n) s +:+ t.
Proof.
  revert n. induction s as [| c s IH]; intros n Hn.
  - simpl in Hn. assert (n = 0%nat) as -> by lia.
    by rewrite !Nat.sub_0_r, !substring_all.
  - destruct n as [| n].
    + by rewrite !Nat.sub_0_r, !substring_all.
    + simpl in *. apply IH. lia.
Qed.

Lemma substring_end (s t : string) :
  String.substring (String.length s) (String.length (s +:+ t) - String.length s)
    (s +:+ t) = t.
Proof.
  rewrite substring_append by done. rewrite Nat.sub_diag.
  assert (H : forall u, String.substring (String.length u) 0 u = EmptyString).
  { induction u as [| c u IH]; simpl; [done | exact IH]. }
  by rewrite H.
Qed.

(** Lines never straddle a line feed: reading up to one and reading on
    from there gives the same lines as reading through. *)
Lemma readlines_append (s cur t : string) :
  readlines cur (s +:+ newline +:+ t)
  = readlines cur (s +:+ newline) ++ readlines EmptyString t.
Proof.
  remember (String.length s) as n eqn:Hn.
  assert (Hle : (String.length s <= n)%nat) by lia. clear Hn.
  revert s cur Hle. induction n as [| n IH]; intros s cur Hle.
  - destruct s; [| simpl in Hle; lia]. reflexivity.
  - destruct s as [| c s]; [reflexivity |]. simpl in Hle.
    change (String c s +:+ newline +:+ t) with (String c (s +:+ newline +:+ t)).
    change (String c s +:+ newline) with (String c (s +:+ newline)).
    simpl readlines at 1 2.
    destruct (Ascii.eqb c "010").
    { simpl. f_equal. apply IH. lia. }
    destruct (Ascii.eqb c "013"); [| apply IH; lia].
    destruct s as [| c' s']; [reflexivity |].
    change (String c' s' +:+ newline +:+ t)
      with (String c' (s' +:+ newline +:+ t)).
    change (String c' s' +:+ newline) with (String c' (s' +:+ newline)).
    cbv iota beta.
    destruct (Ascii.eqb c' "010"); simpl app; f_equal.
    + apply IH. simpl in Hle. lia.
    + apply (IH (String c' s')). lia.
Qed.

(** *** Decoding *)

(** Whether a text decodes does not depend on where counting starts. *)
Lemma utf8_error_shift (n : nat) :
  forall s p q,
    (String.length s <= n)%nat ->
    utf8_error p s = None -> utf8_error q s = None.
Proof.
  induction n as [| n IH]; intros s p q Hlen.
  - destruct s; [done | simpl in Hlen; lia].
  - destruct s as [| a t]; [done |]. cbn [utf8_error]. simpl in Hlen.
    repeat match goal with
           | |- context [if ?c then _ else _] => destruct c
           | |- context [match ?x with EmptyString => _ | String _ _ => _ end] =>
               destruct x; simpl in Hlen
           end; try done; apply IH; lia.
Qed.

Lemma utf8_error_append (n : nat) (b : string) :
  utf8_error 0 b = None ->
  forall a p,
    (String.length a <= n)%nat ->
    utf8_error p a = None -> utf8_error p (a +:+ b) = None.
Proof.
  intros Hb. induction n as [| n IH]; intros a p Hlen.
  - destruct a; [| simpl in Hlen; lia].
    intros _. simpl. by apply (utf8_error_shift (String.length b) b 0).
  - destruct a as [| c t].
    { intros _. simpl. by apply (utf8_error_shift (String.length b) b 0). }
    change (String c t +:+ b) with (String c (t +:+ b)).
    cbn [utf8_error]. simpl in Hlen.
    repeat match goal with
           | |- context [if ?c then _ else _] => destruct c
           end; try done.
    + apply IH. lia.
    + destruct t as [| b0 u]; [done |].
      change (String b0 u +:+ b) with (String b0 (u +:+ b)). cbv beta iota.
      destruct (continuation b0); [| done]. apply IH. simpl in Hlen. lia.
    + destruct t as [| b0 u]; [done |].
      change (String b0 u +:+ b) with (String b0 (u +:+ b)). cbv beta iota.
      destruct (negb _); [done |].
      destruct u as [| c0 v]; [done |].
      change (String c0 v +:+ b) with (String c0 (v +:+ b)). cbv beta iota.
      destruct (continuation c0); [| done]. apply IH. simpl in Hlen. lia.
    + destruct t as [| b0 u]; [done |].
      change (String b0 u +:+ b) with (String b0 (u +:+ b)). cbv beta iota.
      destruct (negb _); [done |].
      destruct u as [| c0 v]; [done |].
      change (String c0 v +:+ b) with (String c0 (v +:+ b)). cbv beta iota.
      destruct (negb _); [done |].
      destruct v as [| d0 w]; [done |].
      change (String d0 w +:+ b) with (String d0 (w +:+ b)). cbv beta iota.
      destruct (continuation d0); [| done]. apply IH. simpl in Hlen. lia.
Qed.

(** Text that decodes, followed by text that decodes, decodes. *)
Lemma utf8_valid_append (a b : string) :
  utf8_valid a = true -> utf8_valid b = true -> utf8_valid (a +:+ b) = true.
Proof.
  unfold utf8_valid. intros Ha Hb.
  destruct (utf8_error 0 a) eqn:Ea; [done |].
  destruct (utf8_error 0 b) eqn:Eb; [done |].
  by rewrite (utf8_error_append (String.length a) b Eb a 0).
Qed.

Section Tail.

Variable fs : gmap string file.

Lemma fetch_file_yield m f y :
  y ∈ (fetch_file fs m f).1.1 -> strip y = y.
Proof.
  unfold fetch_file. destruct (_ <? _); simpl; [| by intros ?%not_elem_of_nil].
  destruct (read_from _ _ _) as [lines |]; simpl;
    [| by intros ?%not_elem_of_nil].
  intros (l & -> & _)%list_elem_of_fmap. apply strip_idem.
Qed.

Lemma fetch_files_yield m l y :
  y ∈ (fetch_files fs m l).1.1 -> strip y = y.
Proof.
  revert m. induction l as [| f t IH]; intros m.
  - simpl. by intros ?%not_elem_of_nil.
  - rewrite fetch_files_cons. simpl.
    intros [H | H]%elem_of_app; [by eapply fetch_file_yield | by eapply IH].
Qed.

(** One iteration moves no offset but its own file's, and that one only
    forward, to the file's size. *)
Lemma fetch_file_offset m g f :
  offset (fetch_file fs m g).2 f = offset m f \/
  (offset m f < _get_file_size fs f /\
   offset (fetch_file fs m g).2 f = _get_file_size fs f).
Proof.
  destruct (decide (g = f)) as [-> | Hne].
  - unfold fetch_file.
    destruct (offset m f <? _get_file_size fs f) eqn:Hlt; [| by left].
    destruct (read_from fs f (offset m f)); [| by left].
    right. apply Z.ltb_lt in Hlt. split; [done |].
    simpl. unfold offset. by rewrite lookup_insert_eq.
  - left. unfold offset. by rewrite fetch_file_lookup_ne.
Qed.

Lemma fetch_files_offset m l f :
  offset (fetch_files fs m l).2 f = offset m f \/
  (offset m f < _get_file_size fs f /\
   offset (fetch_files fs m l).2 f = _get_file_size fs f).
Proof.
  revert m. induction l as [| g t IH]; intros m; [by left |].
  rewrite fetch_files_cons. simpl.
  destruct (IH (fetch_file fs m g).2) as [-> | [Hlt ->]];
    destruct (fetch_file_offset m g f) as [Heq | [Hlt' Heq]].
  - by left.
  - by right.
  - right. by rewrite <- Heq.
  - rewrite Heq in Hlt. lia.
Qed.

(** What [fetch_events] yields has no surrounding whitespace left, and no
    stored offset ever moves backwards: an offset stays, or becomes the
    current size of a file that has grown past it. *)
Theorem fetch_events_yields_and_offsets st :
  (forall y, y ∈ (fetch_events fs st).1.1 -> strip y = y) /\
  (forall f,
     offset (last_positions (fetch_events fs st).2) f
     = offset (last_positions st) f \/
     (offset (last_positions st) f < _get_file_size fs f /\
      offset (last_positions (fetch_events fs st).2) f = _get_file_size fs f)) /\
  log_files (fetch_events fs st).2 = log_files st.
Proof.
  rewrite fetch_events_state. simpl. split; [| split; [| done]].
  - intros y. unfold fetch_events.
    destruct (fetch_files fs (last_positions st) (log_files st))
      as [[ys ps] m] eqn:E. simpl. intros Hy.
    apply (fetch_files_yield (last_positions st) (log_files st)).
    by rewrite E.
  - intros f. apply fetch_files_offset.
Qed.

Lemma connect_positions (m : gmap string Z) (l : list string) f :
  foldl (fun m f => <[f := _get_file_size fs f]> m) m l !! f
  = if bool_decide (f ∈ l) then Some (_get_file_size fs f) else m !! f.
Proof.
  revert m. induction l as [| g t IH]; intros m; simpl; [done |].
  rewrite IH. destruct (decide (f ∈ t)) as [Ht | Ht].
  - rewrite !bool_decide_eq_true_2; [done | by right | done].
  - rewrite (bool_decide_eq_false_2 _ Ht).
    destruct (decide (g = f)) as [-> | Hne].
    + rewrite lookup_insert_eq, bool_decide_eq_true_2; [done | by left].
    + rewrite lookup_insert_ne by done.
      rewrite bool_decide_eq_false_2; [done |].
      intros [? | ?]%elem_of_cons; congruence.
Qed.

Lemma fetch_files_at_size m l :
  (forall f, f ∈ l -> offset m f = _get_file_size fs f) ->
  fetch_files fs m l = ([], [], m).
Proof.
  induction l as [| g t IH]; intros H; [done |].
  assert (Hg : fetch_file fs m g = ([], [], m)).
  { unfold fetch_file. rewrite (H g) by (by left). by rewrite Z.ltb_irrefl. }
  rewrite fetch_files_cons, Hg. simpl. rewrite IH; [done |].
  intros f Hf. apply H. by right.
Qed.

(** [connect] keeps exactly the files that exist and can be read, starts
    each of them at its current size, and reports whether any is left; a
    [fetch_events] right after it yields nothing, prints nothing and moves
    nothing: what was in the logs before [connect] is never ingested. *)
Theorem connect_skips_history st :
  (forall f, f ∈ log_files (connect fs st).2
             <-> f ∈ log_files st /\ accessible fs f = true) /\
  (forall f, f ∈ log_files (connect fs st).2 ->
             last_positions (connect fs st).2 !! f = Some (_get_file_size fs f)) /\
  ((connect fs st).1 = true <-> log_files (connect fs st).2 <> []) /\
  fetch_events fs (connect fs st).2 = ([], [], (connect fs st).2).
Proof.
  unfold connect. simpl.
  set (kept := filter (fun f => accessible fs f) (log_files st)).
  assert (Hpos : forall f, f ∈ kept ->
    foldl (fun m f => <[f := _get_file_size fs f]> m) (last_positions st) kept
      !! f = Some (_get_file_size fs f)).
  { intros f Hf. by rewrite connect_positions, bool_decide_eq_true_2. }
  split; [| split; [exact Hpos | split]].
  - intros f. unfold kept. rewrite list_elem_of_filter.
    split; intros [? ?]; split; try done; by apply Is_true_true.
  - rewrite bool_decide_eq_true. destruct kept; simpl; split; try done; lia.
  - unfold fetch_events. simpl. rewrite fetch_files_at_size; [done |].
    intros f Hf. unfold offset. by rewrite Hpos.
Qed.

End Tail.


(** A readable log whose content so far ends at a line feed and decodes
    from the stored offset on, read from that offset and read again after
    more text that decodes was appended, yields in the two calls together
    exactly what one call on the grown file yields, and ends at the same
    offset: no record is lost, repeated or cut. *)
Theorem tail_in_two_steps (fs fs' : gmap string file) (m : gmap string Z)
    (f old more : string) (n : nat) :
  fs !! f = Some (mkFile (old +:+ newline) true) ->
  fs' !! f = Some (mkFile (old +:+ newline +:+ more) true) ->
  more <> EmptyString ->
  offset m f = Z.of_nat n ->
  (n <= String.length old)%nat ->
  utf8_valid (unread (mkFile (old +:+ newline) true) (Z.of_nat n)) = true ->
  utf8_valid more = true ->
  exists first second,
    fetch_file fs m f
    = (first, [], <[f := _get_file_size fs f]> m) /\
    fetch_file fs' (<[f := _get_file_size fs f]> m) f
    = (second, [], <[f := _get_file_size fs' f]> m) /\
    second = strip <$> readlines EmptyString more /\
    fetch_file fs' m f
    = (first ++ second, [], <[f := _get_file_size fs' f]> m).
Proof.
  intros Hfs Hfs' Hmore Hoff Hn Hold Hnew.
  assert (Hsize : _get_file_size fs f = Z.of_nat (String.length old + 1)).
  { unfold _get_file_size. rewrite Hfs. simpl. by rewrite length_append. }
  assert (Hsize' : _get_file_size fs' f
                   = Z.of_nat (String.length old + 1 + String.length more)).
  { unfold _get_file_size. rewrite Hfs'. simpl.
    rewrite !length_append. simpl. f_equal. lia. }
  assert (Hlen : (0 < String.length more)%nat).
  { destruct more; [done | simpl; lia]. }
  set (rest := String.substring n (String.length old - n) old).
  assert (U1 : unread (mkFile (old +:+ newline) true) (Z.of_nat n)
               = rest +:+ newline).
  { unfold unread. simpl. rewrite Nat2Z.id. apply substring_append. lia. }
  assert (U2 : unread (mkFile (old +:+ newline +:+ more) true)
                 (Z.of_nat (String.length old + 1)) = more).
  { unfold unread. simpl. rewrite Nat2Z.id.
    replace (String.length old + 1)%nat
      with (String.length (old +:+ newline))
      by (rewrite length_append; simpl; lia).
    rewrite <- (append_assoc old newline more).
    by rewrite substring_end. }
  assert (U3 : unread (mkFile (old +:+ newline +:+ more) true) (Z.of_nat n)
               = rest +:+ newline +:+ more).
  { unfold unread. simpl. rewrite Nat2Z.id. apply substring_append. lia. }
  assert (V3 : utf8_valid (rest +:+ newline +:+ more) = true).
  { rewrite <- append_assoc. apply utf8_valid_append; [| exact Hnew].
    by rewrite <- U1. }
  rewrite U1 in Hold.
  unfold utf8_valid in Hold, Hnew, V3.
  destruct (utf8_error 0 (rest +:+ newline)) eqn:E1; [done |].
  destruct (utf8_error 0 more) eqn:E2; [done |].
  destruct (utf8_error 0 (rest +:+ newline +:+ more)) eqn:E3; [done |].
  exists (strip <$> readlines EmptyString (rest +:+ newline)),
         (strip <$> readlines EmptyString more).
  split; [| split; [| split; [done |]]].
  - unfold fetch_file. rewrite Hoff, Hsize.
    rewrite (proj2 (Z.ltb_lt _ _)) by lia.
    unfold read_from. rewrite Hfs. cbn [readable negb].
    rewrite (proj2 (Z.ltb_ge _ _)) by lia.
    by rewrite U1, E1.
  - unfold fetch_file, offset. rewrite lookup_insert_eq.
    cbn [default]. unfold id. rewrite Hsize, Hsize'.
    rewrite (proj2 (Z.ltb_lt _ _)) by lia.
    unfold read_from. rewrite Hfs'. cbn [readable negb].
    rewrite (proj2 (Z.ltb_ge _ _)) by lia.
    by rewrite U2, E2, insert_insert_eq.
  - unfold fetch_file. rewrite Hoff, Hsize'.
    rewrite (proj2 (Z.ltb_lt _ _)) by lia.
    unfold read_from. rewrite Hfs'. cbn [readable negb].
    rewrite (proj2 (Z.ltb_ge _ _)) by lia.
    rewrite U3, E3.
    by rewrite readlines_append, fmap_app.
Qed.


Section Normalize.

Variable now now' : datetime.
Variable isoformat isoformat' : datetime -> string.
Variable class_name : string.

(** Normalizing a normalized event changes nothing, whatever the clock
    reads the second time: every default is already filled in. *)
Theorem standardize_event_idempotent (d : gmap string pyval) :
  standardize_event now' isoformat' class_name
    (standardize_event now isoformat class_name d)
  = standardize_event now isoformat class_name d.
Proof.
  destruct (standardize_event_lookup now isoformat class_name d)
    as (H1 & H2 & H3 & H4 & H5 & H6 & H7 & H8 & H9 & H10 & H11 & H12
        & H13 & H14).
  unfold standardize_event at 1. unfold dict_get at 1 2 3 4 5 6 7 8.
  unfold dict_get_default at 1 2 3 4 5.
  rewrite H1, H2, H3, H4, H5, H6, H7, H8, H9, H10, H11, H12, H13.
  reflexivity.
Qed.

End Normalize.


(** *** On the sample files *)

Lemma fetch_events_yields_and_offsets_witness :
  "line two" ∈ (fetch_events Samples.two_lines Samples.fresh).1.1 /\
  strip "line two" = "line two".
Proof.
  assert (H : "line two" ∈ (fetch_events Samples.two_lines Samples.fresh).1.1).
  { vm_compute. apply list_elem_of_In. simpl. tauto. }
  split; [exact H |].
  exact (proj1 (fetch_events_yields_and_offsets Samples.two_lines Samples.fresh)
           "line two" H).
Defined.

Lemma connect_skips_history_witness :
  Samples.auth_log ∈ log_files (connect Samples.two_lines Samples.fresh).2 /\
  last_positions (connect Samples.two_lines Samples.fresh).2 !! Samples.auth_log
  = Some (_get_file_size Samples.two_lines Samples.auth_log).
Proof.
  assert (H : Samples.auth_log
              ∈ log_files (connect Samples.two_lines Samples.fresh).2).
  { vm_compute. apply list_elem_of_In. simpl. tauto. }
  split; [exact H |].
  exact (proj1 (proj2 (connect_skips_history Samples.two_lines Samples.fresh))
           Samples.auth_log H).
Defined.

Lemma tail_in_two_steps_witness :
  exists first second,
    fetch_file Samples.two_lines ∅ Samples.auth_log
    = (first, [], <[Samples.auth_log :=
                      _get_file_size Samples.two_lines Samples.auth_log]> ∅) /\
    second = strip <$> readlines EmptyString ("line three" +:+ newline) /\
    fetch_file Samples.three_lines ∅ Samples.auth_log
    = (first ++ second, [],
       <[Samples.auth_log :=
           _get_file_size Samples.three_lines Samples.auth_log]> ∅).
Proof.
  destruct (tail_in_two_steps Samples.two_lines Samples.three_lines ∅
              Samples.auth_log
              ("line one" +:+ newline +:+ "  line two  ")
              ("line three" +:+ newline) 0)
    as (first & second & H1 & _ & H3 & H4).
  - vm_compute. reflexivity.
  - vm_compute. reflexivity.
  - vm_compute. discriminate.
  - vm_compute. reflexivity.
  - simpl. lia.
  - vm_compute. reflexivity.
  - vm_compute. reflexivity.
  - exists first, second. exact (conj H1 (conj H3 H4)).
Defined.

(** A log with a byte that is no UTF-8 is not read: the error is printed,
    nothing is yielded, not even the line before the byte, and the offset
    stays, so the next call fails the same way. *)
Example undecodable_log_is_not_read :
  fetch_events Samples.garbled Samples.fresh
  = ([],
     ["Error reading /var/log/auth.log: 'utf-8' codec can't decode byte 0xff in position 3: invalid start byte"],
     Samples.fresh).
Proof. vm_compute. reflexivity. Qed.

(** A line that is still being written when the log is read is cut in
    two records. *)
Example unfinished_line_is_cut :
  fetch_file {[ Samples.auth_log := mkFile "Accepted pass" true ]} ∅
    Samples.auth_log
  = (["Accepted pass"], [], {[ Samples.auth_log := 13 ]}) /\
  fetch_file
    {[ Samples.auth_log := mkFile ("Accepted password" +:+ newline) true ]}
    {[ Samples.auth_log := 13 ]} Samples.auth_log
  = (["word"], [], {[ Samples.auth_log := 18 ]}).
Proof. split; vm_compute; reflexivity. Qed.

End ConnectorFacts.

(** ** What the patterns capture *)

Module RegexFacts.

Import Regex Shapes.

Lemma run_star {R} (a : regex) s caps (k : _ -> _ -> option R) :
  run (Star a) s caps k = star_loop (run a) k (S (String.length s)) s caps.
Proof. reflexivity. Qed.

Lemma consumed_append (t s : string) : consumed (t +:+ s) s = t.
Proof.
  unfold consumed. rewrite ConnectorFacts.length_append.
  replace (String.length t + String.length s - String.length s)%nat
    with (String.length t) by lia.
  revert s. induction t as [| c t IH]; intros s.
  - destruct s; reflexivity.
  - simpl. f_equal. apply IH.
Qed.

Section Sound.

Context {R : Type} (Inv : nat -> string -> Prop).

Lemma star_loop_sound (a : regex) :
  sound_at (R:=R) Inv a (groups_set a) ->
  forall fuel s caps (k : string -> list (option string) -> option R) x,
    star_loop (run a) k fuel s caps = Some x ->
    exists t s' caps',
      s = t +:+ s' /\ matches (Star a) t /\ k s' caps' = Some x /\
      length caps' = length caps /\
      (forall i, holds Inv caps i -> holds Inv caps' i).
Proof.
  intros Ha. induction fuel as [| fuel IH]; intros s caps k x; simpl.
  - intros Hk. exists EmptyString, s, caps. repeat split; try done. constructor.
  - destruct (run a s caps _) as [y |] eqn:Hbody.
    + intros [= ->].
      apply Ha in Hbody as (t & s1 & c1 & -> & Ht & Hk & Hlen & Hkeep & _).
      destruct (_ <? _)%nat; [| done].
      apply IH in Hk as (u & s2 & c2 & -> & Hu & Hk & Hlen2 & Hkeep2).
      exists (t +:+ u), s2, c2. split; [by rewrite ConnectorFacts.append_assoc |].
      split; [by constructor |]. split; [done |].
      split; [congruence |]. intros i Hi. by apply Hkeep2, Hkeep.
    + intros Hk. exists EmptyString, s, caps. repeat split; try done.
      constructor.
Qed.

Lemma run_sound (r : regex) :
  group_ok Inv r -> sound_at (R:=R) Inv r (groups_set r).
Proof.
  induction r as [| ok | a IHa b IHb | a IHa b IHb | a IHa | i a IHa];
    intros Hok s caps k x; simpl in Hok.
  - simpl. intros Hk. exists EmptyString, s, caps.
    repeat split; try done; [constructor | by intros i ?%not_elem_of_nil].
  - simpl. destruct s as [| c s]; [done |].
    destruct (ok c) eqn:Hc; [| done]. intros Hk.
    exists (String c EmptyString), s, caps.
    repeat split; try done; [by constructor | by intros i ?%not_elem_of_nil].
  - destruct Hok as [Hoa Hob]. simpl. intros H.
    apply (IHa Hoa) in H as (t & s1 & c1 & -> & Ht & H & Hlen & Hkeep & Hset).
    apply (IHb Hob) in H as (u & s2 & c2 & -> & Hu & H & Hlen2 & Hkeep2 & Hset2).
    exists (t +:+ u), s2, c2. split; [by rewrite ConnectorFacts.append_assoc |].
    split; [by constructor |]. split; [done |]. split; [congruence |].
    split; [intros i Hi; by apply Hkeep2, Hkeep |].
    intros i [Hi | Hi]%elem_of_app Hlt.
    + by apply Hkeep2, Hset.
    + apply Hset2; [done | congruence].
  - destruct Hok as [Hoa Hob]. simpl.
    destruct (run a s caps k) as [y |] eqn:Hl.
    + intros [= ->].
      apply (IHa Hoa) in Hl as (t & s1 & c1 & -> & Ht & H & Hlen & Hkeep & Hset).
      exists t, s1, c1. split; [done |]. split; [by constructor |].
      split; [done |]. split; [done |]. split; [done |].
      intros i [_ Hi]%list_elem_of_filter Hlt. by apply Hset.
    + intros Hr.
      apply (IHb Hob) in Hr as (t & s1 & c1 & -> & Ht & H & Hlen & Hkeep & Hset).
      exists t, s1, c1. split; [done |]. split; [by apply matches_alt_r |].
      split; [done |]. split; [done |]. split; [done |].
      intros i [Hi _]%list_elem_of_filter Hlt. by apply Hset.
  - rewrite run_star. intros H.
    apply (star_loop_sound a (IHa Hok)) in H
      as (t & s1 & c1 & -> & Ht & H & Hlen & Hkeep).
    exists t, s1, c1. repeat split; try done. by intros i ?%not_elem_of_nil.
  - destruct Hok as [Hinv Hoa]. simpl. intros H.
    apply (IHa Hoa) in H as (t & s1 & c1 & -> & Ht & H & Hlen & Hkeep & Hset).
    rewrite consumed_append in H.
    exists t, s1, (<[i := Some t]> c1). split; [done |].
    split; [by constructor |]. split; [done |].
    split; [by rewrite length_insert |].
    assert (Hins : forall j, holds Inv c1 j -> holds Inv (<[i := Some t]> c1) j).
    { intros j (v & Hv & Hi). destruct (decide (i = j)) as [-> | Hne].
      - exists t. split; [| by apply Hinv].
        apply list_lookup_insert_eq. by eapply lookup_lt_Some.
      - exists v. by rewrite list_lookup_insert_ne. }
    split; [intros j Hj; by apply Hins, Hkeep |].
    intros j [-> | Hj]%elem_of_cons Hlt.
    + exists t. split; [| by apply Hinv].
      apply list_lookup_insert_eq. congruence.
    + by apply Hins, Hset.
Qed.

End Sound.


(** *** Matches of the whole pattern *)

Lemma rmatch_groups (Inv : nat -> string -> Prop) (n : nat) (r : regex)
    (s : string) (caps : list (option string)) :
  group_ok Inv r ->
  rmatch n r s = Some caps ->
  length caps = n /\
  forall i, i ∈ groups_set r -> (i < n)%nat -> holds Inv caps i.
Proof.
  intros Hok H. unfold rmatch in H.
  apply (run_sound Inv r Hok) in H
    as (t & s' & caps' & _ & _ & [= ->] & Hlen & _ & Hset).
  rewrite length_replicate in Hlen. split; [done |].
  intros i Hi Hlt. apply Hset; [done |]. by rewrite length_replicate.
Qed.

Lemma search_rmatch (n : nat) (r : regex) (s : string) caps :
  search n r s = Some caps -> exists s0, rmatch n r s0 = Some caps.
Proof.
  induction s as [| c s IH]; simpl.
  - destruct (rmatch n r EmptyString) eqn:H; [| done].
    intros [= ->]. by eexists.
  - destruct (rmatch n r (String c s)) eqn:H; [| exact IH].
    intros [= ->]. by eexists.
Qed.

(** *** Texts of one character class *)

Lemma matches_chr_inv ok t :
  matches (Chr ok) t -> exists c, t = String c EmptyString /\ ok c = true.
Proof. inversion 1; subst. by eexists. Qed.

Lemma matches_star_chr ok t : matches (Star (Chr ok)) t -> all_chars ok t.
Proof.
  remember (Star (Chr ok)) as r eqn:Hr. intros H. revert Hr.
  induction H as [| | | | | a | a t u Ht _ Hu IH |]; intros Hr; try done.
  injection Hr as ->.
  apply matches_chr_inv in Ht as (c & -> & Hc). simpl. split; [done |].
  by apply IH.
Qed.

Lemma matches_plus_chr ok t : matches (plus (Chr ok)) t -> run_of ok t.
Proof.
  unfold plus. inversion 1 as [| | a b u v Hu Hv | | | | |]; subst.
  apply matches_chr_inv in Hu as (c & -> & Hc).
  apply matches_star_chr in Hv. split; [done |]. simpl. done.
Qed.

Lemma matches_times3_chr ok t :
  matches (times 3 (Chr ok)) t ->
  exists a b c, t = String a (String b (String c EmptyString)) /\
                ok a = true /\ ok b = true /\ ok c = true.
Proof.
  simpl. inversion 1 as [| | r1 r2 u v Hu Hv | | | | |]; subst.
  inversion Hv as [| | r1 r2 v1 v2 Hv1 Hv2 | | | | |]; subst.
  apply matches_chr_inv in Hu as (a & -> & Ha).
  apply matches_chr_inv in Hv1 as (b & -> & Hb).
  apply matches_chr_inv in Hv2 as (c & -> & Hc).
  by exists a, b, c.
Qed.

Lemma digit_of_is_digit c : is_digit c = true -> exists z, digit c = Some z.
Proof.
  unfold is_digit, between, digit. intros ->. by eexists.
Qed.

(** [int] reads every three-digit text. *)
Lemma int_of_three_digits a b c :
  is_digit a = true -> is_digit b = true -> is_digit c = true ->
  exists z, int_of_str (String a (String b (String c EmptyString))) = Ok z.
Proof.
  intros (x & Hx)%digit_of_is_digit (y & Hy)%digit_of_is_digit
         (z & Hz)%digit_of_is_digit.
  unfold int_of_str. simpl. rewrite Hx. simpl. rewrite Hy. simpl.
  rewrite Hz. simpl. by eexists.
Qed.

End RegexFacts.

(** ** What [parse_event] emits *)

Module ParseFacts.

Import Regex Shapes RegexFacts Connector.

Ltac group_ok_tac :=
  simpl;
  repeat match goal with
         | |- _ /\ _ => split
         | |- True => exact I
         | |- forall t, matches _ t -> _ => intros ? ?
         end;
  unfold w, d, nsp in *;
  try match goal with
      | H : matches (plus (Chr _)) _ |- run_of _ _ =>
          exact (matches_plus_chr _ _ H)
      | H : matches (plus (Chr _)) _ |- _ <> EmptyString =>
          exact (proj1 (matches_plus_chr _ _ H))
      | H : matches (Seq (Chr _) (Seq (Chr _) (Chr _))) _ |- _ =>
          exact (matches_times3_chr _ _ H)
      end.

Lemma ssh_login_ok : group_ok ssh_inv LinuxAuth.ssh_login_pattern.
Proof.
  unfold LinuxAuth.ssh_login_pattern, LinuxAuth.stamp, LinuxAuth.address.
  group_ok_tac.
Qed.

Lemma ssh_failed_ok : group_ok ssh_inv LinuxAuth.ssh_failed_pattern.
Proof.
  unfold LinuxAuth.ssh_failed_pattern, LinuxAuth.stamp, LinuxAuth.address.
  group_ok_tac.
Qed.

Lemma sudo_ok : group_ok sudo_inv LinuxAuth.sudo_pattern.
Proof. unfold LinuxAuth.sudo_pattern, LinuxAuth.stamp. group_ok_tac. Qed.

Lemma access_ok : group_ok access_inv WebLog.log_pattern.
Proof. unfold WebLog.log_pattern. group_ok_tac. Qed.

Lemma three_groups (Inv : nat -> string -> Prop) (r : regex) raw caps :
  group_ok Inv r ->
  groups_set r = [0; 1; 2]%nat ->
  search 3 r raw = Some caps ->
  exists a b c, caps = [Some a; Some b; Some c] /\ Inv 1%nat b /\ Inv 2%nat c.
Proof.
  intros Hok Hset (s0 & H)%search_rmatch.
  destruct (rmatch_groups Inv 3 r s0 caps Hok H) as [Hlen Hall].
  destruct (Hall 0%nat) as (a & Ha & _); [rewrite Hset; set_solver | lia |].
  destruct (Hall 1%nat) as (b & Hb & Hib); [rewrite Hset; set_solver | lia |].
  destruct (Hall 2%nat) as (c & Hc & Hic); [rewrite Hset; set_solver | lia |].
  destruct caps as [| x0 [| x1 [| x2 [| x3 l]]]]; try done.
  simpl in *. exists a, b, c. split; [congruence | done].
Qed.


Section Linux.

Variable now : datetime.
Variable isoformat : datetime -> string.
Variable strptime : string -> string -> result datetime.

Lemma ssh_event_fields raw_event success stamp user ip :
  LinuxAuth.ssh_event now isoformat strptime raw_event success
    [Some stamp; Some user; Some ip]
  = Ok (Some (standardize_event now isoformat LinuxAuth.class_name
          (list_to_map [
             ("timestamp",
              VStr (LinuxAuth._parse_timestamp now isoformat strptime stamp));
             ("user_name", VStr user);
             ("event_type", VStr "login");
             ("source_ip", VStr ip);
             ("success", VBool success);
             ("details", VDict (list_to_map [("method", VStr "ssh");
                                             ("raw", VStr raw_event)]))]))).
Proof. reflexivity. Qed.

Lemma ssh_event_lookup (stampv detailsv : pyval) user ip success :
  let ev := standardize_event now isoformat LinuxAuth.class_name
              (list_to_map [("timestamp", stampv); ("user_name", VStr user);
                            ("event_type", VStr "login");
                            ("source_ip", VStr ip);
                            ("success", VBool success);
                            ("details", detailsv)]) in
  ev !! "user_name" = Some (VStr user) /\
  ev !! "event_type" = Some (VStr "login") /\
  ev !! "source_ip" = Some (VStr ip) /\
  ev !! "success" = Some (VBool success).
Proof.
  intros ev.
  destruct (ConnectorProps.standardize_event_lookup now isoformat
              LinuxAuth.class_name
              (list_to_map [("timestamp", stampv); ("user_name", VStr user);
                            ("event_type", VStr "login");
                            ("source_ip", VStr ip);
                            ("success", VBool success);
                            ("details", detailsv)]))
    as (_ & _ & H3 & H4 & H5 & _ & _ & _ & H9 & _).
  exact (conj H3 (conj H4 (conj H5 H9))).
Qed.

Lemma sudo_event_lookup (stampv detailsv : pyval) user :
  let ev := standardize_event now isoformat LinuxAuth.class_name
              (list_to_map [("timestamp", stampv); ("user_name", VStr user);
                            ("event_type", VStr "command");
                            ("action", VStr "sudo");
                            ("details", detailsv)]) in
  ev !! "user_name" = Some (VStr user) /\
  ev !! "event_type" = Some (VStr "command") /\
  ev !! "action" = Some (VStr "sudo") /\
  ev !! "source_ip" = Some VNone.
Proof.
  intros ev.
  destruct (ConnectorProps.standardize_event_lookup now isoformat
              LinuxAuth.class_name
              (list_to_map [("timestamp", stampv); ("user_name", VStr user);
                            ("event_type", VStr "command");
                            ("action", VStr "sudo");
                            ("details", detailsv)]))
    as (_ & _ & H3 & H4 & H5 & _ & _ & _ & _ & _ & _ & H12 & _).
  exact (conj H3 (conj H4 (conj H12 H5))).
Qed.

(** [LinuxAuthConnector.parse_event] never reaches its [except] branch:
    on every line it returns with nothing printed. An event it returns has
    a user name made of one or more word characters and is either a login
    with a [success] flag and a source address made of one or more digits
    and dots, or a sudo command with no source address. *)
Theorem linux_parse_event_clean (raw_event : string) :
  exists oev,
    LinuxAuth.parse_event now isoformat strptime raw_event = Ok (oev, []) /\
    forall ev,
      oev = Some ev ->
      exists user,
        ev !! "user_name" = Some (VStr user) /\ run_of is_word user /\
        ((ev !! "event_type" = Some (VStr "login") /\
          exists ip success,
            ev !! "source_ip" = Some (VStr ip) /\
            run_of is_address_char ip /\
            ev !! "success" = Some (VBool success)) \/
         (ev !! "event_type" = Some (VStr "command") /\
          ev !! "action" = Some (VStr "sudo") /\
          ev !! "source_ip" = Some VNone)).
Proof.
  unfold LinuxAuth.parse_event, LinuxAuth.parse_body.
  destruct (search 3 LinuxAuth.ssh_login_pattern raw_event) as [caps |] eqn:H1.
  { destruct (three_groups ssh_inv _ _ _ ssh_login_ok eq_refl H1)
      as (a & b & c & -> & Hb & Hc).
    rewrite ssh_event_fields. eexists. split; [reflexivity |].
    intros ev [= <-].
    destruct (ssh_event_lookup
      (VStr (LinuxAuth._parse_timestamp now isoformat strptime a))
      (VDict (list_to_map [("method", VStr "ssh"); ("raw", VStr raw_event)]))
      b c true) as (Hu & Hty & Hip & Hs).
    exists b. split; [exact Hu |]. split; [exact Hb |]. left.
    split; [exact Hty |]. exists c, true. exact (conj Hip (conj Hc Hs)). }
  destruct (search 3 LinuxAuth.ssh_failed_pattern raw_event) as [caps |] eqn:H2.
  { destruct (three_groups ssh_inv _ _ _ ssh_failed_ok eq_refl H2)
      as (a & b & c & -> & Hb & Hc).
    rewrite ssh_event_fields. eexists. split; [reflexivity |].
    intros ev [= <-].
    destruct (ssh_event_lookup
      (VStr (LinuxAuth._parse_timestamp now isoformat strptime a))
      (VDict (list_to_map [("method", VStr "ssh"); ("raw", VStr raw_event)]))
      b c false) as (Hu & Hty & Hip & Hs).
    exists b. split; [exact Hu |]. split; [exact Hb |]. left.
    split; [exact Hty |]. exists c, false. exact (conj Hip (conj Hc Hs)). }
  destruct (search 3 LinuxAuth.sudo_pattern raw_event) as [caps |] eqn:H3.
  { destruct (three_groups sudo_inv _ _ _ sudo_ok eq_refl H3)
      as (a & b & c & -> & Hb & _).
    eexists. split; [reflexivity |].
    intros ev [= <-].
    destruct (sudo_event_lookup
      (VStr (LinuxAuth._parse_timestamp now isoformat strptime a))
      (VDict (list_to_map [("command", VStr (strip c));
                           ("raw", VStr raw_event)]))
      b) as (Hu & Hty & Hact & Hip).
    exists b. split; [exact Hu |]. split; [exact Hb |]. right.
    exact (conj Hty (conj Hact Hip)). }
  exists None. split; [reflexivity |]. intros ev [=].
Qed.

End Linux.


Section Web.

Variable now : datetime.
Variable isoformat : datetime -> string.
Variable strptime : string -> string -> result datetime.

Lemma nine_groups_status raw caps :
  rmatch 9 WebLog.log_pattern raw = Some caps ->
  exists a0 a1 a2 a3 a4 a5 a6 a7 a8,
    caps = [Some a0; Some a1; Some a2; Some a3; Some a4; Some a5; Some a6;
            Some a7; Some a8] /\
    a0 <> EmptyString /\
    exists x y z,
      a5 = String x (String y (String z EmptyString)) /\
      is_digit x = true /\ is_digit y = true /\ is_digit z = true.
Proof.
  intros H.
  destruct (rmatch_groups access_inv 9 _ _ _ access_ok H) as [Hlen Hall].
  assert (Hset : forall i, (i < 9)%nat -> holds access_inv caps i).
  { intros i Hi. apply Hall; [| done].
    change (groups_set WebLog.log_pattern) with [0; 1; 2; 3; 4; 5; 6; 7; 8]%nat.
    apply list_elem_of_In. simpl. lia. }
  destruct (Hset 0%nat) as (a0 & H0 & I0); [lia |].
  destruct (Hset 1%nat) as (a1 & H1 & _); [lia |].
  destruct (Hset 2%nat) as (a2 & H2 & _); [lia |].
  destruct (Hset 3%nat) as (a3 & H3 & _); [lia |].
  destruct (Hset 4%nat) as (a4 & H4 & _); [lia |].
  destruct (Hset 5%nat) as (a5 & H5 & I5); [lia |].
  destruct (Hset 6%nat) as (a6 & H6 & _); [lia |].
  destruct (Hset 7%nat) as (a7 & H7 & _); [lia |].
  destruct (Hset 8%nat) as (a8 & H8 & _); [lia |].
  destruct caps as [| c0 [| c1 [| c2 [| c3 [| c4 [| c5 [| c6 [| c7 [| c8
    [| c9 l]]]]]]]]]]; try done.
  simpl in *.
  exists a0, a1, a2, a3, a4, a5, a6, a7, a8.
  split; [congruence |]. split; [exact I0 | exact I5].
Qed.

Lemma nine_groups raw caps :
  rmatch 9 WebLog.log_pattern raw = Some caps ->
  exists a0 a1 a2 a3 a4 a5 a6 a7 a8,
    caps = [Some a0; Some a1; Some a2; Some a3; Some a4; Some a5; Some a6;
            Some a7; Some a8] /\
    a0 <> EmptyString /\ exists code, int_of_str a5 = Ok code.
Proof.
  intros H.
  destruct (rmatch_groups access_inv 9 _ _ _ access_ok H) as [Hlen Hall].
  assert (Hset : forall i, (i < 9)%nat -> holds access_inv caps i).
  { intros i Hi. apply Hall; [| done].
    change (groups_set WebLog.log_pattern) with [0; 1; 2; 3; 4; 5; 6; 7; 8]%nat.
    apply list_elem_of_In. simpl. lia. }
  destruct (Hset 0%nat) as (a0 & H0 & I0); [lia |].
  destruct (Hset 1%nat) as (a1 & H1 & _); [lia |].
  destruct (Hset 2%nat) as (a2 & H2 & _); [lia |].
  destruct (Hset 3%nat) as (a3 & H3 & _); [lia |].
  destruct (Hset 4%nat) as (a4 & H4 & _); [lia |].
  destruct (Hset 5%nat) as (a5 & H5 & (x & y & z & -> & Hx & Hy & Hz)); [lia |].
  destruct (Hset 6%nat) as (a6 & H6 & _); [lia |].
  destruct (Hset 7%nat) as (a7 & H7 & _); [lia |].
  destruct (Hset 8%nat) as (a8 & H8 & _); [lia |].
  destruct caps as [| c0 [| c1 [| c2 [| c3 [| c4 [| c5 [| c6 [| c7 [| c8
    [| c9 l]]]]]]]]]]; try done.
  simpl in *.
  exists a0, a1, a2, a3, a4, (String x (String y (String z EmptyString))),
         a6, a7, a8.
  split; [congruence |]. split; [exact I0 |].
  by apply int_of_three_digits.
Qed.

Lemma determine_event_type_total method url status_code code :
  int_of_str status_code = Ok code ->
  exists oty,
    WebLog._determine_event_type method url status_code = Ok oty /\
    forall ty, oty = Some ty -> ty ∈ web_event_types.
Proof.
  intros Hcode. unfold WebLog._determine_event_type, mbind, result_bind.
  rewrite Hcode.
  repeat match goal with
         | |- context [if ?b then _ else _] => destruct b
         end;
    eexists; (split; [reflexivity |]); intros ty [= <-];
    apply list_elem_of_In; simpl; tauto.
Qed.

Lemma web_event_lookup (stampv detailsv : pyval) user ty ip success :
  let ev := standardize_event now isoformat WebLog.class_name
              (list_to_map [("timestamp", stampv); ("user_name", VStr user);
                            ("event_type", VStr ty);
                            ("source_ip", VStr ip);
                            ("success", VBool success);
                            ("details", detailsv)]) in
  ev !! "user_name" = Some (VStr user) /\
  ev !! "event_type" = Some (VStr ty) /\
  ev !! "source_ip" = Some (VStr ip) /\
  ev !! "success" = Some (VBool success) /\
  ev !! "details" = Some detailsv.
Proof.
  intros ev.
  destruct (ConnectorProps.standardize_event_lookup now isoformat
              WebLog.class_name
              (list_to_map [("timestamp", stampv); ("user_name", VStr user);
                            ("event_type", VStr ty);
                            ("source_ip", VStr ip);
                            ("success", VBool success);
                            ("details", detailsv)]))
    as (_ & _ & H3 & H4 & H5 & _ & _ & _ & H9 & _ & _ & _ & H13 & _).
  exact (conj H3 (conj H4 (conj H5 (conj H9 H13)))).
Qed.

(** [WebLogConnector.parse_event] never reaches its [except] branch
    either: on every line it returns with nothing printed. An event it
    returns keeps the line, the method, the URL and the status in
    [details]; the status is three digits, so [int] reads it, and
    [success] is whether that number is below 400; the event type is what
    [_determine_event_type] makes of method, URL and status, one of five;
    the user name is what [_extract_user_from_url] finds in the URL; the
    source address is not empty. *)
Theorem web_parse_event_clean (raw_event : string) :
  exists oev,
    WebLog.parse_event now isoformat strptime raw_event = Ok (oev, []) /\
    forall ev,
      oev = Some ev ->
      exists ip method url status code ty details,
        ev !! "source_ip" = Some (VStr ip) /\ ip <> EmptyString /\
        ev !! "details" = Some (VDict details) /\
        details !! "raw" = Some (VStr raw_event) /\
        details !! "method" = Some (VStr method) /\
        details !! "url" = Some (VStr url) /\
        details !! "status_code" = Some (VStr status) /\
        (exists x y z,
           status = String x (String y (String z EmptyString)) /\
           is_digit x = true /\ is_digit y = true /\ is_digit z = true) /\
        int_of_str status = Ok code /\
        ev !! "success" = Some (VBool (code <? 400)) /\
        WebLog._determine_event_type method url status = Ok (Some ty) /\
        ev !! "event_type" = Some (VStr ty) /\ ty ∈ web_event_types /\
        ev !! "user_name" = Some (VStr (WebLog._extract_user_from_url url)).
Proof.
  unfold WebLog.parse_event, WebLog.parse_body.
  destruct (rmatch 9 WebLog.log_pattern raw_event) as [caps |] eqn:Hm.
  2: { exists None. split; [reflexivity |]. intros ev [=]. }
  destruct (nine_groups_status _ _ Hm)
    as (ip & a1 & method & url & a4 & status & a6 & a7 & agent & -> & Hip
        & x & y & z & Hstatus & Hx & Hy & Hz).
  destruct (int_of_three_digits x y z Hx Hy Hz) as [code Hcode].
  rewrite <- Hstatus in Hcode.
  unfold unpack9, mbind, result_bind.
  destruct (WebLog._is_static_file url || WebLog._is_bot agent).
  { exists None. split; [reflexivity |]. intros ev [=]. }
  destruct (determine_event_type_total method url status code Hcode)
    as (oty & Hdet & Hty).
  rewrite Hdet.
  destruct oty as [ty |].
  2: { exists None. split; [reflexivity |]. intros ev [=]. }
  rewrite Hcode. eexists. split; [reflexivity |].
  intros ev [= <-].
  set (details := (list_to_map [
       ("method", VStr method); ("url", VStr url);
       ("status_code", VStr status); ("user_agent", VStr agent);
       ("size", VStr a6); ("raw", VStr raw_event)] : gmap string pyval)).
  destruct (web_event_lookup
    (VStr (WebLog._parse_timestamp now isoformat strptime a1))
    (VDict details)
    (WebLog._extract_user_from_url url) ty ip (code <? 400))
    as (Hu & Ht & Hi & Hs & Hd).
  exists ip, method, url, status, code, ty, details.
  split; [exact Hi |]. split; [exact Hip |]. split; [exact Hd |].
  split; [reflexivity |]. split; [reflexivity |]. split; [reflexivity |].
  split; [reflexivity |].
  split; [exact (ex_intro _ x (ex_intro _ y (ex_intro _ z
            (conj Hstatus (conj Hx (conj Hy Hz)))))) |].
  split; [exact Hcode |]. split; [exact Hs |].
  split; [exact Hdet |]. split; [exact Ht |].
  split; [exact (Hty ty eq_refl) | exact Hu].
Qed.

End Web.

Lemma linux_parse_event_clean_witness :
  exists ev user,
    LinuxAuth.parse_event Lib.noon Lib.isoformat Lib.strptime Samples.ssh_line
    = Ok (Some ev, []) /\
    ev !! "user_name" = Some (VStr user) /\ run_of is_word user.
Proof.
  destruct (linux_parse_event_clean Lib.noon Lib.isoformat Lib.strptime
              Samples.ssh_line) as (oev & Hp & Hev).
  destruct oev as [ev |].
  - destruct (Hev ev eq_refl) as (user & Hu & Hw & _).
    exists ev, user. exact (conj Hp (conj Hu Hw)).
  - exfalso. apply (f_equal emitted) in Hp. vm_compute in Hp.
    discriminate Hp.
Defined.

Lemma web_parse_event_clean_witness :
  exists ev details,
    WebLog.parse_event Lib.noon Lib.isoformat Lib.strptime Samples.access_line
    = Ok (Some ev, []) /\
    ev !! "details" = Some (VDict details) /\
    details !! "status_code" = Some (VStr "200") /\
    ev !! "success" = Some (VBool true).
Proof.
  destruct (web_parse_event_clean Lib.noon Lib.isoformat Lib.strptime
              Samples.access_line) as (oev & Hp & Hev).
  destruct oev as [ev |].
  - destruct (Hev ev eq_refl)
      as (ip & method & url & status & code & ty & details & _ & _ & Hd & _
          & _ & _ & Hst & _ & Hcode & Hs & _).
    assert (Hstatus : status = "200").
    { assert (H : status_of (Ok (Some ev, [])) = Some (VStr "200"))
        by (rewrite <- Hp; vm_compute; reflexivity).
      unfold status_of in H. rewrite Hd, Hst in H. by injection H as ->. }
    subst status. vm_compute in Hcode. injection Hcode as <-.
    exists ev, details. exact (conj Hp (conj Hd (conj Hst Hs))).
  - exfalso. apply (f_equal emitted) in Hp. vm_compute in Hp.
    discriminate Hp.
Defined.

End ParseFacts.

(** ** The user of a sudo line *)

Module GreedyFacts.

Import Regex Shapes RegexFacts Connector ParseFacts.

Lemma star_loop_chr {R} ok (k : string -> list (option string) -> option R)
    fuel s caps :
  (String.length s < fuel)%nat ->
  star_loop (run (Chr ok)) k fuel s caps = greedy ok k s caps.
Proof.
  revert s. induction fuel as [| fuel IH]; intros s Hlt; [lia |].
  destruct s as [| c t].
  - reflexivity.
  - cbn [star_loop run greedy]. destruct (ok c); [| reflexivity].
    replace (String.length t <? String.length (String c t))%nat with true
      by (symmetry; apply Nat.ltb_lt; simpl; lia).
    rewrite IH by (simpl in Hlt; lia). reflexivity.
Qed.

Lemma run_star_chr {R} ok s caps
    (k : string -> list (option string) -> option R) :
  run (Star (Chr ok)) s caps k = greedy ok k s caps.
Proof. rewrite run_star. apply star_loop_chr. lia. Qed.

Lemma greedy_none {R} ok (k : string -> list (option string) -> option R)
    s caps :
  greedy ok k s caps = None -> k s caps = None.
Proof.
  destruct s as [| c t]; simpl; [done |].
  destruct (ok c); [| done]. by destruct (greedy ok k t caps).
Qed.

Lemma greedy_some {R} ok (k : string -> list (option string) -> option R)
    s caps x :
  greedy ok k s caps = Some x ->
  exists t s',
    s = t +:+ s' /\ all_chars ok t /\ k s' caps = Some x /\
    forall c u, s' = String c u -> ok c = true -> greedy ok k u caps = None.
Proof.
  induction s as [| c t IH]; simpl.
  - intros H. exists EmptyString, EmptyString. by repeat split.
  - destruct (ok c) eqn:Hc.
    + destruct (greedy ok k t caps) as [y |] eqn:Hg.
      * intros [= ->].
        destruct (IH eq_refl) as (t1 & s' & -> & Hall & Hk & Hmax).
        exists (String c t1), s'. by repeat split.
      * intros Hk. exists EmptyString, (String c t).
        split; [done |]. split; [done |]. split; [done |].
        intros c' u [= -> ->] _. exact Hg.
    + intros Hk. exists EmptyString, (String c t).
      split; [done |]. split; [done |]. split; [done |].
      intros c' u [= -> ->] Hc'. congruence.
Qed.

Lemma greedy_complete {R} ok
    (k : string -> list (option string) -> option R) t s' caps :
  all_chars ok t -> k s' caps <> None -> greedy ok k (t +:+ s') caps <> None.
Proof.
  induction t as [| c t IH].
  - intros _ Hk Hg. by apply greedy_none in Hg.
  - intros [Hc Hall] Hk.
    change (String c t +:+ s') with (String c (t +:+ s')).
    cbn [greedy]. rewrite Hc.
    specialize (IH Hall Hk).
    by destruct (greedy ok k (t +:+ s') caps).
Qed.

(** Whether a run fails does not depend on what the groups hold. *)
Lemma run_blind {R} (r : regex) :
  forall k k' : string -> list (option string) -> option R,
    (forall s c c', k s c = None -> k' s c' = None) ->
    forall s c c', run r s c k = None -> run r s c' k' = None.
Proof.
  induction r as [| ok | a IHa b IHb | a IHa b IHb | a IHa | i a IHa];
    intros k k' Hk s c c'.
  - apply Hk.
  - simpl. destruct s as [| ch t]; [done |].
    destruct (ok ch); [apply Hk | done].
  - simpl. apply IHa. intros s0 c0 c0'. by apply IHb.
  - simpl. destruct (run a s c k) eqn:Ha; [done |]. intros Hb.
    rewrite (IHa k k' Hk s c c' Ha). by apply (IHb k k' Hk s c c').
  - rewrite !run_star. generalize (S (String.length s)) as fuel.
    intros fuel. revert s c c'.
    induction fuel as [| fuel IH]; intros s c c'; [apply Hk |].
    cbn [star_loop].
    destruct (run a s c _) eqn:Ha; [done |]. intros Hks.
    erewrite IHa; [by apply (Hk s c c') | | exact Ha].
    intros s0 c0 c0'. simpl.
    destruct (String.length s0 <? String.length s)%nat; [apply IH | done].
  - simpl. apply IHa. intros s0 c0 c0'. apply Hk.
Qed.
Lemma run_seq {R} (a b : regex) s caps
    (k : string -> list (option string) -> option R) :
  run (Seq a b) s caps k = run a s caps (fun s' caps' => run b s' caps' k).
Proof. reflexivity. Qed.

Lemma run_chr {R} ok c t caps
    (k : string -> list (option string) -> option R) :
  run (Chr ok) (String c t) caps k = if ok c then k t caps else None.
Proof. reflexivity. Qed.

Lemma group_ok_any (r : regex) : group_ok (fun _ _ => True) r.
Proof. induction r; simpl; auto. Qed.

(** A run that succeeds reaches its continuation, with as many groups. *)
Lemma run_reaches {R} (r : regex) s caps
    (k : string -> list (option string) -> option R) x :
  run r s caps k = Some x ->
  exists s' caps', k s' caps' = Some x /\ length caps' = length caps.
Proof.
  intros H.
  apply (run_sound (fun _ _ => True) r (group_ok_any r)) in H
    as (t & s' & caps' & _ & _ & H & Hlen & _).
  by exists s', caps'.
Qed.

Lemma is_word_dot c : is_word c = true -> negb (Ascii.eqb c "010") = true.
Proof.
  destruct (Ascii.eqb_spec c "010") as [-> | _]; [| done].
  vm_compute. done.
Qed.


Lemma sudo_pattern_eq :
  LinuxAuth.sudo_pattern
  = Seq LinuxAuth.stamp
      (Seq (Star dot)
         (Seq (lit "sudo")
            (Seq (Star dot) (Seq (Group 1 (plus w)) sudo_rest)))).
Proof. reflexivity. Qed.

(** The greedy [.*] before [(\w+)] leaves that group one character. *)
Lemma sudo_rmatch_user s caps :
  rmatch 3 LinuxAuth.sudo_pattern s = Some caps ->
  exists c,
    is_word c = true /\ caps !! 1%nat = Some (Some (String c EmptyString)).
Proof.
  unfold rmatch. rewrite sudo_pattern_eq. intros H.
  rewrite run_seq in H.
  apply run_reaches in H as (s1 & c1 & H & Hl1). cbv beta in H.
  rewrite run_seq in H.
  apply run_reaches in H as (s2 & c2 & H & Hl2). cbv beta in H.
  rewrite run_seq in H.
  apply run_reaches in H as (s3 & c3 & H & Hl3). cbv beta in H.
  rewrite length_replicate in Hl1.
  assert (Hlen : length c3 = 3%nat) by congruence.
  clear s s1 s2 c1 c2 Hl1 Hl2 Hl3.
  rewrite run_seq in H. unfold dot in H at 1. rewrite run_star_chr in H.
  apply greedy_some in H as (t & s' & -> & _ & HK & Hmax).
  rewrite run_seq in HK. unfold plus, w in HK.
  change (run (Group 1 ?a) ?s ?c ?k)
    with (run a s c (fun s0 c0 => k s0 (<[1%nat := Some (consumed s s0)]> c0)))
    in HK.
  rewrite run_seq in HK.
  destruct s' as [| c1 u]; [discriminate HK |].
  rewrite run_chr in HK.
  destruct (is_word c1) eqn:Hw; [| discriminate HK].
  rewrite run_star_chr in HK.
  apply greedy_some in HK as (t2 & s2 & -> & Hall2 & Hk2 & _).
  change (String c1 (t2 +:+ s2)) with (String c1 t2 +:+ s2) in Hk2.
  rewrite consumed_append in Hk2.
  specialize (Hmax c1 (t2 +:+ s2) eq_refl (is_word_dot c1 Hw)).
  apply greedy_none in Hmax.
  destruct t2 as [| c2 t2].
  - exists c1. split; [exact Hw |].
    pose (Inv := fun (i : nat) (v : string) =>
                   i = 1%nat -> v = String c1 EmptyString).
    assert (Hok : group_ok Inv sudo_rest).
    { unfold sudo_rest. simpl. repeat split. intros v _ [=]. }
    apply (run_sound Inv sudo_rest Hok) in Hk2
      as (_ & _ & caps' & _ & _ & [= ->] & _ & Hkeep & _).
    destruct (Hkeep 1%nat) as (v & Hv & Hi).
    { exists (String c1 EmptyString). split; [| done].
      apply list_lookup_insert_eq. lia. }
    by rewrite Hv, (Hi eq_refl).
  - exfalso. destruct Hall2 as [Hc2 Hall2].
    change (String c2 t2 +:+ s2) with (String c2 (t2 +:+ s2)) in Hmax.
    rewrite run_seq in Hmax. unfold plus, w in Hmax.
    change (run (Group 1 ?a) ?s ?c ?k)
      with (run a s c
              (fun s0 c0 => k s0 (<[1%nat := Some (consumed s s0)]> c0)))
      in Hmax.
    rewrite run_seq, run_chr, Hc2, run_star_chr in Hmax.
    revert Hmax. apply greedy_complete; [exact Hall2 |].
    intros Hnone.
    eapply (run_blind sudo_rest) in Hnone; [by erewrite Hk2 in Hnone |].
    intros ? ? ? [=].
Qed.
Section Sudo.

Variable now : datetime.
Variable isoformat : datetime -> string.
Variable strptime : string -> string -> result datetime.

(** The user name of every sudo event [LinuxAuthConnector.parse_event]
    returns is a single word character: the [.*] before [(\w+)] in the
    sudo pattern is greedy and leaves the group the least it can take. *)
Theorem sudo_user_is_one_character (raw_event : string)
    (ev : gmap string pyval) (printed : list string) :
  LinuxAuth.parse_event now isoformat strptime raw_event
  = Ok (Some ev, printed) ->
  ev !! "event_type" = Some (VStr "command") ->
  exists c,
    is_word c = true /\
    ev !! "user_name" = Some (VStr (String c EmptyString)).
Proof.
  unfold LinuxAuth.parse_event, LinuxAuth.parse_body.
  destruct (search 3 LinuxAuth.ssh_login_pattern raw_event) as [caps |] eqn:H1.
  { destruct (three_groups ssh_inv _ _ _ ssh_login_ok eq_refl H1)
      as (a & b & c & -> & _).
    rewrite ssh_event_fields. intros [= <- _] Hty.
    destruct (ssh_event_lookup now isoformat
      (VStr (LinuxAuth._parse_timestamp now isoformat strptime a))
      (VDict (list_to_map [("method", VStr "ssh"); ("raw", VStr raw_event)]))
      b c true) as (_ & Hlogin & _).
    discriminate (eq_trans (eq_sym Hlogin) Hty). }
  destruct (search 3 LinuxAuth.ssh_failed_pattern raw_event) as [caps |] eqn:H2.
  { destruct (three_groups ssh_inv _ _ _ ssh_failed_ok eq_refl H2)
      as (a & b & c & -> & _).
    rewrite ssh_event_fields. intros [= <- _] Hty.
    destruct (ssh_event_lookup now isoformat
      (VStr (LinuxAuth._parse_timestamp now isoformat strptime a))
      (VDict (list_to_map [("method", VStr "ssh"); ("raw", VStr raw_event)]))
      b c false) as (_ & Hlogin & _).
    discriminate (eq_trans (eq_sym Hlogin) Hty). }
  destruct (search 3 LinuxAuth.sudo_pattern raw_event) as [caps |] eqn:H3.
  2: { intros [=]. }
  destruct (three_groups sudo_inv _ _ _ sudo_ok eq_refl H3)
    as (a & b & c & -> & _).
  apply search_rmatch in H3 as (s0 & H3).
  apply sudo_rmatch_user in H3 as (ch & Hch & [= ->]).
  intros [= <- _] _.
  destruct (sudo_event_lookup now isoformat
    (VStr (LinuxAuth._parse_timestamp now isoformat strptime a))
    (VDict (list_to_map [("command", VStr (strip c));
                         ("raw", VStr raw_event)]))
    (String ch EmptyString)) as (Hu & _).
  exists ch. exact (conj Hch Hu).
Qed.

End Sudo.

Lemma sudo_user_is_one_character_witness :
  exists ev printed c,
    LinuxAuth.parse_event Lib.noon Lib.isoformat Lib.strptime Samples.sudo_entry
    = Ok (Some ev, printed) /\
    is_word c = true /\
    ev !! "user_name" = Some (VStr (String c EmptyString)).
Proof.
  destruct (LinuxAuth.parse_event Lib.noon Lib.isoformat Lib.strptime
              Samples.sudo_entry) as [[[ev |] printed] | e] eqn:Hp.
  - assert (Hty : ev !! "event_type" = Some (VStr "command")).
    { apply (f_equal emitted_type) in Hp. vm_compute in Hp.
      symmetry. exact Hp. }
    destruct (sudo_user_is_one_character Lib.noon Lib.isoformat Lib.strptime
                Samples.sudo_entry ev printed Hp Hty) as (c & Hc & Hu).
    exists ev, printed, c. exact (conj eq_refl (conj Hc Hu)).
  - exfalso. apply (f_equal emitted) in Hp. vm_compute in Hp.
    discriminate Hp.
  - exfalso. apply (f_equal emitted) in Hp. vm_compute in Hp.
    discriminate Hp.
Defined.

End GreedyFacts.

(** ** The manager *)

Module ManagerFacts.

Import Regex Shapes RegexFacts Connector ConnectorProps ParseFacts Manager.

Section Run.

Variable now : datetime.
Variable isoformat : datetime -> string.
Variable strptime : string -> string -> result datetime.
Variable fs : gmap string file.

Lemma linux_parse_body_returns raw_event :
  exists oev, LinuxAuth.parse_body now isoformat strptime raw_event = Ok oev.
Proof.
  unfold LinuxAuth.parse_body.
  destruct (search 3 LinuxAuth.ssh_login_pattern raw_event) as [caps |] eqn:H1.
  { destruct (three_groups ssh_inv _ _ _ ssh_login_ok eq_refl H1)
      as (a & b & c & -> & _). by eexists. }
  destruct (search 3 LinuxAuth.ssh_failed_pattern raw_event) as [caps |] eqn:H2.
  { destruct (three_groups ssh_inv _ _ _ ssh_failed_ok eq_refl H2)
      as (a & b & c & -> & _). by eexists. }
  destruct (search 3 LinuxAuth.sudo_pattern raw_event) as [caps |] eqn:H3.
  { destruct (three_groups sudo_inv _ _ _ sudo_ok eq_refl H3)
      as (a & b & c & -> & _). by eexists. }
  by eexists.
Qed.

Lemma web_parse_body_returns raw_event :
  exists oev, WebLog.parse_body now isoformat strptime raw_event = Ok oev.
Proof.
  unfold WebLog.parse_body.
  destruct (rmatch 9 WebLog.log_pattern raw_event) as [caps |] eqn:Hm;
    [| by eexists].
  destruct (nine_groups _ _ Hm)
    as (ip & a1 & method & url & a4 & status & a6 & a7 & agent & -> & Hip
        & code & Hcode).
  unfold unpack9, mbind, result_bind.
  destruct (WebLog._is_static_file url || WebLog._is_bot agent);
    [by eexists |].
  destruct (determine_event_type_total now isoformat strptime method url
              status code Hcode)
    as (oty & -> & _).
  destruct oty as [ty |]; [| by eexists].
  rewrite Hcode. by eexists.
Qed.

Lemma linux_event_source raw_event ev :
  LinuxAuth.parse_body now isoformat strptime raw_event = Ok (Some ev) ->
  exists d, ev = standardize_event now isoformat LinuxAuth.class_name d /\
            d !! "user_id" = None.
Proof.
  unfold LinuxAuth.parse_body, LinuxAuth.ssh_event, LinuxAuth.sudo_event,
    mbind, result_bind.
  repeat case_match; try done; intros [= <-]; by eexists.
Qed.

Lemma web_event_source raw_event ev :
  WebLog.parse_body now isoformat strptime raw_event = Ok (Some ev) ->
  exists d, ev = standardize_event now isoformat WebLog.class_name d /\
            d !! "user_id" = None.
Proof.
  unfold WebLog.parse_body, mbind, result_bind.
  repeat case_match; try done; intros [= <-]; by eexists.
Qed.

(** Both parsers return on every record, print nothing, and what they
    return is a normalized event of their class. *)
Lemma parse_event_returns (c : connector_class) raw_event :
  exists oev,
    parse_event now isoformat strptime c raw_event = Ok (oev, []) /\
    forall ev, oev = Some ev ->
      exists d, ev = standardize_event now isoformat (class_name_of c) d /\
                d !! "user_id" = None.
Proof.
  destruct c; simpl.
  - unfold LinuxAuth.parse_event.
    destruct (linux_parse_body_returns raw_event) as [oev H].
    exists oev. rewrite H. split; [done |].
    intros ev ->. by apply (linux_event_source raw_event).
  - unfold WebLog.parse_event.
    destruct (web_parse_body_returns raw_event) as [oev H].
    exists oev. rewrite H. split; [done |].
    intros ev ->. by apply (web_event_source raw_event).
Qed.
Lemma standardized_nonempty class_name (d : gmap string pyval) :
  (0 <? base.size (standardize_event now isoformat class_name d))%nat = true.
Proof.
  apply Nat.ltb_lt.
  destruct (standardize_event_lookup now isoformat class_name d)
    as (Hts & _).
  assert (base.size (standardize_event now isoformat class_name d) <> 0%nat);
    [| lia].
  intros H%map_size_empty_iff. rewrite H in Hts. by rewrite lookup_empty in Hts.
Qed.

#[local] Abbreviation tag := (tagged now isoformat strptime).

Lemma collect_lines_run name c lines acc :
  collect_lines now isoformat strptime name c lines acc
  = (mkCollected (all_events acc ++ omap (tag name c) lines)
       (events_found acc + length (omap (tag name c) lines))
       (printed acc),
     None).
Proof.
  revert acc. induction lines as [| raw rest IH]; intros acc.
  - destruct acc. simpl. by rewrite app_nil_r, Nat.add_0_r.
  - destruct (parse_event_returns c raw) as (oev & Hp & Hev).
    cbn [collect_lines omap list_omap]. rewrite Hp.
    destruct oev as [ev |].
    + assert (Htag : tag name c raw
                     = Some (<["source_connector" := VStr name]> ev))
        by (unfold tagged; by rewrite Hp).
      destruct (Hev ev eq_refl) as (d & -> & _).
      rewrite Htag, standardized_nonempty, IH. simpl.
      rewrite app_nil_r, <- app_assoc. simpl.
      by rewrite Nat.add_succ_r.
    + assert (Htag : tag name c raw = None)
        by (unfold tagged; by rewrite Hp).
      rewrite Htag, IH. simpl. by rewrite app_nil_r.
Qed.

Lemma collect_files_run name c files positions acc :
  collect_files now isoformat strptime fs name c files positions acc
  = (mkCollected
       (all_events acc
        ++ omap (tag name c) (fetch_files fs positions files).1.1)
       (events_found acc
        + length (omap (tag name c) (fetch_files fs positions files).1.1))
       (printed acc ++ (fetch_files fs positions files).1.2),
     (fetch_files fs positions files).2,
     None).
Proof.
  revert positions acc. induction files as [| f rest IH]; intros positions acc.
  - destruct acc. simpl. by rewrite !app_nil_r, Nat.add_0_r.
  - rewrite fetch_files_cons. cbn [collect_files].
    destruct (fetch_file fs positions f) as [[yielded out] positions'].
    rewrite collect_lines_run, IH. simpl.
    rewrite omap_app, length_app, <- !app_assoc.
    by rewrite Nat.add_assoc.
Qed.
#[local] Abbreviation events := (events_of now isoformat strptime fs).
#[local] Abbreviation said := (report now isoformat strptime fs).

Lemma fetch_events_parts st :
  fetch_events fs st
  = ((fetch_files fs (last_positions st) (log_files st)).1.1,
     (fetch_files fs (last_positions st) (log_files st)).1.2,
     mkTail (log_files st)
       (fetch_files fs (last_positions st) (log_files st)).2).
Proof.
  unfold fetch_events.
  by destruct (fetch_files fs (last_positions st) (log_files st)) as [[y p] m].
Qed.

Lemma collect_connector_run item evs out :
  collect_connector now isoformat strptime fs item evs out
  = (advance fs item, evs ++ events item, out ++ said item).
Proof.
  destruct item as [name con].
  unfold collect_connector, advance, events_of, report, events_of.
  rewrite collect_files_run, fetch_events_parts. simpl.
  by rewrite <- app_assoc.
Qed.

Lemma collect_connectors_run items evs out :
  collect_connectors now isoformat strptime fs items evs out
  = (advance fs <$> items,
     evs ++ concat (events <$> items),
     out ++ concat (said <$> items)).
Proof.
  revert evs out. induction items as [| item rest IH]; intros evs out.
  - simpl. by rewrite !app_nil_r.
  - cbn [collect_connectors]. rewrite collect_connector_run, IH. simpl.
    by rewrite <- !app_assoc.
Qed.

Lemma tagged_fields name c raw ev :
  tag name c raw = Some ev ->
  ev !! "source_connector" = Some (VStr name) /\
  ev !! "source" = Some (VStr (class_name_of c)) /\
  ev !! "user_id" = Some VNone.
Proof.
  unfold tagged.
  destruct (parse_event_returns c raw) as (oev & -> & Hev).
  destruct oev as [e |]; [| done]. intros [= <-].
  destruct (Hev e eq_refl) as (d & -> & Hd).
  destruct (standardize_event_lookup now isoformat (class_name_of c) d)
    as (_ & Hid & _ & _ & _ & _ & _ & _ & _ & _ & _ & _ & _ & Hsrc).
  split; [by rewrite lookup_insert_eq |].
  rewrite !lookup_insert_ne by done.
  split; [exact Hsrc |]. rewrite Hid. unfold dict_get. by rewrite Hd.
Qed.

Lemma elem_of_concat {A} (x : A) (ls : list (list A)) :
  x ∈ concat ls -> exists l, l ∈ ls /\ x ∈ l.
Proof.
  induction ls as [| l ls IH]; simpl.
  - by intros ?%not_elem_of_nil.
  - intros [H | H]%elem_of_app.
    + exists l. split; [by left | done].
    + destruct (IH H) as (l' & ? & ?). exists l'. split; [by right | done].
Qed.

Lemma collect_recent_events_run (m : manager) :
  collect_recent_events now isoformat strptime fs m
  = (mkManager (advance fs <$> connectors m) (is_running m),
     concat (events <$> connectors m),
     concat (said <$> connectors m)).
Proof. unfold collect_recent_events. by rewrite collect_connectors_run. Qed.

(** [collect_recent_events] never enters its [except] branch: it runs
    the [fetch_events] of every connector to the end, in the order the
    connectors were added, and returns the event of every record that
    parses, in the order read. Each event names the connector it came
    from in [source_connector] and that connector's class in [source],
    and has no [user_id]. *)
Theorem collect_recent_events_tagged (m : manager) :
  collect_recent_events now isoformat strptime fs m
  = (mkManager (advance fs <$> connectors m) (is_running m),
     concat (events <$> connectors m),
     concat (said <$> connectors m)) /\
  forall ev,
    ev ∈ concat (events <$> connectors m) ->
    exists name con,
      (name, con) ∈ connectors m /\
      ev !! "source_connector" = Some (VStr name) /\
      ev !! "source" = Some (VStr (class_name_of (cls con))) /\
      ev !! "user_id" = Some VNone.
Proof.
  split.
  - apply collect_recent_events_run.
  - intros ev (l & (item & -> & Hitem)%list_elem_of_fmap & Hev)%elem_of_concat.
    destruct item as [name con]. exists name, con. split; [exact Hitem |].
    unfold events_of in Hev.
    apply list_elem_of_omap in Hev as (raw & _ & Htag).
    by apply (tagged_fields name (cls con) raw).
Qed.
(** *** When the logs have not grown *)

Lemma fetch_events_settled st :
  exists p,
    fetch_events fs (fetch_events fs st).2 = ([], p, (fetch_events fs st).2).
Proof.
  rewrite (fetch_events_parts st). simpl.
  set (m := (fetch_files fs (last_positions st) (log_files st)).2).
  destruct (fetch_files_idle_quiet fs m (log_files st)) as [p Hp].
  { intros f Hf. by apply fetch_files_all_idle. }
  exists p. rewrite fetch_events_parts. simpl. by rewrite Hp.
Qed.

Lemma connect_settled st :
  fetch_events fs (connect fs st).2 = ([], [], (connect fs st).2).
Proof.
  unfold connect. simpl. rewrite fetch_events_parts. simpl.
  rewrite ConnectorFacts.fetch_files_at_size; [done |].
  intros f Hf. unfold offset.
  by rewrite ConnectorFacts.connect_positions, bool_decide_eq_true_2.
Qed.

Lemma settled_collect (items : list (string * connector)) :
  Forall (settled fs) items ->
  advance fs <$> items = items /\ concat (events <$> items) = [].
Proof.
  induction 1 as [| [name con] rest [p Hp] _ [IH1 IH2]]; [done |].
  rewrite !fmap_cons. cbn [concat]. rewrite IH1, IH2.
  unfold advance, events_of. simpl in *. rewrite Hp. simpl. by destruct con.
Qed.

Lemma collect_settles (m : manager) :
  Forall (settled fs)
    (connectors (collect_recent_events now isoformat strptime fs m).1.1).
Proof.
  rewrite collect_recent_events_run. simpl.
  apply Forall_fmap, Forall_true. intros [name con]. apply fetch_events_settled.
Qed.

Lemma start_settles (m : manager) :
  Forall (settled fs) (connectors (start_all_connectors fs m).1).
Proof.
  unfold start_all_connectors. simpl. rewrite <- list_fmap_compose.
  apply Forall_fmap, Forall_true. intros [name con].
  exists []. exact (connect_settled (tail con)).
Qed.

(** With the monitored files unchanged, a manager that has just started
    its connectors, or has just collected, collects nothing and is left
    as it is; what [export_events] then writes is the one row the code
    makes up. *)
Theorem nothing_new_nothing_collected (m m1 : manager) (filename : string) :
  m1 = (collect_recent_events now isoformat strptime fs m).1.1 \/
  m1 = (start_all_connectors fs m).1 ->
  (collect_recent_events now isoformat strptime fs m1).1 = (m1, []) /\
  (export_events now isoformat strptime fs m1 filename).1
  = (m1, [sample_event now isoformat]).
Proof.
  intros Hm1.
  assert (Hs : Forall (settled fs) (connectors m1)).
  { destruct Hm1 as [-> | ->]; [apply collect_settles | apply start_settles]. }
  destruct (settled_collect _ Hs) as [Hadv Hevs].
  pose proof (collect_recent_events_run m1) as Hrun.
  rewrite Hadv, Hevs in Hrun.
  unfold export_events. rewrite Hrun. simpl. by destruct m1.
Qed.
End Run.

Lemma collect_recent_events_tagged_witness :
  exists ev,
    ev ∈ (collect_recent_events Lib.noon Lib.isoformat Lib.strptime
            Samples.ssh_log create_data_manager.1).1.2 /\
    ev !! "source_connector" = Some (VStr "linux_auth") /\
    ev !! "source" = Some (VStr "LinuxAuthConnector").
Proof.
  destruct (collect_recent_events_tagged Lib.noon Lib.isoformat Lib.strptime
              Samples.ssh_log create_data_manager.1) as [Heq Htag].
  rewrite Heq. cbn [fst snd].
  destruct (concat (events_of Lib.noon Lib.isoformat Lib.strptime
                      Samples.ssh_log
                      <$> connectors create_data_manager.1))
    as [| ev rest] eqn:He.
  - exfalso. apply (f_equal length) in He. vm_compute in He. discriminate He.
  - destruct (Htag ev) as (name & con & Hin & Hsc & Hsrc & _); [by left |].
    apply list_elem_of_singleton in Hin. injection Hin as -> ->.
    exists ev. split; [by left |]. exact (conj Hsc Hsrc).
Defined.

Lemma nothing_new_nothing_collected_witness :
  let m1 := (start_all_connectors Samples.ssh_log create_data_manager.1).1 in
  (collect_recent_events Lib.noon Lib.isoformat Lib.strptime
     Samples.ssh_log m1).1
  = (m1, []) /\
  (export_events Lib.noon Lib.isoformat Lib.strptime Samples.ssh_log m1
     "data/real_events.csv").1
  = (m1, [sample_event Lib.noon Lib.isoformat]).
Proof.
  intros m1.
  apply (nothing_new_nothing_collected Lib.noon Lib.isoformat Lib.strptime
           Samples.ssh_log create_data_manager.1 m1 "data/real_events.csv").
  right. reflexivity.
Defined.

(** Two lines of an auth log, read by a manager that was not started:
    both are collected. *)
Example collect_two_lines :
  length (collect_recent_events Lib.noon Lib.isoformat Lib.strptime
            Samples.ssh_log create_data_manager.1).1.2 = 2%nat /\
  (collect_recent_events Lib.noon Lib.isoformat Lib.strptime
     Samples.ssh_log create_data_manager.1).2
  = ["Collected 2 events from linux_auth"].
Proof. split; vm_compute; reflexivity. Qed.

End ManagerFacts.

(** ** The dashboard *)

Module DashboardFacts.

Import Detector DetectorProps Dashboard Shapes.

Lemma scored_level (r : analysis) :
  scored r ->
  alert_level r <> LOW /\
  is_suspicious r
  = level_is HIGH (alert_level r) || level_is MEDIUM (alert_level r).
Proof.
  intros (-> & -> & n & ->).
  destruct n as [| [| n]]; [by vm_compute | by vm_compute |].
  assert (H : (0.8 <= overall_score (S (S n)))%Q).
  { change 0.8%Q with (overall_score 2).
    apply overall_score_mono. lia. }
  assert (H6 : Qle_bool 0.6 (overall_score (S (S n))) = true)
    by (apply Qle_bool_iff; lra).
  assert (H4 : Qle_bool 0.4 (overall_score (S (S n))) = true)
    by (apply Qle_bool_iff; lra).
  unfold level_of. by rewrite H6, H4.
Qed.
Lemma length_filter_cons {A} (f : A -> bool) (x : A) (l : list A) :
  length (filter (fun a => f a = true) (x :: l))
  = ((if f x then 1 else 0)
     + length (filter (fun a => f a = true) l))%nat.
Proof.
  rewrite filter_cons. destruct (decide (f x = true)) as [-> | H]; [done |].
  by destruct (f x).
Qed.

Lemma filter_all {A} (f : A -> bool) (l : list A) :
  Forall (fun a => f a = true) l -> filter (fun a => f a = true) l = l.
Proof.
  induction 1 as [| x t Hx _ IH]; [done |].
  rewrite filter_cons. destruct (decide (f x = true)); [by rewrite IH | done].
Qed.

Lemma with_level_cons l r rs :
  with_level l (r :: rs)
  = ((if level_is l (alert_level r) then 1 else 0) + with_level l rs)%nat.
Proof. apply (length_filter_cons (fun r => level_is l (alert_level r))). Qed.

Lemma with_level_total (results : list analysis) :
  (with_level HIGH results + with_level MEDIUM results
   + with_level LOW results + with_level NORMAL results)%nat
  = length results.
Proof.
  induction results as [| r rs IH]; [done |].
  rewrite !with_level_cons. simpl. rewrite <- IH.
  destruct (alert_level r); simpl; lia.
Qed.

(** Among results that [analyze_event] made, none is LOW and the
    suspicious ones are the HIGH and the MEDIUM ones. *)
Lemma scored_counts (results : list analysis) :
  Forall scored results ->
  with_level LOW results = 0%nat /\
  length (filter (fun r => is_suspicious r = true) results)
  = (with_level HIGH results + with_level MEDIUM results)%nat.
Proof.
  induction 1 as [| r rs Hr _ [IH1 IH2]]; [done |].
  destruct (scored_level r Hr) as [Hlow Hs].
  rewrite !with_level_cons, length_filter_cons, IH1, IH2, Hs.
  destruct (alert_level r); simpl; try done; lia.
Qed.

Lemma count_alert_levels (results : list analysis) (counts : level_counts) :
  let counts' :=
    foldl (fun counts r => count_alert counts (alert_level r)) counts results in
  high counts' = (high counts + with_level HIGH results)%nat /\
  medium counts' = (medium counts + with_level MEDIUM results)%nat /\
  low counts' = (low counts + with_level LOW results)%nat /\
  normal counts' = (normal counts + with_level NORMAL results)%nat.
Proof.
  revert counts. induction results as [| r rs IH]; intros counts; simpl.
  - unfold with_level. simpl. lia.
  - destruct (IH (count_alert counts (alert_level r))) as (H1 & H2 & H3 & H4).
    rewrite H1, H2, H3, H4, !with_level_cons.
    destruct (alert_level r); simpl; lia.
Qed.

Lemma bump_totals user_name flag user_stats :
  totals (bump user_name flag user_stats) = S (totals user_stats) /\
  suspicious_totals (bump user_name flag user_stats)
  = ((if flag then 1 else 0) + suspicious_totals user_stats)%nat.
Proof.
  induction user_stats as [| [k st] rest [IH1 IH2]]; simpl.
  - by destruct flag.
  - destruct (key_eq k user_name); simpl.
    + destruct flag; simpl; lia.
    + rewrite IH1, IH2. lia.
Qed.

Lemma hashable_safe_value v dflt :
  hashable v = true -> hashable dflt = true ->
  hashable (safe_value v dflt) = true.
Proof. by destruct v. Qed.

Lemma user_statistics_totals (results : list analysis) user_stats :
  Forall (fun r => hashable (dict_get (event r) "user_name") = true) results ->
  exists user_stats',
    user_statistics results user_stats = Ok user_stats' /\
    totals user_stats' = (totals user_stats + length results)%nat /\
    suspicious_totals user_stats'
    = (suspicious_totals user_stats
       + length (filter (fun r => is_suspicious r = true) results))%nat.
Proof.
  intros H. revert user_stats.
  induction H as [| r rs Hr _ IH]; intros user_stats.
  - exists user_stats. simpl. split; [done |]. split; lia.
  - cbn [user_statistics]. rewrite (hashable_safe_value _ (VStr "Unknown") Hr eq_refl).
    destruct (IH (bump
                (safe_value (dict_get (event r) "user_name") (VStr "Unknown"))
                (is_suspicious r) user_stats)) as (u & Hu & Ht & Hs).
    destruct (bump_totals
                (safe_value (dict_get (event r) "user_name") (VStr "Unknown"))
                (is_suspicious r) user_stats) as [Hb1 Hb2].
    exists u. split; [exact Hu |]. rewrite Ht, Hs, Hb1, Hb2, length_filter_cons.
    simpl. split; lia.
Qed.

(** *** The sort *)

Lemma insert_by_score_perm x l : insert_by_score x l ≡ₚ x :: l.
Proof.
  induction l as [| y t IH]; simpl; [done |].
  destruct (Qle_bool _ _); [done |]. rewrite IH. apply Permutation_swap.
Qed.

Lemma sort_by_score_perm l : sort_by_score l ≡ₚ l.
Proof.
  induction l as [| x t IH]; simpl; [done |].
  by rewrite insert_by_score_perm, IH.
Qed.

Lemma insert_by_score_falling x l :
  falling l -> falling (insert_by_score x l).
Proof.
  induction l as [| y t IH]; simpl; [done |]. intros [Hy Ht].
  destruct (Qle_bool (overall_risk_score y) (overall_risk_score x)) eqn:Hle.
  - apply Qle_bool_iff in Hle. simpl. split; [| done].
    constructor; [exact Hle |].
    eapply Forall_impl; [exact Hy |]. intros z Hz. unfold descending in *.
    by apply (Qle_trans _ (overall_risk_score y)).
  - apply Qle_bool_false in Hle. simpl. split; [| by apply IH].
    rewrite insert_by_score_perm. constructor; [| exact Hy].
    unfold descending. by apply Qlt_le_weak.
Qed.

Lemma sort_by_score_falling l : falling (sort_by_score l).
Proof.
  induction l as [| x t IH]; simpl; [done |].
  by apply insert_by_score_falling.
Qed.

Lemma with_level_perm l (xs ys : list analysis) :
  xs ≡ₚ ys -> with_level l xs = with_level l ys.
Proof. intros H. unfold with_level. by rewrite H. Qed.

Lemma with_level_none l (xs : list analysis) :
  Forall (fun r => level_is l (alert_level r) = false) xs ->
  with_level l xs = 0%nat.
Proof.
  induction 1 as [| r rs Hr _ IH]; [done |].
  by rewrite with_level_cons, Hr, IH.
Qed.

Lemma high_is_monotone (x y : analysis) :
  scored x -> scored y -> descending x y ->
  level_is HIGH (alert_level x) = false ->
  level_is HIGH (alert_level y) = false.
Proof.
  intros (Hx & _) (Hy & _) Hle. rewrite Hx, Hy. unfold descending in Hle.
  destruct (level_of_spec (overall_risk_score x)) as (Hhx & _).
  destruct (level_of_spec (overall_risk_score y)) as (Hhy & _).
  destruct (level_of (overall_risk_score y)) eqn:Hl; try done.
  assert (0.6 <= overall_risk_score x)%Q
    by (apply (Qle_trans _ (overall_risk_score y)); [by apply Hhy | exact Hle]).
  intros Hnot. by rewrite (proj2 Hhx) in Hnot.
Qed.

(** In a list sorted by falling score the HIGH results come first, so a
    prefix holds as many of them as it has room for. *)
Lemma with_level_high_take (n : nat) (xs : list analysis) :
  falling xs -> Forall scored xs ->
  with_level HIGH (take n xs) = (n `min` with_level HIGH xs)%nat.
Proof.
  revert n. induction xs as [| x t IH]; intros n Hsorted Hscored.
  - by destruct n.
  - destruct Hsorted as [Hx Ht].
    apply Forall_cons in Hscored as [Hsx Hst].
    destruct n as [| n]; [done |].
    cbn [take]. rewrite !with_level_cons, IH by done.
    destruct (level_is HIGH (alert_level x)) eqn:Hhigh; simpl; [lia |].
    rewrite (with_level_none HIGH t); [lia |].
    rewrite Forall_forall in Hx, Hst. apply Forall_forall. intros y Hy.
    by apply (high_is_monotone x y); auto.
Qed.

Lemma count_level_imap l (g : nat -> analysis -> Alert.t) (xs : list analysis) :
  (forall i r, Alert.alert_level (g i r) = alert_level r) ->
  count_level l (imap g xs) = with_level l xs.
Proof.
  revert g. induction xs as [| r rs IH]; intros g Hg; [done |].
  cbn [imap]. unfold count_level. rewrite with_level_cons.
  rewrite (length_filter_cons (fun a => level_is l (Alert.alert_level a))).
  rewrite Hg. f_equal. apply IH. intros i r'. apply Hg.
Qed.

Lemma with_level_suspicious l (xs : list analysis) :
  Forall scored xs -> l = HIGH \/ l = MEDIUM ->
  with_level l (filter (fun r => is_suspicious r = true) xs) = with_level l xs.
Proof.
  intros H Hl. induction H as [| r rs Hr _ IH]; [done |].
  destruct (scored_level r Hr) as [_ Hs].
  rewrite filter_cons, with_level_cons.
  destruct (decide (is_suspicious r = true)) as [Hyes | Hno].
  - by rewrite with_level_cons, IH.
  - rewrite IH. apply not_true_is_false in Hno. rewrite Hs in Hno.
    apply orb_false_elim in Hno as [H1 H2].
    destruct Hl as [-> | ->]; by rewrite ?H1, ?H2.
Qed.

Section Batch.

Variable fromisoformat : string -> result datetime.
Variable to_datetime : string -> result datetime.
Variable str_other : pyval -> string.
Variable user_profiles : gmap Z profile.
Variable round2 : Q -> Q.
Variable percentage : nat -> nat -> Q.
Variable now : string.

Lemma analyze_all_scored (clock : nat -> string) (k : nat)
    (events : list (gmap string pyval)) (results : list analysis) :
  Batch.analyze_all fromisoformat to_datetime str_other user_profiles
    clock k events = Ok results ->
  Forall2 (fun ev r => event r = ev /\ scored r) events results.
Proof.
  revert k results. induction events as [| ev rest IH]; simpl; intros k results.
  - intros [= <-]. constructor.
  - unfold mbind, result_bind.
    destruct (analyze_event _ _ _ _ (clock k) ev) as [r |] eqn:Hr; [| done].
    destruct (Batch.analyze_all _ _ _ _ clock (S k) rest) as [rs |] eqn:Hrs;
      [| done].
    intros [= <-]. constructor; [| by apply (IH (S k))].
    destruct (analyze_event_inv _ _ _ _ _ _ _ Hr) as (_ & He & Hs & Hl & Hb & _).
    split; [exact He |]. split; [exact Hl |]. split; [exact Hb |]. by eexists.
Qed.

(** The counters of [get_stats] over what [batch_analyze] returned, when
    no [user_name] of the batch is a dict: the request is answered, LOW
    counts nothing, the suspicious events are the HIGH and the MEDIUM
    ones, the three other levels add up to the total, and so do the
    per-user counts. *)
Theorem get_stats_counts (clock : nat -> string)
    (events : list (gmap string pyval)) (results : list analysis) :
  Batch.analyze_all fromisoformat to_datetime str_other user_profiles
    clock 0 events = Ok results ->
  events <> [] ->
  Forall (fun ev => hashable (dict_get ev "user_name") = true) events ->
  exists st,
    get_stats percentage now results = Stats st /\
    total_events st = length events /\
    low (alert_levels st) = 0%nat /\
    suspicious_events st
    = (high (alert_levels st) + medium (alert_levels st))%nat /\
    (high (alert_levels st) + medium (alert_levels st)
     + normal (alert_levels st))%nat = total_events st /\
    totals (user_stats st) = total_events st /\
    suspicious_totals (user_stats st) = suspicious_events st.
Proof.
  intros Hrun Hne Hhash.
  pose proof (analyze_all_scored clock 0 events results Hrun) as Hall.
  assert (Hlen : length results = length events)
    by (symmetry; by eapply Forall2_length).
  assert (Hscored : Forall scored results).
  { eapply Forall2_Forall_r; [exact Hall |].
    apply Forall_true. by intros ev r [_ ?]. }
  assert (Hkeys : Forall (fun r => hashable (dict_get (event r) "user_name")
                                   = true) results).
  { clear -Hall Hhash. induction Hall as [| ev r evs rs [<- _] _ IH];
      [constructor |].
    apply Forall_cons in Hhash as [? ?]. constructor; [done | by apply IH]. }
  destruct (user_statistics_totals results [] Hkeys) as (u & Hu & Ht & Hs).
  destruct (scored_counts results Hscored) as [Hlow Hsusp].
  destruct (count_alert_levels results (mkLevels 0 0 0 0))
    as (H1 & H2 & H3 & H4).
  pose proof (with_level_total results) as Htot.
  destruct results as [| r rs]; [by destruct events |].
  unfold get_stats. rewrite Hu. eexists. split; [reflexivity |].
  cbn [total_events alert_levels suspicious_events user_stats].
  rewrite H1, H2, H3, H4, Ht, Hs, Hsusp. simpl in *. lia.
Qed.
(** [get_alerts] over what [batch_analyze] returned: the alerts are the
    first twenty suspicious results by falling score, numbered from 1;
    each is HIGH or MEDIUM, so [low_risk] is 0 and [high_risk] and
    [medium_risk] add up to the alerts shown; HIGH results are shown
    before any MEDIUM one, so [high_risk] is the number of HIGH results of
    the batch, up to twenty. *)
Theorem get_alerts_levels (clock : nat -> string)
    (events : list (gmap string pyval)) (results : list analysis) :
  Batch.analyze_all fromisoformat to_datetime str_other user_profiles
    clock 0 events = Ok results ->
  events <> [] ->
  exists alerts high_risk medium_risk,
    get_alerts round2 results
    = Alerts alerts (Batch.suspicious_count results) high_risk medium_risk 0 /\
    length alerts = (20 `min` Batch.suspicious_count results)%nat /\
    (high_risk + medium_risk)%nat = length alerts /\
    high_risk = (20 `min` with_level HIGH results)%nat /\
    forall i a, alerts !! i = Some a -> Alert.id a = S i.
Proof.
  intros Hrun Hne.
  pose proof (analyze_all_scored clock 0 events results Hrun) as Hall.
  assert (Hscored : Forall scored results).
  { eapply Forall2_Forall_r; [exact Hall |].
    apply Forall_true. by intros ev r [_ ?]. }
  destruct results as [| r0 rs];
    [apply Forall2_length in Hall; by destruct events |].
  set (results := r0 :: rs) in *.
  set (found := filter (fun r => is_suspicious r = true) results).
  set (shown := take 20 (sort_by_score found)).
  assert (Hperm : sort_by_score found ≡ₚ found) by apply sort_by_score_perm.
  assert (Hfound : Forall scored found).
  { rewrite Forall_forall in Hscored. apply Forall_forall.
    intros r [_ Hr]%list_elem_of_filter. by apply Hscored. }
  assert (Hsorted : Forall scored (sort_by_score found)) by (by rewrite Hperm).
  assert (Hshown : Forall scored shown) by (by apply Forall_take).
  assert (Hsusp : Forall (fun r => is_suspicious r = true) shown).
  { apply Forall_take. rewrite Hperm. apply Forall_forall.
    by intros r [? _]%list_elem_of_filter. }
  assert (Hlevel : forall l,
            count_level l (imap (alert_of round2) shown) = with_level l shown)
    by (intros l; by apply count_level_imap).
  destruct (scored_counts shown Hshown) as [Hlow Hcount].
  exists (imap (alert_of round2) shown),
    (count_level HIGH (imap (alert_of round2) shown)),
    (count_level MEDIUM (imap (alert_of round2) shown)).
  split; [| split; [| split; [| split]]].
  - unfold get_alerts, results. fold results. fold found. fold shown.
    rewrite (Hlevel LOW), Hlow. unfold Batch.suspicious_count.
    by rewrite (Permutation_length Hperm).
  - rewrite length_imap. unfold shown. rewrite length_take.
    unfold Batch.suspicious_count. by rewrite (Permutation_length Hperm).
  - rewrite !Hlevel, length_imap, <- Hcount.
    by rewrite (filter_all is_suspicious shown Hsusp).
  - rewrite Hlevel. unfold shown.
    rewrite with_level_high_take by (done || apply sort_by_score_falling).
    rewrite (with_level_perm HIGH _ _ Hperm). unfold found.
    rewrite with_level_suspicious by auto. done.
  - intros i a Ha. rewrite list_lookup_imap in Ha.
    destruct (shown !! i); simpl in Ha; [| done]. by injection Ha as <-.
Qed.
End Batch.

Lemma get_stats_counts_witness :
  exists results st,
    Batch.analyze_all Lib.fromisoformat Lib.to_datetime Lib.str_other
      Samples.profiles Samples.tick 0 Samples.day_events = Ok results /\
    get_stats Lib.percentage (Samples.tick 9) results = Stats st /\
    total_events st = 4%nat /\
    low (alert_levels st) = 0%nat /\
    suspicious_events st
    = (high (alert_levels st) + medium (alert_levels st))%nat.
Proof.
  destruct (Batch.analyze_all Lib.fromisoformat Lib.to_datetime Lib.str_other
              Samples.profiles Samples.tick 0 Samples.day_events)
    as [results | e] eqn:Hrun.
  - destruct (get_stats_counts Lib.fromisoformat Lib.to_datetime Lib.str_other
                Samples.profiles Lib.percentage (Samples.tick 9) Samples.tick
                Samples.day_events results Hrun)
      as (st & Hst & Htotal & Hlow & Hsusp & _).
    + discriminate.
    + repeat constructor.
    + exists results, st. exact (conj eq_refl (conj Hst (conj Htotal
                                   (conj Hlow Hsusp)))).
  - exfalso. apply (f_equal analysed) in Hrun. vm_compute in Hrun.
    discriminate Hrun.
Defined.

Lemma get_alerts_levels_witness :
  exists results alerts high_risk medium_risk,
    Batch.analyze_all Lib.fromisoformat Lib.to_datetime Lib.str_other
      Samples.profiles Samples.tick 0 Samples.day_events = Ok results /\
    get_alerts Lib.round2 results
    = Alerts alerts (Batch.suspicious_count results) high_risk medium_risk 0 /\
    (high_risk + medium_risk)%nat = length alerts.
Proof.
  destruct (Batch.analyze_all Lib.fromisoformat Lib.to_datetime Lib.str_other
              Samples.profiles Samples.tick 0 Samples.day_events)
    as [results | e] eqn:Hrun.
  - destruct (get_alerts_levels Lib.fromisoformat Lib.to_datetime Lib.str_other
                Samples.profiles Lib.round2 Samples.tick Samples.day_events
                results Hrun)
      as (alerts & high_risk & medium_risk & Hal & _ & Hsum & _).
    + discriminate.
    + exists results, alerts, high_risk, medium_risk.
      exact (conj eq_refl (conj Hal Hsum)).
  - exfalso. apply (f_equal analysed) in Hrun. vm_compute in Hrun.
    discriminate Hrun.
Defined.

(** A day of four events: the night login and the download are HIGH, the
    other two NORMAL. *)
Example day_on_the_dashboard :
  match Batch.analyze_all Lib.fromisoformat Lib.to_datetime Lib.str_other
          Samples.profiles Samples.tick 0 Samples.day_events with
  | Ok results =>
      match get_alerts Lib.round2 results with
      | Alerts alerts total_alerts high_risk medium_risk low_risk =>
          (Alert.id <$> alerts, total_alerts, high_risk, medium_risk, low_risk)
          = ([1; 2]%nat, 2, 2, 0, 0)%nat
      | NoAlerts => False
      end
  | Raise _ => False
  end.
Proof. vm_compute. reflexivity. Qed.

End DashboardFacts.

(** ** Analysing the training batch *)

Module TrainedFacts.

Import Detector DetectorProps TrainingProps TrainingFacts DetectorFacts
  Shapes.

Section Trained.

Variable fromisoformat : string -> result datetime.
Variable to_datetime : string -> result datetime.
Variable str_other : pyval -> string.

Lemma build_profile_stamp df uid p r :
  build_profile to_datetime df uid = Ok p ->
  r ∈ user_rows df uid ->
  exists t, to_datetime (row_timestamp r) = Ok t.
Proof.
  unfold build_profile, mbind, result_bind.
  destruct (column df "timestamp"); [| done].
  destruct (mapM _ _) as [stamps |] eqn:Hm; [| done].
  intros _ Hr. destruct (to_datetime (row_timestamp r)) as [t | e] eqn:Ht;
    [by eexists |].
  destruct (mapM_raises (fun r => to_datetime (row_timestamp r)) _ r e Hr Ht)
    as [e' He']. congruence.
Qed.

Lemma trained_profile df profiles r :
  create_user_profiles to_datetime df = Ok profiles ->
  r ∈ rows df ->
  exists p,
    profiles !! row_user_id r = Some p /\
    build_profile to_datetime df (row_user_id r) = Ok p.
Proof.
  intros Hc Hr. pose proof Hc as Hc'.
  unfold create_user_profiles, mbind, result_bind in Hc'.
  destruct (column df "user_id"); [| done].
  destruct (foldM_profiles _ _ _ _ _ Hc' (row_user_id r)) as [Hin _].
  destruct Hin as (p & Hb & Hp).
  { apply unique_elem. by apply list_elem_of_fmap_2. }
  by exists p.
Qed.

Lemma profile_free_very_unusual x :
  profile_free ("Very unusual login time: " +:+ x).
Proof. by repeat split. Qed.

Lemma profile_free_country x :
  profile_free ("Login from suspicious country: " +:+ x).
Proof. by repeat split. Qed.

Lemma profile_free_ip x : profile_free ("Login from external IP: " +:+ x).
Proof. by repeat split. Qed.

Lemma profile_free_error x : profile_free ("Error parsing timestamp: " +:+ x).
Proof. by repeat split. Qed.
Lemma time_rule_free hour p acc :
  hours_min (normal_login_hours p) <= hour
    <= hours_max (normal_login_hours p) ->
  exists l, time_rule hour p acc = (acc ++ l, Ok tt) /\ Forall profile_free l.
Proof.
  intros Hwin. unfold time_rule.
  destruct ((hour <? 6) || (22 <? hour)).
  - eexists [_]. split; [reflexivity |].
    constructor; [apply profile_free_very_unusual | constructor].
  - rewrite (proj2 (Z.ltb_ge _ _)), (proj2 (Z.ltb_ge _ _)) by lia.
    exists []. by rewrite app_nil_r.
Qed.

Lemma country_rule_free ev acc :
  exists l,
    country_rule str_other ev acc = (acc ++ l, Ok tt) /\
    Forall profile_free l.
Proof.
  unfold country_rule. destruct (in_strs _ _).
  - eexists [_]. split; [reflexivity |].
    constructor; [apply profile_free_country | constructor].
  - exists []. by rewrite app_nil_r.
Qed.

Lemma location_rule_known ev p acc location :
  ev !! "location" = Some (VStr location) ->
  location ∈ normal_locations p ->
  location_rule str_other ev p acc = (acc, Ok tt).
Proof.
  intros Hl Hin. unfold location_rule, dict_get_default. rewrite Hl. simpl.
  by rewrite bool_decide_eq_true_2.
Qed.

Lemma ip_rule_free ev acc :
  exists l r,
    ip_rule str_other ev acc = (acc ++ l, r) /\ Forall profile_free l.
Proof.
  unfold ip_rule, mbind, body_bind, lift.
  destruct (startswith_of _ _) as [[|] | e]; simpl.
  - exists [], (Ok tt). by rewrite app_nil_r.
  - eexists [_], (Ok tt). split; [reflexivity |].
    constructor; [apply profile_free_ip | constructor].
  - exists [], (Raise e). by rewrite app_nil_r.
Qed.

(** A login row of the batch the detector was trained on, analysed as the
    event [to_dict] makes of it, is never an unknown user, never outside
    the user's normal hours and never at an unusual location, provided the
    scorer's parser reads its time stamp to the hour pandas read. *)
Theorem trained_login_is_profile_free (df : dataframe)
    (profiles : gmap Z profile) (r : row) (ev : gmap string pyval) :
  create_user_profiles to_datetime df = Ok profiles ->
  r ∈ rows df ->
  is_login r = true ->
  "location" ∈ columns df ->
  ev !! "user_id" = Some (VInt (row_user_id r)) ->
  ev !! "event_type" = Some (VStr "login") ->
  ev !! "timestamp" = Some (VStr (row_timestamp r)) ->
  ev !! "location" = Some (VStr (row_location r)) ->
  (forall t t',
     parse_timestamp fromisoformat to_datetime (row_timestamp r) = Ok t ->
     to_datetime (row_timestamp r) = Ok t' ->
     dt_hour t = dt_hour t') ->
  exists anomalies,
    detect_rule_based_anomalies fromisoformat to_datetime str_other
      profiles ev = Ok anomalies /\
    Forall profile_free anomalies.
Proof.
  intros Hc Hr Hlogin Hcol Huid Hty Hts Hloc Hagree.
  destruct (trained_profile df profiles r Hc Hr) as (p & Hp & Hb).
  assert (Hru : r ∈ user_rows df (row_user_id r))
    by (by apply list_elem_of_filter).
  destruct (build_profile_stamp df _ p r Hb Hru) as [t' Ht'].
  pose proof (build_profile_hours to_datetime df _ p r t' Hb Hru Hlogin Ht')
    as Hwin.
  destruct (build_profile_places to_datetime df _ p Hb) as [_ Hplaces].
  rewrite bool_decide_eq_true_2 in Hplaces by done.
  assert (Hknown : row_location r ∈ normal_locations p).
  { rewrite Hplaces. apply unique_elem. by apply list_elem_of_fmap_2. }
  assert (Hlook : lookup_profile profiles (dict_get ev "user_id")
                  = Ok (Some p)).
  { unfold lookup_profile, dict_get. rewrite Huid. simpl. by rewrite Hp. }
  rewrite (detect_known fromisoformat to_datetime str_other profiles ev p Hlook).
  unfold dict_get. rewrite Hty. simpl.
  unfold try_except, login_rules, getitem, mbind, body_bind, lift.
  rewrite Hts. simpl. eexists. split; [reflexivity |].
  destruct (parse_timestamp fromisoformat to_datetime (row_timestamp r))
    as [t | e] eqn:Hparse.
  2: { constructor; [apply profile_free_error | constructor]. }
  rewrite <- (Hagree t t' eq_refl Ht') in Hwin.
  destruct (time_rule_free (dt_hour t) p [] Hwin) as (l1 & -> & H1).
  destruct (country_rule_free ev ([] ++ l1)) as (l2 & -> & H2).
  rewrite (location_rule_known ev p _ _ Hloc Hknown).
  destruct (ip_rule_free ev (([] ++ l1) ++ l2)) as (l3 & r3 & -> & H3).
  assert (Hall : Forall profile_free ((([] ++ l1) ++ l2) ++ l3))
    by (repeat apply Forall_app_2; done).
  destruct r3 as [[] | e]; [exact Hall |].
  apply Forall_app_2; [exact Hall |].
  constructor; [apply profile_free_error | constructor].
Qed.
End Trained.

Lemma trained_login_is_profile_free_witness :
  exists profiles anomalies,
    create_user_profiles Lib.to_datetime Samples.week_batch = Ok profiles /\
    detect_rule_based_anomalies Lib.fromisoformat Lib.to_datetime
      Lib.str_other profiles Samples.monday_login = Ok anomalies /\
    Forall profile_free anomalies.
Proof.
  destruct (create_user_profiles Lib.to_datetime Samples.week_batch)
    as [profiles | e] eqn:Hc.
  - destruct (trained_login_is_profile_free Lib.fromisoformat Lib.to_datetime
                Lib.str_other Samples.week_batch profiles Samples.monday_row
                Samples.monday_login Hc) as (anomalies & Hd & Hfree).
    + by left.
    + reflexivity.
    + apply list_elem_of_In. simpl. tauto.
    + reflexivity.
    + reflexivity.
    + reflexivity.
    + reflexivity.
    + intros t t' H1 H2. vm_compute in H1, H2. congruence.
    + exists profiles, anomalies. exact (conj eq_refl (conj Hd Hfree)).
  - exfalso. apply (f_equal trained) in Hc. vm_compute in Hc. discriminate Hc.
Defined.

(** Alice's Monday login from the training week, seen from an outside
    address: the address is all that is reported. *)
Example monday_login_after_training :
  match create_user_profiles Lib.to_datetime Samples.week_batch with
  | Ok profiles =>
      detect_rule_based_anomalies Lib.fromisoformat Lib.to_datetime
        Lib.str_other profiles Samples.monday_login
      = Ok ["Login from external IP: 203.0.113.45"]
  | Raise _ => False
  end.
Proof. vm_compute. reflexivity. Qed.

End TrainedFacts.
